(** * Roster model construction and projection (logic.py)

    A shallow embedding of the [Solver] / [HospitalSolver] classes of
    [logic.py]: the identifier registry, the decision-variable grid, the
    constraint and objective encoders, the solve orchestration and the roster
    projections.

    Conventions of the embedding.
    - Python exceptions are values of [PyError]; a method that may raise
      returns [result A].
    - A Python [dict] is an insertion-ordered association list ([dict K V]):
      [dict_get] is [d[k]] (raising [KeyError]), [dict_set] is [d[k] = v]
      (overwrite in place, or append a new key at the end).
    - A numpy array of shape (N, R, D, S) is a four-level nested list
      ([grid A]); reading or writing outside the shape raises [IndexError].
      Indices are natural numbers (resource, role, day and shift indices are
      0-based and dense).
    - The constraint model handle [self.model] is the list of constraints
      added so far plus the optional objective.  An encoder only reads the
      registry, the dimensions and the variable grid and calls
      [self.model.Add]; it is embedded as the list of constraints it adds, in
      the order it adds them, or the exception it raises.
    - Soft-leave weights are rationals; the objective encoder only stores
      and copies them.
    - The external engine ([cp_model.CpSolver]) is a parameter: a function
      from the model to a status and a valuation. *)

From stdpp Require Import base decidable option list strings pretty.
From Stdlib Require Import ZArith QArith Lia Ascii.

Local Open Scope Z_scope.
Local Open Scope nat_scope.
Set Warnings "-register-all".

(** ** Exceptions *)

Inductive PyError := KeyError | IndexError | AttributeError.

Inductive result (A : Type) :=
| Ok (a : A)
| Raise (e : PyError).
Arguments Ok {A} a.
Arguments Raise {A} e.

Definition rbind {A B} (m : result A) (f : A → result B) : result B :=
  match m with
  | Ok a => f a
  | Raise e => Raise e
  end.

Global Instance result_bind : MBind result := λ A B f m, rbind m f.
Global Instance result_ret : MRet result := λ A a, Ok a.

Definition of_option {A} (e : PyError) (o : option A) : result A :=
  match o with
  | Some a => Ok a
  | None => Raise e
  end.

(** [for x in l: body(x)] where the body adds constraints (or yields items):
    the items of all iterations in order, or the first exception. *)
Fixpoint for_each {A B} (l : list A) (body : A → result (list B)) : result (list B) :=
  match l with
  | [] => Ok []
  | x :: l' =>
      ys ← body x ;
      zs ← for_each l' body ;
      Ok (ys ++ zs)
  end.

(** [range(n)] *)
Definition range (n : nat) : list nat := seq 0 n.

(** ** Python dictionaries *)

Section PyDict.
Context {K V : Type} `{EqDecision K}.

Definition dict := list (K * V).

Fixpoint dict_find (d : dict) (k : K) : option V :=
  match d with
  | [] => None
  | (k', v) :: d' => if decide (k = k') then Some v else dict_find d' k
  end.

(** [d[k]] *)
Definition dict_get (d : dict) (k : K) : result V :=
  of_option KeyError (dict_find d k).

(** [d[k] = v] *)
Fixpoint dict_set (d : dict) (k : K) (v : V) : dict :=
  match d with
  | [] => [(k, v)]
  | (k', v') :: d' =>
      if decide (k = k') then (k, v) :: d' else (k', v') :: dict_set d' k v
  end.

(** [for k in d] *)
Definition dict_keys (d : dict) : list K := d.*1.

(** [{k: v for k, v in items}] *)
Definition dict_of_items (items : list (K * V)) : dict :=
  foldl (λ d kv, dict_set d kv.1 kv.2) [] items.

End PyDict.
Arguments dict : clear implicits.

(** ** Dense four-dimensional arrays *)

Abbreviation grid A := (list (list (list (list A)))).

(** The array of shape (N, R, D, S) whose cell (n, r, d, s) holds [f n r d s]. *)
Definition grid_build {A} (N R D S : nat) (f : nat → nat → nat → nat → A) : grid A :=
  (λ n, (λ r, (λ d, (λ s, f n r d s) <$> range S) <$> range D) <$> range R) <$> range N.

Definition grid_find {A} (g : grid A) (n r d s : nat) : option A :=
  row ← g !! n; col ← row !! r; day ← col !! d; day !! s.

(** [g[n][r][d][s]] *)
Definition grid_get {A} (g : grid A) (n r d s : nat) : result A :=
  of_option IndexError (grid_find g n r d s).

(** [g[n][r][d][s] = a] *)
Definition grid_set {A} (g : grid A) (n r d s : nat) (a : A) : result (grid A) :=
  _ ← grid_get g n r d s ;
  Ok (alter (alter (alter (<[s := a]>) d) r) n g).

(** ** The constraint model handle *)

(** A boolean decision variable; [NewBoolVar] names it by its coordinates. *)
Record BoolVar := NewBoolVar { var_n : nat; var_r : nat; var_d : nat; var_s : nat }.

Global Instance BoolVar_eq_dec : EqDecision BoolVar.
Proof. solve_decision. Defined.

Definition var_name (x : BoolVar) : string :=
  "resource_n" +:+ pretty (var_n x) +:+ "r" +:+ pretty (var_r x)
    +:+ "d" +:+ pretty (var_d x) +:+ "s" +:+ pretty (var_s x).

(** A linear expression: the summands [coefficient * variable] in order. *)
Definition linexpr := list (Z * BoolVar).

Inductive constraint :=
| LinGe (e : linexpr) (b : Z)   (* e >= b *)
| LinLe (e : linexpr) (b : Z)   (* e <= b *)
| LinEq (e : linexpr) (b : Z).  (* e == b *)

Global Instance constraint_eq_dec : EqDecision constraint.
Proof. solve_decision. Defined.

Record CpModel := {
  constraints : list constraint;
  objective : option (list (Q * BoolVar))  (* Minimize(sum of weight * variable) *)
}.

Definition new_CpModel : CpModel := {| constraints := []; objective := None |}.

Definition valuation := BoolVar → bool.

Definition bool_to_Z (b : bool) : Z := if b then 1%Z else 0%Z.

Definition eval (v : valuation) (e : linexpr) : Z :=
  foldr (λ t acc, (t.1 * bool_to_Z (v t.2) + acc)%Z) 0%Z e.

Definition holds (v : valuation) (c : constraint) : Prop :=
  match c with
  | LinGe e b => (b ≤ eval v e)%Z
  | LinLe e b => (eval v e ≤ b)%Z
  | LinEq e b => eval v e = b
  end.

Definition holdsb (v : valuation) (c : constraint) : bool :=
  match c with
  | LinGe e b => (b <=? eval v e)%Z
  | LinLe e b => (eval v e <=? b)%Z
  | LinEq e b => (eval v e =? b)%Z
  end.

(** A valuation is accepted by a model when it satisfies every constraint. *)
Definition accepted (v : valuation) (m : CpModel) : Prop :=
  Forall (holds v) (constraints m).

Definition acceptedb (v : valuation) (m : CpModel) : bool :=
  forallb (holdsb v) (constraints m).

Inductive CpSolverStatus := UNKNOWN | MODEL_INVALID | FEASIBLE | INFEASIBLE | OPTIMAL.

Record CpSolver := {
  max_time_in_seconds : nat;
  num_search_workers : nat;
  solve_status : CpSolverStatus;
  Value : valuation
}.

(** The external engine: [CpSolver.Solve] under a time budget and a number of
    workers.  The valuation stands for the solution the engine holds; it has
    one only when the status is [OPTIMAL] or [FEASIBLE], so what the function
    returns beside another status carries no meaning. *)
Definition Engine := nat → nat → CpModel → CpSolverStatus * valuation.

(** ** The solver session ([self]) *)

Record Solver := {
  maxSearchTime : nat;
  numCores : nat;
  model : CpModel;
  numDays : nat;
  numShifts : nat;
  numResources : nat;
  numRoles : nat;
  resourcesLookup : dict nat string;
  resourceIdLookup : dict string nat;
  rolesLookup : dict nat string;
  rolesIdLookup : dict string nat;
  resourceRoleMapping : dict nat (list nat);
  vars : grid BoolVar;
  requirementMapping : list (list (dict nat Z));
  non_sequential_shifts_indices : list (list Z);
  solver : option CpSolver
}.

Definition set_model (m : CpModel) (self : Solver) : Solver :=
  {| maxSearchTime := maxSearchTime self; numCores := numCores self; model := m;
     numDays := numDays self; numShifts := numShifts self;
     numResources := numResources self; numRoles := numRoles self;
     resourcesLookup := resourcesLookup self; resourceIdLookup := resourceIdLookup self;
     rolesLookup := rolesLookup self; rolesIdLookup := rolesIdLookup self;
     resourceRoleMapping := resourceRoleMapping self; vars := vars self;
     requirementMapping := requirementMapping self;
     non_sequential_shifts_indices := non_sequential_shifts_indices self;
     solver := solver self |}.

Definition set_shape (days shifts : nat) (self : Solver) : Solver :=
  {| maxSearchTime := maxSearchTime self; numCores := numCores self; model := model self;
     numDays := days; numShifts := shifts;
     numResources := numResources self; numRoles := numRoles self;
     resourcesLookup := resourcesLookup self; resourceIdLookup := resourceIdLookup self;
     rolesLookup := rolesLookup self; rolesIdLookup := rolesIdLookup self;
     resourceRoleMapping := resourceRoleMapping self; vars := vars self;
     requirementMapping := requirementMapping self;
     non_sequential_shifts_indices := non_sequential_shifts_indices self;
     solver := solver self |}.

(** The attributes written by [_createEmployeeRoleLookup]. *)
Record Registry := {
  reg_numResources : nat;
  reg_numRoles : nat;
  reg_resourcesLookup : dict nat string;
  reg_resourceIdLookup : dict string nat;
  reg_rolesLookup : dict nat string;
  reg_rolesIdLookup : dict string nat;
  reg_resourceRoleMapping : dict nat (list nat)
}.

Definition set_registry (reg : Registry) (self : Solver) : Solver :=
  {| maxSearchTime := maxSearchTime self; numCores := numCores self; model := model self;
     numDays := numDays self; numShifts := numShifts self;
     numResources := reg_numResources reg; numRoles := reg_numRoles reg;
     resourcesLookup := reg_resourcesLookup reg; resourceIdLookup := reg_resourceIdLookup reg;
     rolesLookup := reg_rolesLookup reg; rolesIdLookup := reg_rolesIdLookup reg;
     resourceRoleMapping := reg_resourceRoleMapping reg; vars := vars self;
     requirementMapping := requirementMapping self;
     non_sequential_shifts_indices := non_sequential_shifts_indices self;
     solver := solver self |}.

Definition set_vars (g : grid BoolVar) (self : Solver) : Solver :=
  {| maxSearchTime := maxSearchTime self; numCores := numCores self; model := model self;
     numDays := numDays self; numShifts := numShifts self;
     numResources := numResources self; numRoles := numRoles self;
     resourcesLookup := resourcesLookup self; resourceIdLookup := resourceIdLookup self;
     rolesLookup := rolesLookup self; rolesIdLookup := rolesIdLookup self;
     resourceRoleMapping := resourceRoleMapping self; vars := g;
     requirementMapping := requirementMapping self;
     non_sequential_shifts_indices := non_sequential_shifts_indices self;
     solver := solver self |}.

Definition set_requirementMapping (m : list (list (dict nat Z))) (self : Solver) : Solver :=
  {| maxSearchTime := maxSearchTime self; numCores := numCores self; model := model self;
     numDays := numDays self; numShifts := numShifts self;
     numResources := numResources self; numRoles := numRoles self;
     resourcesLookup := resourcesLookup self; resourceIdLookup := resourceIdLookup self;
     rolesLookup := rolesLookup self; rolesIdLookup := rolesIdLookup self;
     resourceRoleMapping := resourceRoleMapping self; vars := vars self;
     requirementMapping := m;
     non_sequential_shifts_indices := non_sequential_shifts_indices self;
     solver := solver self |}.

Definition set_non_sequential (m : list (list Z)) (self : Solver) : Solver :=
  {| maxSearchTime := maxSearchTime self; numCores := numCores self; model := model self;
     numDays := numDays self; numShifts := numShifts self;
     numResources := numResources self; numRoles := numRoles self;
     resourcesLookup := resourcesLookup self; resourceIdLookup := resourceIdLookup self;
     rolesLookup := rolesLookup self; rolesIdLookup := rolesIdLookup self;
     resourceRoleMapping := resourceRoleMapping self; vars := vars self;
     requirementMapping := requirementMapping self;
     non_sequential_shifts_indices := m;
     solver := solver self |}.

Definition set_solver (sv : CpSolver) (self : Solver) : Solver :=
  {| maxSearchTime := maxSearchTime self; numCores := numCores self; model := model self;
     numDays := numDays self; numShifts := numShifts self;
     numResources := numResources self; numRoles := numRoles self;
     resourcesLookup := resourcesLookup self; resourceIdLookup := resourceIdLookup self;
     rolesLookup := rolesLookup self; rolesIdLookup := rolesIdLookup self;
     resourceRoleMapping := resourceRoleMapping self; vars := vars self;
     requirementMapping := requirementMapping self;
     non_sequential_shifts_indices := non_sequential_shifts_indices self;
     solver := Some sv |}.

(** [self.model.Add(c)] for each [c] of [cs], in order. *)
Definition Add (cs : list constraint) (self : Solver) : Solver :=
  set_model {| constraints := constraints (model self) ++ cs;
               objective := objective (model self) |} self.

(** [self.model.Minimize(e)] *)
Definition Minimize (e : list (Q * BoolVar)) (self : Solver) : Solver :=
  set_model {| constraints := constraints (model self); objective := Some e |} self.

(** [for x in l: state = body(x, state)], stopping at the first exception. *)
Fixpoint fold_result {A S} (l : list A) (body : A → S → result S) (s : S) : result S :=
  match l with
  | [] => Ok s
  | x :: l' => s' ← body x s; fold_result l' body s'
  end.

(** ** class Solver *)

(** [Solver.__init__]; [cpu_count] stands for [os.cpu_count()].  The
    constructor sets only [maxSearchTime] and [numCores]; the other fields
    stand for attributes that do not exist before [solve], which assigns each
    of them before it reads it. *)
Definition Solver_init (cpu_count : nat) (maxSearchTime : nat) (systemCore : bool) : Solver :=
  {| maxSearchTime := maxSearchTime;
     numCores := if systemCore then cpu_count else 1;
     model := new_CpModel;
     numDays := 0; numShifts := 0; numResources := 0; numRoles := 0;
     resourcesLookup := []; resourceIdLookup := [];
     rolesLookup := []; rolesIdLookup := [];
     resourceRoleMapping := []; vars := [];
     requirementMapping := []; non_sequential_shifts_indices := [];
     solver := None |}.

Definition _createModel (self : Solver) : Solver := set_model new_CpModel self.

Definition _createVars (self : Solver) : Solver :=
  set_vars (grid_build (numResources self) (numRoles self) (numDays self) (numShifts self)
              NewBoolVar) self.

(** [if not (x in acc): acc.append(x)] *)
Definition append_new {A} `{EqDecision A} (acc : list A) (x : A) : list A :=
  if decide (x ∈ acc) then acc else acc ++ [x].

(** [enumerate(l)] *)
Definition enumerate {A} (l : list A) : list (nat * A) := imap pair l.

Definition _createEmployeeRoleLookup_registry (arg : dict string (list string)) : result Registry :=
  (* Creating Resource Lookup *)
  let ids := dict_keys arg in
  let resources := foldl append_new [] ids in
  let resourcesLookup := dict_of_items (enumerate resources) in
  let resourceIdLookup := dict_of_items ((λ p, (p.2, p.1)) <$> enumerate resources) in
  let numResources := length resources in
  (* Create Roles Lookup *)
  ids ← for_each (dict_keys arg) (λ resource, l ← dict_get arg resource; Ok [l]);
  let roles := foldl (λ roles roleList, foldl append_new roles roleList) [] ids in
  let rolesLookup := dict_of_items (enumerate roles) in
  let rolesIdLookup := dict_of_items ((λ p, (p.2, p.1)) <$> enumerate roles) in
  let numRoles := length roles in
  (* Create Resource Role mapping from original args *)
  resourceRoleMapping ←
    fold_result (dict_keys arg) (λ resource mapping,
      roleList ← dict_get arg resource;
      roleIdList ← for_each roleList (λ role, i ← dict_get rolesIdLookup role; Ok [i]);
      rid ← dict_get resourceIdLookup resource;
      Ok (dict_set mapping rid roleIdList)) [];
  Ok {| reg_numResources := numResources; reg_numRoles := numRoles;
        reg_resourcesLookup := resourcesLookup; reg_resourceIdLookup := resourceIdLookup;
        reg_rolesLookup := rolesLookup; reg_rolesIdLookup := rolesIdLookup;
        reg_resourceRoleMapping := resourceRoleMapping |}.

Definition _createEmployeeRoleLookup (arg : dict string (list string)) (self : Solver)
  : result Solver :=
  reg ← _createEmployeeRoleLookup_registry arg;
  Ok (set_registry reg self).

(** The constraint [x == 0]. *)
Definition is_zero (x : BoolVar) : constraint := LinEq [(1%Z, x)] 0.

Definition _removeExtraRoles_adds (self : Solver) : result (list constraint) :=
  for_each (range (numResources self)) (λ resource,
    roleAbsent ← for_each (range (numRoles self)) (λ role,
      roles ← dict_get (resourceRoleMapping self) resource;
      Ok (if decide (role ∈ roles) then [] else [role]));
    for_each roleAbsent (λ role,
      for_each (range (numDays self)) (λ d,
        for_each (range (numShifts self)) (λ s,
          x ← grid_get (vars self) resource role d s;
          Ok [is_zero x])))).

Definition _removeExtraRoles (self : Solver) : result Solver :=
  cs ← _removeExtraRoles_adds self;
  Ok (Add cs self).

(** The value assigned to [self.requirementMapping]. *)
Definition _createRequirementMapping_value (arg : list (list (dict string Z))) (self : Solver)
  : result (list (list (dict nat Z))) :=
  for_each arg (λ day,
    dayRequirements ← for_each day (λ shift,
      items ← for_each (dict_keys shift) (λ role,
        k ← dict_get (rolesIdLookup self) role;
        v ← dict_get shift role;
        Ok [(k, v)]);
      Ok [dict_of_items items]);
    Ok [dayRequirements]).

Definition _createRequirementMapping (arg : list (list (dict string Z))) (self : Solver)
  : result Solver :=
  mapping ← _createRequirementMapping_value arg self;
  Ok (set_requirementMapping mapping self).

(** The constraints of [_setRequirementConstraint].  Requirement values are
    kept as unbounded integers: a bound outside the engine's 64-bit range,
    which [model.Add] rejects, is outside this embedding (see
    [requirements_in_range]). *)
Definition _setRequirementConstraint_adds (self : Solver) : result (list constraint) :=
  for_each (range (numDays self)) (λ d,
    for_each (range (numShifts self)) (λ s,
      day ← of_option IndexError (requirementMapping self !! d);
      roleRequirements ← of_option IndexError (day !! s);
      for_each (dict_keys roleRequirements) (λ role,
        e ← for_each (range (numResources self)) (λ resource,
          x ← grid_get (vars self) resource role d s;
          Ok [(1%Z, x)]);
        q ← dict_get roleRequirements role;
        Ok [LinGe e q]))).

Definition _setRequirementConstraint (self : Solver) : result Solver :=
  cs ← _setRequirementConstraint_adds self;
  Ok (Add cs self).

Definition _maxOneShiftPerDay_adds (self : Solver) : result (list constraint) :=
  for_each (range (numResources self)) (λ n,
    for_each (range (numDays self)) (λ d,
      e ← for_each (range (numRoles self)) (λ r,
        for_each (range (numShifts self)) (λ s,
          x ← grid_get (vars self) n r d s;
          Ok [(1%Z, x)]));
      Ok [LinLe e 1])).

Definition _maxOneShiftPerDay (self : Solver) : result Solver :=
  cs ← _maxOneShiftPerDay_adds self;
  Ok (Add cs self).

(** [m[i][j] = v] on a two-dimensional array *)
Definition matrix_set (m : list (list Z)) (i j : nat) (v : Z) : result (list (list Z)) :=
  row ← of_option IndexError (m !! i);
  _ ← of_option IndexError (row !! j);
  Ok (<[i := <[j := v]> row]> m).


Definition matrix_find (m : list (list Z)) (i j : nat) : option Z :=
  row ← m !! i; row !! j.

(** [m[i][j]] *)
Definition matrix_get (m : list (list Z)) (i j : nat) : result Z :=
  of_option IndexError (matrix_find m i j).

(** The compatibility matrix of [_nextDayShift]: both indices are read from
    component 0 of each declared pair.  The guard [if arg:] only skips the
    loop for an empty list, over which the loop does nothing anyway. *)
Definition _nextDayShift_matrix (arg : list (nat * nat)) (self : Solver)
  : result (list (list Z)) :=
  fold_result arg (λ dependence m,
    let i_idx := dependence.1 in
    let j_idx := dependence.1 in
    matrix_set m i_idx j_idx 1%Z)
    (replicate (numShifts self) (replicate (numShifts self) 0%Z)).

(** The constraints of [_nextDayShift]; [range(numDays - 1)] is empty when
    there is no day, as is [range] of the truncated difference. *)
Definition _nextDayShift_adds (self : Solver) : result (list constraint) :=
  for_each (range (numResources self)) (λ n,
    for_each (range (numDays self - 1)) (λ d,
      for_each (range (numShifts self)) (λ s,
        e ← for_each (range (numShifts self)) (λ j,
          for_each (range (numRoles self)) (λ r,
            x ← grid_get (vars self) n r d s;
            m ← matrix_get (non_sequential_shifts_indices self) s j;
            y ← grid_get (vars self) n r (d + 1) j;
            Ok [(m, x); (1%Z, y)]));
        Ok [LinLe e 1]))).

Definition _nextDayShift (arg : list (nat * nat)) (self : Solver) : result Solver :=
  m ← _nextDayShift_matrix arg self;
  let self := set_non_sequential m self in
  cs ← _nextDayShift_adds self;
  Ok (Add cs self).

Definition _banShift_adds (arg : nat * nat * nat) (self : Solver) : result (list constraint) :=
  for_each (range (numRoles self)) (λ r,
    x ← grid_get (vars self) arg.1.1 r arg.1.2 arg.2;
    Ok [is_zero x]).

Definition _banShift (arg : nat * nat * nat) (self : Solver) : result Solver :=
  cs ← _banShift_adds arg self;
  Ok (Add cs self).

(** [_finalSolve]: the updated session and the returned status. *)
Definition _finalSolve (engine : Engine) (self : Solver) : Solver * CpSolverStatus :=
  let out := engine (maxSearchTime self) (numCores self) (model self) in
  let status := out.1 in
  (set_solver {| max_time_in_seconds := maxSearchTime self;
                 num_search_workers := numCores self;
                 solve_status := status;
                 Value := out.2 |} self,
   status).

(** The problem description [args]. *)
Record Args := {
  args0 : dict string (list string);     (* resource -> roles *)
  args1 : list (list (dict string Z));   (* day, shift -> role -> minimum *)
  args2 : list (string * nat);           (* hard leaves (resource, day) *)
  args3 : list (string * nat * Q)        (* soft leaves (resource, day, weight) *)
}.

(** Model construction: the body of [solve] up to the call of [_finalSolve]. *)
Definition build (childConstraints : Args → Solver → result Solver)
    (args : Args) (self : Solver) : result Solver :=
  let self := _createModel self in
  let days := length (args1 args) in
  day0 ← of_option IndexError (args1 args !! 0);
  let self := set_shape days (length day0) self in
  self ← _createEmployeeRoleLookup (args0 args) self;
  let self := _createVars self in
  self ← _removeExtraRoles self;
  self ← _createRequirementMapping (args1 args) self;
  self ← _setRequirementConstraint self;
  self ← _maxOneShiftPerDay self;
  childConstraints args self.

(** [solve]: the session after the call and the value returned to the caller
    ([None] is Python's [None]: the method body has no [return]). *)
Definition solve (engine : Engine) (childConstraints : Args → Solver → result Solver)
    (args : Args) (self : Solver) : result (Solver * option CpSolverStatus) :=
  self ← build childConstraints args self;
  let '(self, _) := _finalSolve engine self in
  Ok (self, None).

(** The registry attributes of a session. *)
Definition registry_of (self : Solver) : Registry :=
  {| reg_numResources := numResources self; reg_numRoles := numRoles self;
     reg_resourcesLookup := resourcesLookup self;
     reg_resourceIdLookup := resourceIdLookup self;
     reg_rolesLookup := rolesLookup self; reg_rolesIdLookup := rolesIdLookup self;
     reg_resourceRoleMapping := resourceRoleMapping self |}.

(** [Solver.childConstraints]: [pass] *)
Definition Solver_childConstraints (args : Args) (self : Solver) : result Solver := Ok self.

(** ** class HospitalSolver *)

Definition HospitalSolver_init (cpu_count : nat) : Solver :=
  set_shape 0 3 (Solver_init cpu_count 250 true).

Definition _dayAfterNight (self : Solver) : result Solver :=
  _nextDayShift [(2, 0); (2, 1); (2, 2)] self.

Definition _hardLeave_adds (arg : list (string * nat)) (self : Solver) : result (list constraint) :=
  for_each arg (λ leave,
    for_each (range (numShifts self)) (λ shift,
      rid ← dict_get (resourceIdLookup self) leave.1;
      _banShift_adds (rid, leave.2, shift) self)).

Definition _hardLeave (arg : list (string * nat)) (self : Solver) : result Solver :=
  cs ← _hardLeave_adds arg self;
  Ok (Add cs self).

(** The penalty array [resourcesLeaveRequests] after the request loop. *)
Definition _softLeave_grid (arg : list (string * nat * Q)) (self : Solver) : result (grid Q) :=
  fold_result arg (λ request g,
    fold_result (range (numShifts self)) (λ s g,
      fold_result (range (numRoles self)) (λ r g,
        rid ← dict_get (resourceIdLookup self) request.1.1;
        grid_set g rid r request.1.2 s request.2) g) g)
    (grid_build (numResources self) (numRoles self) (numDays self) (numShifts self)
       (λ _ _ _ _, 0%Q)).

Definition _softLeave_objective (resourcesLeaveRequests : grid Q) (self : Solver)
  : result (list (Q * BoolVar)) :=
  for_each (range (numResources self)) (λ n,
    for_each (range (numRoles self)) (λ r,
      for_each (range (numDays self)) (λ d,
        for_each (range (numShifts self)) (λ s,
          w ← grid_get resourcesLeaveRequests n r d s;
          x ← grid_get (vars self) n r d s;
          Ok [(w, x)])))).

Definition _softLeave (arg : list (string * nat * Q)) (self : Solver) : result Solver :=
  resourcesLeaveRequests ← _softLeave_grid arg self;
  e ← _softLeave_objective resourcesLeaveRequests self;
  Ok (Minimize e self).

Definition HospitalSolver_childConstraints (args : Args) (self : Solver) : result Solver :=
  self ← _dayAfterNight self;
  self ← _hardLeave (args2 args) self;
  _softLeave (args3 args) self.

(** ** Roster projection *)

(** The values of the roster dictionaries. *)
Inductive pyvalue :=
| PyInt (z : Z)
| PyStr (s : string)
| PyList (l : list pyvalue)
| PyTuple (l : list pyvalue)
| PyDict (d : list (string * pyvalue)).

(** [d[k].append(x)] *)
Definition py_append (d : dict string pyvalue) (k : string) (x : pyvalue)
  : result (dict string pyvalue) :=
  v ← dict_get d k;
  match v with
  | PyList l => Ok (dict_set d k (PyList (l ++ [x])))
  | _ => Raise AttributeError
  end.

(** [len(d[k])] *)
Definition py_len (d : dict string pyvalue) (k : string) : result nat :=
  v ← dict_get d k;
  match v with
  | PyList l | PyTuple l => Ok (length l)
  | PyDict d => Ok (length d)
  | PyStr s => Ok (String.length s)
  | PyInt _ => Raise AttributeError
  end.

(** [self.solver.Value]: the valuation query of the solved session. *)
Definition solver_Value (self : Solver) : result valuation :=
  sv ← of_option AttributeError (solver self);
  Ok (Value sv).

(** One day of [getRosterByResource]: the loops over shifts and roles, on
    the pair of the local [day] dictionary and [resourceCalendar].  Every
    mutation of [day] is immediately followed by storing it under the day's
    key, so the stored value always equals the aliased [day] object. *)
Definition getRosterByResource_day (self : Solver) (resourceID d : nat)
    (resourceCalendar : dict string pyvalue) : result (dict string pyvalue) :=
  st ← fold_result (range (numShifts self)) (λ s st,
    fold_result (range (numRoles self)) (λ r st,
      value ← solver_Value self;
      x ← grid_get (vars self) resourceID r d s;
      if (value : valuation) x then
        role ← dict_get (rolesLookup self) r;
        let day := dict_set st.1 "Role" (PyStr role) in
        let day := dict_set day "Shift" (PyInt (Z.of_nat s)) in
        Ok (day, dict_set st.2 ("Day_" +:+ pretty d) (PyDict day))
      else Ok st) st) ([], resourceCalendar);
  Ok st.2.

Definition getRosterByResource (resourceName : string) (self : Solver)
  : result (dict string pyvalue) :=
  resourceID ← dict_get (resourceIdLookup self) resourceName;
  fold_result (range (numDays self)) (getRosterByResource_day self resourceID)
    [("Resource", PyStr resourceName)].

Definition getRosterAllResources (self : Solver) : result (dict string pyvalue) :=
  fold_result (range (numResources self)) (λ n calendar,
    key ← dict_get (resourcesLookup self) n;
    name ← dict_get (resourcesLookup self) n;
    roster ← getRosterByResource name self;
    Ok (dict_set calendar key (PyDict roster))) [].

(** The [role] dictionary of [getRosterByDay] for one (day, shift, role). *)
Definition getRosterByDay_role (self : Solver) (day s r : nat) : result (dict string pyvalue) :=
  fold_result (range (numResources self)) (λ n role,
    value ← solver_Value self;
    x ← grid_get (vars self) n r day s;
    if (value : valuation) x then
      dayReq ← of_option IndexError (requirementMapping self !! day);
      shiftReq ← of_option IndexError (dayReq !! s);
      q ← dict_get shiftReq r;
      let role := dict_set role "Requirement" (PyTuple [PyInt q]) in
      name ← dict_get (resourcesLookup self) n;
      py_append role "Resources" (PyStr name)
    else Ok role) [("Resources", PyList [])].

(** The [shift] dictionary of [getRosterByDay] for one (day, shift). *)
Definition getRosterByDay_shift (self : Solver) (day s : nat) : result (dict string pyvalue) :=
  fold_result (range (numRoles self)) (λ r shift,
    role ← getRosterByDay_role self day s r;
    len ← py_len role "Resources";
    if decide (len ≠ 0) then
      name ← dict_get (rolesLookup self) r;
      Ok (dict_set shift name (PyDict role))
    else Ok shift) [("Shift", PyInt (Z.of_nat s))].

Definition getRosterByDay (day : nat) (self : Solver) : result (dict string pyvalue) :=
  fold_result (range (numShifts self)) (λ s dayCalendar,
    shift ← getRosterByDay_shift self day s;
    if decide (1 ≤ length shift) then
      Ok (dict_set dayCalendar ("Shift " +:+ pretty s) (PyDict shift))
    else Ok dayCalendar) [("Day", PyInt (Z.of_nat day))].

Definition getRosterAllDays (self : Solver) : result (dict string pyvalue) :=
  fold_result (range (numDays self)) (λ d Calendar,
    roster ← getRosterByDay d self;
    Ok (dict_set Calendar ("Day " +:+ pretty d) (PyDict roster))) [].

Definition HospitalSolver_build := build HospitalSolver_childConstraints.
Definition HospitalSolver_solve (engine : Engine) := solve engine HospitalSolver_childConstraints.

(** ** Worked instances *)

Definition demo_args : Args :=
  {| args0 := [("A", ["R1"]); ("B", ["R1"; "R2"])];
     args1 := [[ [("R1", 1%Z)]; []; [] ]; [ []; []; [] ]];
     args2 := [("B", 1)];
     args3 := [("A", 0, 9 # 10); ("B", 0, 1 # 10); ("A", 0, 5 # 10)] |}.

(** The valuation in which B works role R1 on day 0, shift 0. *)
Definition demo_valuation : valuation := λ x, bool_decide (x = NewBoolVar 1 0 0 0).

(** An engine that answers [OPTIMAL] with [demo_valuation]. *)
Definition demo_engine : Engine := λ _ _ _, (OPTIMAL, demo_valuation).

(** The session after model construction on [demo_args]. *)
Definition demo_built : Solver :=
  Eval vm_compute in
    match HospitalSolver_build demo_args (HospitalSolver_init 4) with
    | Ok s => s
    | Raise _ => HospitalSolver_init 4
    end.

(** The session after [solve] on [demo_args] with [demo_engine]. *)
Definition demo_solved : Solver :=
  Eval vm_compute in (_finalSolve demo_engine demo_built).1.

(** The solver object [_finalSolve] stores in [demo_solved]. *)
Definition demo_answer : CpSolver :=
  {| max_time_in_seconds := 250; num_search_workers := 4;
     solve_status := OPTIMAL; Value := demo_valuation |}.

(** A valuation that also puts A on role R1 of day 1, shift 0, for which
    [demo_args] states no requirement. *)
Definition overstaffed_valuation : valuation :=
  λ x, bool_decide (x = NewBoolVar 1 0 0 0 ∨ x = NewBoolVar 0 0 1 0).

Definition overstaffed_answer : CpSolver :=
  {| max_time_in_seconds := 250; num_search_workers := 4;
     solve_status := OPTIMAL; Value := overstaffed_valuation |}.

(** The session after [solve] on [demo_args] when the engine answers with
    [overstaffed_valuation]. *)
Definition demo_overstaffed : Solver :=
  Eval vm_compute in (_finalSolve (λ _ _ _, (OPTIMAL, overstaffed_valuation)) demo_built).1.

(** One resource whose only role is named like the key of the shift number. *)
Definition shift_role_args : Args :=
  {| args0 := [("A", ["Shift"])];
     args1 := [[ [("Shift", 1%Z)]; []; [] ]];
     args2 := [];
     args3 := [] |}.

(** [demo_built] after running [_removeExtraRoles] on it once more. *)
Definition demo_pruned_again : Solver :=
  Eval vm_compute in
    match _removeExtraRoles demo_built with
    | Ok s => s
    | Raise _ => demo_built
    end.

(** One resource, one role, two days of three shifts, no requirement. *)
Definition two_day_args : Args :=
  {| args0 := [("A", ["R1"])];
     args1 := [[ []; []; [] ]; [ []; []; [] ]];
     args2 := [];
     args3 := [] |}.

(** The base-class session constructed on [two_day_args]. *)
Definition two_day_session : Solver :=
  Eval vm_compute in
    match build Solver_childConstraints two_day_args (Solver_init 1 250 true) with
    | Ok s => s
    | Raise _ => Solver_init 1 250 true
    end.

(** [two_day_session] after declaring the single pair (2, 0). *)
Definition two_day_session_night : Solver :=
  Eval vm_compute in
    match _nextDayShift [(2, 0)] two_day_session with
    | Ok s => s
    | Raise _ => two_day_session
    end.

(** One day of a single shift whose requirement names a role no resource has. *)
Definition unregistered_role_args : Args :=
  {| args0 := [("A", ["R1"])];
     args1 := [[ [("R2", 1%Z)] ]];
     args2 := [];
     args3 := [] |}.

(** One day of a single shift, well-formed. *)
Definition one_shift_args : Args :=
  {| args0 := [("A", ["R1"])];
     args1 := [[ [("R1", 1%Z)] ]];
     args2 := [];
     args3 := [] |}.

(** * Vocabulary of the properties *)

(** The number of variables of [xs] that are true under [v]. *)
Definition count_true (v : valuation) (xs : list BoolVar) : nat :=
  length (filter (λ x, v x = true) xs).

(** The summands [1 * x] for the variables [xs]. *)
Definition ones (xs : list BoolVar) : linexpr := (λ x, (1%Z, x)) <$> xs.

(** The variables of one resource on one day, roles ascending then shifts. *)
Definition day_vars (self : Solver) (n d : nat) : list BoolVar :=
  r ← range (numRoles self); s ← range (numShifts self); [NewBoolVar n r d s].

(** The variables of one (role, day, shift) slot, resources ascending. *)
Definition slot_vars (self : Solver) (r d s : nat) : list BoolVar :=
  n ← range (numResources self); [NewBoolVar n r d s].

(** The variable grid is the one [_createVars] builds for the session's shape. *)
Definition vars_ok (self : Solver) : Prop :=
  vars self = grid_build (numResources self) (numRoles self) (numDays self) (numShifts self)
                NewBoolVar.

(** The variables a constraint mentions. *)
Definition constraint_vars (c : constraint) : list BoolVar :=
  match c with
  | LinGe e _ | LinLe e _ | LinEq e _ => e.*2
  end.

(** An encoder run succeeds and everything it adds is in the session's model. *)
Definition adds_in (cs : result (list constraint)) (self : Solver) : Prop :=
  ∃ l, cs = Ok l ∧ ∀ c, c ∈ l → c ∈ constraints (model self).

(** What the construction steps of the base class leave in the session. *)
Record constructed_base (args : Args) (st : Solver) : Prop := {
  c_days : numDays st = length (args1 args);
  c_shifts : ∃ day0, args1 args !! 0 = Some day0 ∧ numShifts st = length day0;
  c_registry : _createEmployeeRoleLookup_registry (args0 args) = Ok (registry_of st);
  c_vars : vars st = grid_build (numResources st) (numRoles st) (numDays st) (numShifts st)
                       NewBoolVar;
  c_requirement : _createRequirementMapping_value (args1 args) st = Ok (requirementMapping st);
  c_extra : adds_in (_removeExtraRoles_adds st) st;
  c_required : adds_in (_setRequirementConstraint_adds st) st;
  c_exclusive : adds_in (_maxOneShiftPerDay_adds st) st
}.

(** What the construction of [HospitalSolver] leaves in the session. *)
Record constructed (args : Args) (st : Solver) : Prop := {
  c_base : constructed_base args st;
  c_matrix : _nextDayShift_matrix [(2, 0); (2, 1); (2, 2)] st
             = Ok (non_sequential_shifts_indices st);
  c_transition : adds_in (_nextDayShift_adds st) st;
  c_hard : adds_in (_hardLeave_adds (args2 args) st) st;
  c_objective : ∃ g e, _softLeave_grid (args3 args) st = Ok g
                  ∧ _softLeave_objective g st = Ok e
                  ∧ objective (model st) = Some e
}.

(** The attributes an encoder reads: shape, registry and variable grid. *)
Definition env (self : Solver) :=
  (numDays self, numShifts self, numResources self, numRoles self,
   resourcesLookup self, resourceIdLookup self, rolesLookup self, rolesIdLookup self,
   resourceRoleMapping self, vars self).

(** The attributes that stay fixed once the requirement mapping is stored. *)
Definition env_req (self : Solver) := (env self, requirementMapping self).

(** A request targets the grid coordinate (n, d) when its resource key has
    index [n] and its day is [d]. *)
Definition targets (ids : dict string nat) (n d : nat) (request : string * nat * Q) : Prop :=
  dict_find ids request.1.1 = Some n ∧ request.1.2 = d.

Global Instance targets_dec ids n d request : Decision (targets ids n d request).
Proof. unfold targets. apply _. Defined.

(** The weight of the last request of the sequence that targets (n, d), and
    zero when no request targets it. *)
Definition last_weight (ids : dict string nat) (requests : list (string * nat * Q))
    (n d : nat) : Q :=
  match last (filter (targets ids n d) requests) with
  | Some request => request.2
  | None => 0%Q
  end.

(** Entry (s, j) of the compatibility matrix built from the declared pairs:
    1 on the diagonal at the first components, 0 elsewhere. *)
Definition flagged (arg : list (nat * nat)) (s j : nat) : Z :=
  if decide (s = j ∧ s ∈ arg.*1) then 1%Z else 0%Z.

(** The summands of the constraint added for (n, d, s). *)
Definition transition_expr (arg : list (nat * nat)) (self : Solver) (n d s : nat) : linexpr :=
  j ← range (numShifts self); r ← range (numRoles self);
  [(flagged arg s j, NewBoolVar n r d s); (1%Z, NewBoolVar n r (d + 1) j)].

(** The sum of a list of integers. *)
Definition sumZ (l : list Z) : Z := foldr Z.add 0%Z l.

(** The (shift, role) index pairs in the order the transition sum visits them. *)
Definition shift_role_pairs (self : Solver) : list (nat * nat) :=
  j ← range (numShifts self); r ← range (numRoles self); [(j, r)].

(** The valuation in which exactly the variables [x1] and [x2] are true. *)
Definition assign_two (x1 x2 : BoolVar) : valuation :=
  λ x, bool_decide (x = x1 ∨ x = x2).

(** The position of the first occurrence of [x] in [l]. *)
Fixpoint index_of {A} `{EqDecision A} (x : A) (l : list A) : option nat :=
  match l with
  | [] => None
  | y :: l' => if decide (x = y) then Some 0 else S <$> index_of x l'
  end.

(** The list built by the de-duplication loops of [_createEmployeeRoleLookup]. *)
Definition first_seen {A} `{EqDecision A} (l : list A) : list A := foldl append_new [] l.

(** [names] and [ids] index the distinct elements of [scanned] in first-seen
    order: every scanned key has exactly one index however often it occurs,
    the two dictionaries are inverse to each other, the indices are the
    numbers below [count], and indices are ordered as first occurrences. *)
Record first_seen_indexing (scanned : list string) (ids : dict string nat)
    (names : dict nat string) (count : nat) : Prop := {
  fsi_keys : ∀ k, k ∈ scanned ↔ is_Some (dict_find ids k);
  fsi_inverse : ∀ k i, dict_find ids k = Some i ↔ dict_find names i = Some k;
  fsi_dense : ∀ i, i < count ↔ is_Some (dict_find names i);
  fsi_order : ∀ k1 k2 i1 i2 p1 p2,
    dict_find ids k1 = Some i1 → dict_find ids k2 = Some i2 →
    index_of k1 scanned = Some p1 → index_of k2 scanned = Some p2 →
    (i1 < i2 ↔ p1 < p2)
}.

(** The role keys in scanning order: resources in key order, then each
    resource's role list in order. *)
Definition role_scan (arg : dict string (list string)) : list string :=
  concat ((λ k, default [] (dict_find arg k)) <$> dict_keys arg).

(** A decimal digit (character codes 48 to 57). *)
Definition is_digit (c : ascii) : Prop := 48 ≤ nat_of_ascii c ≤ 57.

(** A string of decimal digits. *)
Fixpoint digits (s : string) : Prop :=
  match s with
  | EmptyString => True
  | String c s' => is_digit c ∧ digits s'
  end.

(** Every registered resource index is inside the variable grid. *)
Definition ids_in_range (self : Solver) : Prop :=
  ∀ name n, dict_find (resourceIdLookup self) name = Some n → n < numResources self.

(** A hard leave [_hardLeave] can encode: the resource is registered and,
    unless there is no role at all, the day is inside the grid. *)
Definition hard_leave_valid (self : Solver) (leave : string * nat) : Prop :=
  is_Some (dict_find (resourceIdLookup self) leave.1)
  ∧ (numRoles self = 0 ∨ leave.2 < numDays self).

(** A soft leave [_softLeave] can encode: the resource is registered and the
    day is inside the grid. *)
Definition soft_leave_valid (self : Solver) (request : string * nat * Q) : Prop :=
  is_Some (dict_find (resourceIdLookup self) request.1.1)
  ∧ request.1.2 < numDays self.

(** The cells of a grid are exactly the coordinates of the session's shape. *)
Definition grid_shape_ok {A} (self : Solver) (g : grid A) : Prop :=
  ∀ n r d s,
    is_Some (grid_find g n r d s)
    ↔ n < numResources self ∧ r < numRoles self ∧ d < numDays self ∧ s < numShifts self.

(** Every role named in the requirement matrix is a role of some resource. *)
Definition roles_registered (args : Args) : Prop :=
  ∀ day shift role,
    day ∈ args1 args → shift ∈ day → role ∈ dict_keys shift →
    role ∈ role_scan (args0 args).

(** The shape, registry and variable grid of the session are the ones [solve]
    derives from the input. *)
Definition session_of (args : Args) (day0 : list (dict string Z)) (self : Solver) : Prop :=
  args1 args !! 0 = Some day0
  ∧ numDays self = length (args1 args)
  ∧ numShifts self = length day0
  ∧ _createEmployeeRoleLookup_registry (args0 args) = Ok (registry_of self)
  ∧ vars_ok self.

(** The (shift, role) pairs valuation [v] assigns resource [n] on day [d], in
    the order the loops of [getRosterByResource] visit them. *)
Definition worked (v : valuation) (self : Solver) (n d : nat) : list (nat * nat) :=
  filter (λ p, v (NewBoolVar n p.2 d p.1) = true)
         (s ← range (numShifts self); r ← range (numRoles self); [(s, r)]).

(** The [day] dictionary of [getRosterByResource] for one assignment. *)
Definition day_dict (role : string) (s : nat) : dict string pyvalue :=
  [("Role", PyStr role); ("Shift", PyInt (Z.of_nat s))].

(** The roster entry of the (shift, role) pair [p]. *)
Definition day_entry (self : Solver) (p : nat * nat) : option pyvalue :=
  role ← dict_find (rolesLookup self) p.2;
  Some (PyDict (day_dict role p.1)).

(** The resources valuation [v] puts on role [r] of shift [s] on day [day],
    in index order. *)
Definition staff (v : valuation) (self : Solver) (day s r : nat) : list nat :=
  filter (λ n, v (NewBoolVar n r day s) = true) (range (numResources self)).

(** Their names. *)
Definition staff_names (v : valuation) (self : Solver) (day s r : nat) : list string :=
  omap (dict_find (resourcesLookup self)) (staff v self day s r).

(** [self.requirementMapping[day][s][r]] *)
Definition requirement_at (self : Solver) (day s r : nat) : result Z :=
  dayReq ← of_option IndexError (requirementMapping self !! day);
  shiftReq ← of_option IndexError (dayReq !! s);
  dict_get shiftReq r.

(** The [role] dictionary of [getRosterByDay] for a staffed role: the names
    of the resources and the requirement, stored as a 1-tuple. *)
Definition role_entry (q : Z) (names : list string) : dict string pyvalue :=
  [("Resources", PyList (PyStr <$> names)); ("Requirement", PyTuple [PyInt q])].

(** One role step of the shift loop of [getRosterByDay], by cases on the
    staff of the role. *)
Definition shift_step (v : valuation) (self : Solver) (day s r : nat)
    (shift : dict string pyvalue) : result (dict string pyvalue) :=
  match staff v self day s r with
  | [] => Ok shift
  | _ => q ← requirement_at self day s r;
         name ← dict_get (rolesLookup self) r;
         Ok (dict_set shift name (PyDict (role_entry q (staff_names v self day s r))))
  end.

(** Every minimum of the requirement matrix is a head count the engine can
    take as a bound: not negative and below the largest 64-bit integer.  (The
    embedding keeps requirement values as unbounded integers; [model.Add]
    rejects a bound outside the engine's integer range.) *)
Definition requirements_in_range (args : Args) : Prop :=
  ∀ day shift role q,
    day ∈ args1 args → shift ∈ day → dict_find shift role = Some q →
    (0 ≤ q < 2 ^ 63 - 1)%Z.

(** Every soft-leave weight is a penalty the engine can take as an objective
    coefficient: not negative and below the largest 64-bit integer. *)
Definition weights_in_range (args : Args) : Prop :=
  ∀ request, request ∈ args3 args →
    (0 <= request.2)%Q ∧ (request.2 < inject_Z (2 ^ 63 - 1))%Q.

(** * Properties *)

(** ** The exception monad and loops *)

Lemma bind_Ok {A B} (m : result A) (f : A → result B) (b : B) :
  m ≫= f = Ok b ↔ ∃ a, m = Ok a ∧ f a = Ok b.
Proof.
  destruct m as [a|e]; simpl.
  - split; [eauto | intros (a' & [= <-] & Hf); done].
  - split; [done | intros (a' & [=] & _)].
Qed.

Lemma of_option_Ok {A} (e : PyError) (o : option A) (a : A) :
  of_option e o = Ok a ↔ o = Some a.
Proof. destruct o; simpl; split; congruence. Qed.

Lemma for_each_pure_in {A B} (l : list A) (body : A → result (list B)) (f : A → list B) :
  (∀ x, x ∈ l → body x = Ok (f x)) → for_each l body = Ok (l ≫= f).
Proof.
  induction l as [|x l IH]; intros Hb; simpl; [done|].
  rewrite Hb by left. simpl. rewrite IH; [done|].
  intros y Hy. apply Hb. by right.
Qed.

Lemma for_each_cons_Ok {A B} (x : A) l (body : A → result (list B)) ys :
  for_each (x :: l) body = Ok ys ↔
  ∃ y1 y2, body x = Ok y1 ∧ for_each l body = Ok y2 ∧ ys = y1 ++ y2.
Proof.
  simpl. split.
  - intros H. apply bind_Ok in H as (y1 & H1 & H). apply bind_Ok in H as (y2 & H2 & H).
    injection H as <-. eauto.
  - intros (y1 & y2 & -> & -> & ->). done.
Qed.

Lemma for_each_Ok_elem {A B} (l : list A) (body : A → result (list B)) ys y :
  for_each l body = Ok ys → y ∈ ys →
  ∃ x zs, x ∈ l ∧ body x = Ok zs ∧ y ∈ zs.
Proof.
  revert ys. induction l as [|x l IH]; intros ys H Hy.
  - injection H as <-. by apply elem_of_nil in Hy.
  - apply for_each_cons_Ok in H as (y1 & y2 & H1 & H2 & ->).
    apply elem_of_app in Hy as [Hy|Hy].
    + exists x, y1. split; [left|done].
    + destruct (IH _ H2 Hy) as (x' & zs & ? & ? & ?).
      exists x', zs. split; [by right|done].
Qed.

Lemma for_each_Ok_body {A B} (l : list A) (body : A → result (list B)) ys x :
  for_each l body = Ok ys → x ∈ l →
  ∃ zs, body x = Ok zs ∧ ∀ y, y ∈ zs → y ∈ ys.
Proof.
  revert ys. induction l as [|x' l IH]; intros ys H Hx.
  - by apply elem_of_nil in Hx.
  - apply for_each_cons_Ok in H as (y1 & y2 & H1 & H2 & ->).
    apply elem_of_cons in Hx as [->|Hx].
    + exists y1. split; [done|]. intros y Hy. apply elem_of_app. by left.
    + destruct (IH _ H2 Hx) as (zs & ? & Hzs). exists zs. split; [done|].
      intros y Hy. apply elem_of_app. right. by apply Hzs.
Qed.

Lemma for_each_Ok_pure {A B} (l : list A) (body : A → result (list B)) (f : A → list B) ys :
  (∀ x zs, x ∈ l → body x = Ok zs → zs = f x) →
  for_each l body = Ok ys → ys = l ≫= f.
Proof.
  revert ys. induction l as [|x l IH]; intros ys Hb H.
  - by injection H as <-.
  - apply for_each_cons_Ok in H as (y1 & y2 & H1 & H2 & ->).
    rewrite bind_cons. f_equal.
    + apply Hb; [left|done].
    + apply IH; [|done]. intros x' zs Hx'. apply Hb. by right.
Qed.

Lemma for_each_total {A B} (l : list A) (body : A → result (list B)) :
  (∀ x, x ∈ l → ∃ zs, body x = Ok zs) → ∃ ys, for_each l body = Ok ys.
Proof.
  induction l as [|x l IH]; intros Hb; simpl; [by eexists|].
  destruct (Hb x) as [zs ->]; [left|]. simpl.
  destruct IH as [ys ->]; [|by eexists].
  intros y Hy. apply Hb. by right.
Qed.

Lemma elem_of_range (n i : nat) : i ∈ range n ↔ i < n.
Proof. unfold range. rewrite elem_of_seq. lia. Qed.

Lemma range_lookup (n i : nat) : i < n → range n !! i = Some i.
Proof. intros. unfold range. by rewrite lookup_seq_lt. Qed.

(** ** Arrays *)

Lemma lookup_fmap_range {A} (f : nat → A) (N n : nat) :
  (f <$> range N) !! n = if decide (n < N) then Some (f n) else None.
Proof.
  rewrite list_lookup_fmap. unfold range. case_decide.
  - by rewrite lookup_seq_lt.
  - by rewrite lookup_seq_ge by lia.
Qed.

Lemma grid_find_build_Some {A} (N R D S : nat) (f : nat → nat → nat → nat → A) n r d s a :
  grid_find (grid_build N R D S f) n r d s = Some a →
  n < N ∧ r < R ∧ d < D ∧ s < S ∧ a = f n r d s.
Proof.
  unfold grid_find, grid_build. intros H.
  rewrite lookup_fmap_range in H. case_decide; [|done]. cbn [mbind option_bind] in H.
  rewrite lookup_fmap_range in H. case_decide; [|done]. cbn [mbind option_bind] in H.
  rewrite lookup_fmap_range in H. case_decide; [|done]. cbn [mbind option_bind] in H.
  rewrite lookup_fmap_range in H. case_decide; [|done].
  injection H as <-. done.
Qed.

Lemma grid_find_build {A} (N R D S : nat) (f : nat → nat → nat → nat → A) n r d s :
  n < N → r < R → d < D → s < S →
  grid_find (grid_build N R D S f) n r d s = Some (f n r d s).
Proof.
  intros. unfold grid_find, grid_build.
  rewrite lookup_fmap_range, decide_True by done. cbn [mbind option_bind].
  rewrite lookup_fmap_range, decide_True by done. cbn [mbind option_bind].
  rewrite lookup_fmap_range, decide_True by done. cbn [mbind option_bind].
  by rewrite lookup_fmap_range, decide_True by done.
Qed.

Lemma grid_get_build {A} (N R D S : nat) (f : nat → nat → nat → nat → A) n r d s :
  n < N → r < R → d < D → s < S →
  grid_get (grid_build N R D S f) n r d s = Ok (f n r d s).
Proof. intros. unfold grid_get. by rewrite grid_find_build. Qed.

(** ** Linear expressions over boolean variables *)

Lemma eval_app v e1 e2 : eval v (e1 ++ e2) = (eval v e1 + eval v e2)%Z.
Proof. induction e1 as [|t e1 IH]; simpl; [done|]. unfold eval in *. simpl. lia. Qed.

Lemma eval_nonneg v e : Forall (λ t, (0 ≤ t.1)%Z) e → (0 ≤ eval v e)%Z.
Proof.
  induction 1 as [|t e Ht _ IH]; simpl; [done|].
  unfold eval in *. simpl. destruct (v t.2); simpl; lia.
Qed.

Lemma eval_ones v (xs : list BoolVar) :
  eval v ((λ x, (1%Z, x)) <$> xs) = Z.of_nat (count_true v xs).
Proof.
  unfold count_true. induction xs as [|x xs IH]; [done|].
  rewrite fmap_cons, filter_cons. unfold eval in *. simpl. rewrite IH.
  destruct (decide (v x = true)) as [-> | Hx]; simpl; [lia|].
  destruct (v x); [done|]. simpl. lia.
Qed.

Lemma count_true_le_1 v (xs : list BoolVar) x y :
  count_true v xs ≤ 1 → NoDup xs → x ∈ xs → y ∈ xs → v x = true → v y = true → x = y.
Proof.
  unfold count_true. intros Hc Hnd Hx Hy Hvx Hvy.
  destruct (decide (x = y)) as [|Hne]; [done|]. exfalso.
  assert (NoDup (filter (λ x, v x = true) xs)) as Hnd' by by apply NoDup_filter.
  assert ([x; y] ⊆+ filter (λ x, v x = true) xs) as Hsub.
  { apply NoDup_submseteq.
    - apply NoDup_cons. split; [|apply NoDup_singleton].
      intros ->%list_elem_of_singleton. done.
    - intros z Hz. apply list_elem_of_filter.
      apply elem_of_cons in Hz as [Hz|Hz]; [by subst|].
      apply list_elem_of_singleton in Hz. by subst. }
  apply submseteq_length in Hsub. simpl in Hsub. lia.
Qed.

(** ** What a successful model construction establishes *)

Lemma env_set_model m self : env (set_model m self) = env self.
Proof. reflexivity. Qed.
Lemma env_set_requirementMapping m self : env (set_requirementMapping m self) = env self.
Proof. reflexivity. Qed.
Lemma env_set_non_sequential m self : env (set_non_sequential m self) = env self.
Proof. reflexivity. Qed.
Lemma env_req_set_model m self : env_req (set_model m self) = env_req self.
Proof. reflexivity. Qed.
Lemma env_req_set_non_sequential m self : env_req (set_non_sequential m self) = env_req self.
Proof. reflexivity. Qed.

(** Reduce a goal [f a = f b] to the attributes [f] reads. *)
Ltac by_env H :=
  let a := fresh in let b := fresh in
  intros a b H; destruct a, b; unfold env_req, env in H; simpl in H;
  simplify_eq; reflexivity.

Lemma _removeExtraRoles_adds_env a b :
  env a = env b → _removeExtraRoles_adds a = _removeExtraRoles_adds b.
Proof. revert a b. by_env H. Qed.

Lemma _maxOneShiftPerDay_adds_env a b :
  env a = env b → _maxOneShiftPerDay_adds a = _maxOneShiftPerDay_adds b.
Proof. revert a b. by_env H. Qed.

Lemma _hardLeave_adds_env arg a b :
  env a = env b → _hardLeave_adds arg a = _hardLeave_adds arg b.
Proof. revert a b. by_env H. Qed.

Lemma _softLeave_grid_env arg a b :
  env a = env b → _softLeave_grid arg a = _softLeave_grid arg b.
Proof. revert a b. by_env H. Qed.

Lemma _softLeave_objective_env g a b :
  env a = env b → _softLeave_objective g a = _softLeave_objective g b.
Proof. revert a b. by_env H. Qed.

Lemma _nextDayShift_matrix_env arg a b :
  env a = env b → _nextDayShift_matrix arg a = _nextDayShift_matrix arg b.
Proof. revert a b. by_env H. Qed.

Lemma _createRequirementMapping_value_env arg a b :
  env a = env b → _createRequirementMapping_value arg a = _createRequirementMapping_value arg b.
Proof. revert a b. by_env H. Qed.

Lemma registry_of_env a b : env a = env b → registry_of a = registry_of b.
Proof. revert a b. by_env H. Qed.

Lemma _setRequirementConstraint_adds_env a b :
  env_req a = env_req b →
  _setRequirementConstraint_adds a = _setRequirementConstraint_adds b.
Proof. revert a b. by_env H. Qed.

Lemma _nextDayShift_adds_env a b :
  env a = env b → non_sequential_shifts_indices a = non_sequential_shifts_indices b →
  _nextDayShift_adds a = _nextDayShift_adds b.
Proof.
  intros H1 H2. destruct a, b. unfold env in H1. simpl in H1, H2. simplify_eq. reflexivity.
Qed.

Lemma env_numbers a b :
  env a = env b →
  numDays a = numDays b ∧ numShifts a = numShifts b
  ∧ numResources a = numResources b ∧ numRoles a = numRoles b ∧ vars a = vars b.
Proof. unfold env. intros H. by simplify_eq. Qed.

Lemma env_req_env a b : env_req a = env_req b → env a = env b.
Proof. unfold env_req. congruence. Qed.

Lemma constraints_Add cs self :
  constraints (model (Add cs self)) = constraints (model self) ++ cs.
Proof. reflexivity. Qed.

Lemma adds_in_intro l cs (self : Solver) :
  cs = Ok l → (∀ c, c ∈ l → c ∈ constraints (model self)) → adds_in cs self.
Proof. intros. by exists l. Qed.

Lemma adds_in_frame f (a b : Solver) :
  f a = f b →
  (∀ c, c ∈ constraints (model a) → c ∈ constraints (model b)) →
  adds_in (f a) a → adds_in (f b) b.
Proof. intros Hf Hincl (l & Hl & Hin). exists l. split; [congruence|auto]. Qed.

(** What the base construction established stays true while later steps only
    append constraints and leave shape, registry, grid and requirements alone. *)
Lemma constructed_base_frame args a b :
  env_req a = env_req b →
  (∀ c, c ∈ constraints (model a) → c ∈ constraints (model b)) →
  constructed_base args a → constructed_base args b.
Proof.
  intros Er Hincl [].
  pose proof (env_req_env _ _ Er) as Ee.
  pose proof (env_numbers _ _ Ee) as (Nd & Ns & Nn & Nr & Nv).
  assert (requirementMapping a = requirementMapping b) as Eq.
  { unfold env_req in Er. congruence. }
  split.
  - by rewrite <- Nd.
  - by rewrite <- Ns.
  - by rewrite <- (registry_of_env _ _ Ee).
  - by rewrite <- Nv, <- Nd, <- Ns, <- Nn, <- Nr.
  - by rewrite <- Eq, <- (_createRequirementMapping_value_env _ _ _ Ee).
  - revert c_extra0. apply (adds_in_frame _removeExtraRoles_adds); [|done].
    by apply _removeExtraRoles_adds_env.
  - revert c_required0. apply (adds_in_frame _setRequirementConstraint_adds); [|done].
    by apply _setRequirementConstraint_adds_env.
  - revert c_exclusive0. apply (adds_in_frame _maxOneShiftPerDay_adds); [|done].
    by apply _maxOneShiftPerDay_adds_env.
Qed.

Lemma build_base_constructed args self st :
  build Solver_childConstraints args self = Ok st → constructed_base args st.
Proof.
  unfold build, Solver_childConstraints. intros H.
  apply bind_Ok in H as (day0 & Hday0%of_option_Ok & H).
  apply bind_Ok in H as (s1 & H1 & H).
  apply bind_Ok in H1 as (reg & Hreg & [= H1]).
  apply bind_Ok in H as (s2 & H2 & H).
  apply bind_Ok in H2 as (cs2 & Hcs2 & [= H2]).
  apply bind_Ok in H as (s3 & H3 & H).
  apply bind_Ok in H3 as (mapping & Hmapping & [= H3]).
  apply bind_Ok in H as (s4 & H4 & H).
  apply bind_Ok in H4 as (cs4 & Hcs4 & [= H4]).
  apply bind_Ok in H as (s5 & H5 & [= H]).
  apply bind_Ok in H5 as (cs5 & Hcs5 & [= H5]).
  subst st.
  (* the attributes read by the encoders are fixed from [_createVars] on *)
  assert (env s2 = env (_createVars s1)) as E2 by (rewrite <- H2; reflexivity).
  assert (env s3 = env s2) as E3 by (rewrite <- H3; reflexivity).
  assert (env_req s4 = env_req s3) as E4 by (rewrite <- H4; reflexivity).
  assert (env_req s5 = env_req s4) as E5 by (rewrite <- H5; reflexivity).
  assert (env_req s5 = env_req s3) as Er by congruence.
  assert (env s5 = env s4) as Ee4 by (by apply env_req_env).
  assert (env s5 = env s2) as Ee by (rewrite <- E3; by apply env_req_env).
  assert (requirementMapping s5 = mapping) as Eq.
  { transitivity (requirementMapping s3).
    - unfold env_req in Er. by simplify_eq.
    - rewrite <- H3. reflexivity. }
  (* constraints are only ever appended *)
  assert (∀ c, c ∈ constraints (model s4) → c ∈ constraints (model s5)) as I5.
  { intros c Hc. rewrite <- H5, constraints_Add, elem_of_app. by left. }
  assert (∀ c, c ∈ constraints (model s3) → c ∈ constraints (model s5)) as I4.
  { intros c Hc. apply I5. rewrite <- H4, constraints_Add, elem_of_app. by left. }
  assert (∀ c, c ∈ constraints (model s2) → c ∈ constraints (model s5)) as I3.
  { intros c Hc. apply I4. rewrite <- H3. done. }
  pose proof (env_numbers _ _ Ee) as (Nd & Ns & Nn & Nr & Nv).
  pose proof (env_numbers _ _ E2) as (Nd2 & Ns2 & Nn2 & Nr2 & Nv2).
  split.
  - rewrite Nd, Nd2, <- H1. reflexivity.
  - exists day0. split; [done|]. rewrite Ns, Ns2, <- H1. reflexivity.
  - rewrite (registry_of_env _ _ Ee), (registry_of_env _ _ E2), <- H1, Hreg.
    by destruct reg.
  - rewrite Nv, Nv2, Nd, Nd2, Ns, Ns2, Nn, Nn2, Nr, Nr2. reflexivity.
  - rewrite Eq, (_createRequirementMapping_value_env _ _ _ Ee). exact Hmapping.
  - apply (adds_in_intro cs2).
    + rewrite (_removeExtraRoles_adds_env _ _ Ee), (_removeExtraRoles_adds_env _ _ E2).
      exact Hcs2.
    + intros c Hc. apply I3. rewrite <- H2, constraints_Add, elem_of_app. by right.
  - apply (adds_in_intro cs4).
    + rewrite (_setRequirementConstraint_adds_env _ _ Er). exact Hcs4.
    + intros c Hc. apply I5. rewrite <- H4, constraints_Add, elem_of_app. by right.
  - apply (adds_in_intro cs5).
    + rewrite (_maxOneShiftPerDay_adds_env _ _ Ee4). exact Hcs5.
    + intros c Hc. rewrite <- H5, constraints_Add, elem_of_app. by right.
Qed.

(** A subclass construction is the base construction followed by the
    subclass's [childConstraints]. *)
Lemma build_split child args self :
  build child args self = build Solver_childConstraints args self ≫= child args.
Proof.
  unfold build, Solver_childConstraints.
  destruct (of_option IndexError (args1 args !! 0)) as [day0|]; [|done]. simpl.
  destruct (_createEmployeeRoleLookup _ _) as [s1|]; [|done]. simpl.
  destruct (_removeExtraRoles _) as [s2|]; [|done]. simpl.
  destruct (_createRequirementMapping _ _) as [s3|]; [|done]. simpl.
  destruct (_setRequirementConstraint _) as [s4|]; [|done]. simpl.
  destruct (_maxOneShiftPerDay _) as [s5|]; [|done]. done.
Qed.

Lemma HospitalSolver_build_constructed args self st :
  HospitalSolver_build args self = Ok st → constructed args st.
Proof.
  unfold HospitalSolver_build. rewrite build_split. intros H.
  apply bind_Ok in H as (s5 & Hbase%build_base_constructed & H).
  unfold HospitalSolver_childConstraints in H.
  apply bind_Ok in H as (s6 & H6 & H).
  apply bind_Ok in H6 as (m & Hm & H6).
  apply bind_Ok in H6 as (cs6 & Hcs6 & [= H6]).
  apply bind_Ok in H as (s7 & H7 & H).
  apply bind_Ok in H7 as (cs7 & Hcs7 & [= H7]).
  apply bind_Ok in H as (g & Hg & H).
  apply bind_Ok in H as (e & He & [= H]).
  assert (env_req s6 = env_req s5) as E6 by (rewrite <- H6; reflexivity).
  assert (env_req s7 = env_req s6) as E7 by (rewrite <- H7; reflexivity).
  assert (env_req st = env_req s7) as E8 by (rewrite <- H; reflexivity).
  assert (env st = env s7) as Ee7 by (by apply env_req_env).
  assert (env st = env s6) as Ee6 by (rewrite Ee7; by apply env_req_env).
  assert (env st = env s5) as Ee5 by (rewrite Ee6; by apply env_req_env).
  assert (non_sequential_shifts_indices st = m) as Em.
  { rewrite <- H, <- H7, <- H6. reflexivity. }
  assert (∀ c, c ∈ constraints (model s7) → c ∈ constraints (model st)) as I8.
  { rewrite <- H. done. }
  assert (∀ c, c ∈ constraints (model s6) → c ∈ constraints (model st)) as I7.
  { intros c Hc. apply I8. rewrite <- H7, constraints_Add, elem_of_app. by left. }
  assert (∀ c, c ∈ constraints (model s5) → c ∈ constraints (model st)) as I6.
  { intros c Hc. apply I7. rewrite <- H6, constraints_Add, elem_of_app. by left. }
  split.
  - apply (constructed_base_frame args s5); [congruence|done|done].
  - rewrite Em, (_nextDayShift_matrix_env _ _ _ Ee5). exact Hm.
  - apply (adds_in_intro cs6).
    + rewrite (_nextDayShift_adds_env st (set_non_sequential m s5)); [exact Hcs6| |done].
      rewrite Ee5. reflexivity.
    + intros c Hc. apply I7. rewrite <- H6, constraints_Add, elem_of_app. by right.
  - apply (adds_in_intro cs7).
    + rewrite (_hardLeave_adds_env _ _ _ Ee6). exact Hcs7.
    + intros c Hc. apply I8. rewrite <- H7, constraints_Add, elem_of_app. by right.
  - exists g, e. split; [|split].
    + rewrite (_softLeave_grid_env _ _ _ Ee7). exact Hg.
    + rewrite (_softLeave_objective_env _ _ _ Ee7). exact He.
    + rewrite <- H. reflexivity.
Qed.

(** ** Constraints added by the encoders *)

Lemma accepted_elem v m c : accepted v m → c ∈ constraints m → holds v c.
Proof. unfold accepted. rewrite Forall_forall. auto. Qed.

Lemma holdsb_holds v c : holdsb v c = true ↔ holds v c.
Proof.
  destruct c; simpl.
  - apply Z.leb_le.
  - apply Z.leb_le.
  - apply Z.eqb_eq.
Qed.

Lemma acceptedb_accepted v m : acceptedb v m = true → accepted v m.
Proof.
  unfold acceptedb, accepted. rewrite forallb_forall, Forall_forall.
  intros H c Hc. apply holdsb_holds, H. by apply list_elem_of_In.
Qed.

Lemma holds_is_zero v x : holds v (is_zero x) ↔ v x = false.
Proof.
  unfold is_zero, holds, eval. simpl. destruct (v x); simpl; split; (done || lia).
Qed.

Lemma ones_bind {A} (l : list A) (f : A → list BoolVar) :
  l ≫= (λ a, ones (f a)) = ones (l ≫= f).
Proof.
  unfold ones. induction l as [|a l IH]; [done|].
  rewrite !bind_cons, fmap_app. by f_equal.
Qed.

Lemma ones_singleton_bind {A} (l : list A) (f : A → BoolVar) :
  l ≫= (λ a, [(1%Z, f a)]) = ones (l ≫= λ a, [f a]).
Proof. by rewrite <- ones_bind. Qed.

Lemma vars_get_ok self n r d s :
  vars_ok self → n < numResources self → r < numRoles self →
  d < numDays self → s < numShifts self →
  grid_get (vars self) n r d s = Ok (NewBoolVar n r d s).
Proof. intros ->. apply grid_get_build. Qed.

Lemma vars_get_inv self n r d s x :
  vars_ok self → grid_get (vars self) n r d s = Ok x →
  x = NewBoolVar n r d s ∧ n < numResources self ∧ r < numRoles self
  ∧ d < numDays self ∧ s < numShifts self.
Proof.
  intros Hv H. unfold grid_get in H. apply of_option_Ok in H. rewrite Hv in H.
  apply grid_find_build_Some in H. tauto.
Qed.

Lemma _maxOneShiftPerDay_adds_shape self :
  vars_ok self →
  _maxOneShiftPerDay_adds self
  = Ok (n ← range (numResources self); d ← range (numDays self);
        [LinLe (ones (day_vars self n d)) 1]).
Proof.
  intros Hv. unfold _maxOneShiftPerDay_adds.
  apply for_each_pure_in. intros n Hn%elem_of_range.
  apply for_each_pure_in. intros d Hd%elem_of_range.
  rewrite (for_each_pure_in _ _
             (λ r, ones (s ← range (numShifts self); [NewBoolVar n r d s]))).
  - simpl. unfold day_vars. by rewrite ones_bind.
  - intros r Hr%elem_of_range. rewrite <- ones_singleton_bind.
    apply for_each_pure_in. intros s Hs%elem_of_range.
    by rewrite vars_get_ok.
Qed.

(** C4: in the model constructed by the base class as well as in the one
    constructed by [HospitalSolver], for every resource and every day the
    constraint of [_maxOneShiftPerDay], "the sum of the day's (role, shift)
    variables is at most 1", is present; so in every valuation accepted by the
    constructed model, every resource has at most one true (role, shift)
    variable on every day. *)
Theorem daily_exclusivity args self st n d :
  build Solver_childConstraints args self = Ok st
  ∨ HospitalSolver_build args self = Ok st →
  n < numResources st → d < numDays st →
  LinLe (ones (day_vars st n d)) 1 ∈ constraints (model st)
  ∧ ∀ v, accepted v (model st) → count_true v (day_vars st n d) ≤ 1.
Proof.
  intros Hb Hn Hd.
  assert (constructed_base args st) as [].
  { destruct Hb as [Hb|Hb]; [exact (build_base_constructed _ _ _ Hb)|].
    by destruct (HospitalSolver_build_constructed _ _ _ Hb). }
  destruct c_exclusive0 as (l & Hl & Hin).
  rewrite _maxOneShiftPerDay_adds_shape in Hl by done. injection Hl as <-.
  assert (LinLe (ones (day_vars st n d)) 1 ∈ constraints (model st)) as Hmem.
  { apply Hin.
    apply list_elem_of_bind. exists n. split; [|by apply elem_of_range].
    apply list_elem_of_bind. exists d. split; [|by apply elem_of_range].
    by apply list_elem_of_singleton. }
  split; [done|]. intros v Hacc.
  pose proof (accepted_elem _ _ _ Hacc Hmem) as Hc.
  simpl in Hc. unfold ones in Hc. rewrite eval_ones in Hc. lia.
Qed.

(** C5: for a resource [n] and a role [k] outside the list
    [resourceRoleMapping[n]], the constraint [vars[n][k][d][s] == 0] is in the
    constructed model for every day and shift, so every accepted valuation
    makes that variable false. *)
Theorem ineligible_roles_pruned args self st n roles k d s :
  HospitalSolver_build args self = Ok st →
  n < numResources st → k < numRoles st → d < numDays st → s < numShifts st →
  dict_find (resourceRoleMapping st) n = Some roles → k ∉ roles →
  is_zero (NewBoolVar n k d s) ∈ constraints (model st)
  ∧ ∀ v, accepted v (model st) → v (NewBoolVar n k d s) = false.
Proof.
  intros Hb Hn Hk Hd Hs Hroles Hnot.
  destruct (HospitalSolver_build_constructed _ _ _ Hb) as [].
  destruct c_base0 as [].
  destruct c_extra0 as (l & Hl & Hin).
  assert (is_zero (NewBoolVar n k d s) ∈ constraints (model st)) as Hc.
  { apply Hin. unfold _removeExtraRoles_adds in Hl.
    destruct (for_each_Ok_body _ _ _ n Hl) as (l1 & H1 & Hl1); [by apply elem_of_range|].
    apply Hl1. clear Hl Hl1.
    apply bind_Ok in H1 as (absent & Habsent & H1).
    rewrite (for_each_pure_in _ _ (λ role, if decide (role ∈ roles) then [] else [role]))
      in Habsent; last first.
    { intros role _. unfold dict_get. by rewrite Hroles. }
    injection Habsent as <-.
    destruct (for_each_Ok_body _ _ _ k H1) as (l2 & H2 & Hl2).
    { apply list_elem_of_bind. exists k. split; [|by apply elem_of_range].
      rewrite decide_False by done. by apply list_elem_of_singleton. }
    apply Hl2. clear H1 Hl2.
    destruct (for_each_Ok_body _ _ _ d H2) as (l3 & H3 & Hl3); [by apply elem_of_range|].
    apply Hl3. clear H2 Hl3.
    destruct (for_each_Ok_body _ _ _ s H3) as (l4 & H4 & Hl4); [by apply elem_of_range|].
    apply Hl4. clear H3 Hl4.
    rewrite vars_get_ok in H4 by done. injection H4 as <-.
    by apply list_elem_of_singleton. }
  split; [done|]. intros v Hacc. apply holds_is_zero. by apply (accepted_elem _ _ _ Hacc).
Qed.

(** C6: for every (resource, day) pair of [hardLeaves], with [n] the index of
    the resource, the constraint [vars[n][r][day][s] == 0] is in the
    constructed model for every role and every shift, so in every accepted
    valuation the resource has no assignment on that day. *)
Theorem hard_leave_bans_day args self st name day n r s :
  HospitalSolver_build args self = Ok st →
  (name, day) ∈ args2 args →
  dict_find (resourceIdLookup st) name = Some n →
  r < numRoles st → s < numShifts st →
  is_zero (NewBoolVar n r day s) ∈ constraints (model st)
  ∧ ∀ v, accepted v (model st) → v (NewBoolVar n r day s) = false.
Proof.
  intros Hb Hleave Hid Hr Hs.
  destruct (HospitalSolver_build_constructed _ _ _ Hb) as [].
  destruct c_base0 as [].
  destruct c_hard0 as (l & Hl & Hin).
  assert (is_zero (NewBoolVar n r day s) ∈ constraints (model st)) as Hc.
  { apply Hin. unfold _hardLeave_adds in Hl.
    destruct (for_each_Ok_body _ _ _ _ Hl Hleave) as (l1 & H1 & Hl1).
    apply Hl1. clear Hl Hl1.
    destruct (for_each_Ok_body _ _ _ s H1) as (l2 & H2 & Hl2); [by apply elem_of_range|].
    apply Hl2. clear H1 Hl2.
    unfold dict_get in H2. simpl in H2. rewrite Hid in H2. simpl in H2.
    unfold _banShift_adds in H2.
    destruct (for_each_Ok_body _ _ _ r H2) as (l3 & H3 & Hl3); [by apply elem_of_range|].
    apply Hl3. clear H2 Hl3. simpl in H3.
    apply bind_Ok in H3 as (x & Hx & [= <-]).
    apply vars_get_inv in Hx as (-> & _); [|done].
    by apply list_elem_of_singleton. }
  split; [done|]. intros v Hacc. apply holds_is_zero. by apply (accepted_elem _ _ _ Hacc).
Qed.

(** ** Dictionaries *)

Section PyDictFacts.
Context {K V : Type} `{EqDecision K}.
Implicit Types (d : dict K V) (k : K) (v : V).

Lemma dict_find_Some_key d k v : dict_find d k = Some v → k ∈ dict_keys d.
Proof.
  unfold dict_keys. induction d as [|[k' v'] d IH]; simpl; [done|].
  case_decide; intros Hf.
  - subst. left.
  - right. auto.
Qed.

Lemma dict_find_key d k : k ∈ dict_keys d → is_Some (dict_find d k).
Proof.
  unfold dict_keys. induction d as [|[k' v'] d IH]; simpl.
  - by intros ?%elem_of_nil.
  - intros Hk. case_decide; [by eexists|].
    apply elem_of_cons in Hk as [?|?]; [done|auto].
Qed.

Lemma dict_find_None d k : dict_find d k = None ↔ k ∉ dict_keys d.
Proof.
  split.
  - intros H Hk. apply dict_find_key in Hk as [v Hv]. congruence.
  - intros H. destruct (dict_find d k) eqn:E; [|done].
    by apply dict_find_Some_key in E.
Qed.

Lemma dict_get_Ok d k v : dict_get d k = Ok v ↔ dict_find d k = Some v.
Proof. unfold dict_get. apply of_option_Ok. Qed.

Lemma dict_find_set d k v k' :
  dict_find (dict_set d k v) k' = if decide (k' = k) then Some v else dict_find d k'.
Proof.
  induction d as [|[k0 v0] d IH]; simpl.
  - done.
  - destruct (decide (k = k0)) as [->|Hne]; simpl.
    + repeat case_decide; congruence.
    + rewrite IH. repeat case_decide; congruence.
Qed.

Lemma dict_set_fresh d k v : k ∉ dict_keys d → dict_set d k v = d ++ [(k, v)].
Proof.
  unfold dict_keys. induction d as [|[k0 v0] d IH]; simpl; [done|].
  intros Hk. apply not_elem_of_cons in Hk as [? ?].
  rewrite decide_False by done. by rewrite IH.
Qed.

Lemma dict_of_items_NoDup (items : list (K * V)) :
  NoDup items.*1 → dict_of_items items = items.
Proof.
  unfold dict_of_items.
  assert (∀ acc : dict K V, NoDup (acc ++ items).*1 →
            foldl (λ d kv, dict_set d kv.1 kv.2) acc items = acc ++ items) as Hgen.
  { induction items as [|[k v] items IH]; intros acc Hnd; simpl.
    - by rewrite app_nil_r.
    - rewrite dict_set_fresh.
      + rewrite IH; rewrite <- (assoc_L (++)); done.
      + rewrite fmap_app in Hnd. apply NoDup_app in Hnd as (_ & Hd & _).
        intros Hk. apply (Hd _ Hk). simpl. left. }
  intros Hnd. by apply (Hgen []).
Qed.

End PyDictFacts.

Lemma ones_vars xs : (ones xs).*2 = xs.
Proof.
  unfold ones. rewrite <- list_fmap_compose. induction xs as [|x xs IH]; [done|].
  simpl. by f_equal.
Qed.

Lemma slot_expr_inv self r d s e :
  vars_ok self →
  for_each (range (numResources self)) (λ resource,
    x ← grid_get (vars self) resource r d s; Ok [(1%Z, x)]) = Ok e →
  e = ones (slot_vars self r d s).
Proof.
  intros Hv He. unfold slot_vars. rewrite <- ones_singleton_bind.
  revert He. apply for_each_Ok_pure. intros n zs _ Hzs.
  apply bind_Ok in Hzs as (x & Hx & [= <-]).
  apply vars_get_inv in Hx as (-> & _); done.
Qed.

Lemma slot_expr_vars self r d s e x :
  vars_ok self →
  for_each (range (numResources self)) (λ resource,
    x ← grid_get (vars self) resource r d s; Ok [(1%Z, x)]) = Ok e →
  x ∈ e.*2 → var_r x = r ∧ var_d x = d ∧ var_s x = s.
Proof.
  intros Hv He Hx. apply list_elem_of_fmap in Hx as ([z y] & -> & Hy). simpl.
  destruct (for_each_Ok_elem _ _ _ _ He Hy) as (n & zs & _ & Hzs & Hin).
  apply bind_Ok in Hzs as (x & Hx & [= <-]).
  apply list_elem_of_singleton in Hin as [= _ ->].
  apply vars_get_inv in Hx as (-> & _); done.
Qed.

(** C3: for every day [d], shift [s] and role [r] that is a key of
    [requirementMapping[d][s]], every valuation accepted by the constructed
    model has at least [requirementMapping[d][s][r]] resources on the slot
    (r, d, s); and no constraint added by [_setRequirementConstraint] mentions
    a variable of (r, d, s) for a role [r] that is not a key of
    [requirementMapping[d][s]]. *)
Theorem requirement_satisfaction args self st d s day req :
  HospitalSolver_build args self = Ok st →
  d < numDays st → s < numShifts st →
  requirementMapping st !! d = Some day → day !! s = Some req →
  (∀ r q v, dict_find req r = Some q → accepted v (model st) →
     (q ≤ Z.of_nat (count_true v (slot_vars st r d s)))%Z)
  ∧ ∃ added, _setRequirementConstraint_adds st = Ok added
      ∧ (∀ c, c ∈ added → c ∈ constraints (model st))
      ∧ ∀ r, dict_find req r = None →
          ∀ c n, c ∈ added → NewBoolVar n r d s ∉ constraint_vars c.
Proof.
  intros Hb Hd Hs Hday Hreq.
  destruct (HospitalSolver_build_constructed _ _ _ Hb) as [].
  destruct c_base0 as [].
  destruct c_required0 as (l & Hl & Hin).
  split.
  - intros r q v Hq Hacc.
    assert (holds v (LinGe (ones (slot_vars st r d s)) q)) as Hc.
    { apply (accepted_elem _ _ _ Hacc), Hin.
      unfold _setRequirementConstraint_adds in Hl.
      destruct (for_each_Ok_body _ _ _ d Hl) as (l1 & H1 & Hl1); [by apply elem_of_range|].
      apply Hl1. clear Hl Hl1.
      destruct (for_each_Ok_body _ _ _ s H1) as (l2 & H2 & Hl2); [by apply elem_of_range|].
      apply Hl2. clear H1 Hl2.
      rewrite Hday in H2. simpl in H2. rewrite Hreq in H2. simpl in H2.
      destruct (for_each_Ok_body _ _ _ r H2) as (l3 & H3 & Hl3).
      { by apply dict_find_Some_key in Hq. }
      apply Hl3. clear H2 Hl3.
      apply bind_Ok in H3 as (e & He & H3).
      apply bind_Ok in H3 as (q' & Hq' & [= <-]).
      apply dict_get_Ok in Hq'. assert (q' = q) as -> by congruence.
      apply slot_expr_inv in He as ->; [|done].
      by apply list_elem_of_singleton. }
    simpl in Hc. unfold ones in Hc. by rewrite eval_ones in Hc.
  - exists l. split; [done|]. split; [done|].
    intros r Hnone c n Hc Hx.
    unfold _setRequirementConstraint_adds in Hl.
    destruct (for_each_Ok_elem _ _ _ _ Hl Hc) as (d' & l1 & _ & H1 & Hc1).
    destruct (for_each_Ok_elem _ _ _ _ H1 Hc1) as (s' & l2 & _ & H2 & Hc2).
    apply bind_Ok in H2 as (day' & Hday'%of_option_Ok & H2).
    apply bind_Ok in H2 as (req' & Hreq'%of_option_Ok & H2).
    destruct (for_each_Ok_elem _ _ _ _ H2 Hc2) as (r' & l3 & Hr' & H3 & Hc3).
    apply bind_Ok in H3 as (e & He & H3).
    apply bind_Ok in H3 as (q' & Hq' & [= <-]).
    apply list_elem_of_singleton in Hc3 as ->. simpl in Hx.
    destruct (slot_expr_vars _ _ _ _ _ _ c_vars0 He Hx) as (Er & Ed & Es).
    simpl in Er, Ed, Es. subst r' d' s'.
    assert (day' = day) as -> by congruence.
    assert (req' = req) as -> by congruence.
    apply dict_find_None in Hnone. done.
Qed.

(** ** Loops with an accumulator *)

Lemma fold_result_ind {A S} (P : list A → S → Prop) (body : A → S → result S) l pre s0 s :
  P pre s0 →
  (∀ done x s s', P done s → body x s = Ok s' → P (done ++ [x]) s') →
  fold_result l body s0 = Ok s → P (pre ++ l) s.
Proof.
  intros H0 Hstep. revert pre s0 H0.
  induction l as [|x l IH]; intros pre s0 H0 H; simpl in H.
  - injection H as <-. by rewrite app_nil_r.
  - apply bind_Ok in H as (s1 & H1 & H).
    rewrite (cons_middle x pre l), (assoc_L (++)).
    apply (IH _ s1); [|done]. by apply (Hstep _ _ s0).
Qed.

Lemma fold_result_total {A S} (body : A → S → result S) l s0 :
  (∀ x s, x ∈ l → ∃ s', body x s = Ok s') → ∃ s', fold_result l body s0 = Ok s'.
Proof.
  revert s0. induction l as [|x l IH]; intros s0 Hb; simpl; [by eexists|].
  destruct (Hb x s0) as [s1 ->]; [left|]. simpl.
  apply IH. intros y s Hy. apply Hb. by right.
Qed.

(** ** Writing into an array *)

Lemma grid_find_set {A} (g g' : grid A) n0 r0 d0 s0 a :
  grid_set g n0 r0 d0 s0 a = Ok g' →
  ∀ n r d s,
    grid_find g' n r d s
    = if decide (n = n0 ∧ r = r0 ∧ d = d0 ∧ s = s0) then Some a else grid_find g n r d s.
Proof.
  unfold grid_set. intros H. apply bind_Ok in H as (a0 & Ha0 & [= <-]).
  unfold grid_get in Ha0. apply of_option_Ok in Ha0. unfold grid_find in Ha0.
  destruct (g !! n0) as [row|] eqn:En; [|done]. cbn [mbind option_bind] in Ha0.
  destruct (row !! r0) as [col|] eqn:Er; [|done]. cbn [mbind option_bind] in Ha0.
  destruct (col !! d0) as [day|] eqn:Ed; [|done]. cbn [mbind option_bind] in Ha0.
  intros n r d s. unfold grid_find.
  destruct (decide (n = n0)) as [->|Hn]; last first.
  { rewrite list_lookup_alter_ne by done. rewrite decide_False by tauto. done. }
  rewrite list_lookup_alter_eq, En. cbn [fmap option_fmap option_map mbind option_bind].
  destruct (decide (r = r0)) as [->|Hr]; last first.
  { rewrite list_lookup_alter_ne by done. rewrite decide_False by tauto. done. }
  rewrite list_lookup_alter_eq, Er. cbn [fmap option_fmap option_map mbind option_bind].
  destruct (decide (d = d0)) as [->|Hd]; last first.
  { rewrite list_lookup_alter_ne by done. rewrite decide_False by tauto. done. }
  rewrite list_lookup_alter_eq, Ed. cbn [fmap option_fmap option_map mbind option_bind].
  destruct (decide (s = s0)) as [->|Hs]; last first.
  { rewrite list_lookup_insert_ne by done. rewrite decide_False by tauto. done. }
  rewrite decide_True by done. apply list_lookup_insert_eq.
  by apply lookup_lt_Some in Ha0.
Qed.

(** ** The soft-leave objective *)

Lemma last_weight_snoc ids requests request n d :
  last_weight ids (requests ++ [request]) n d
  = if decide (targets ids n d request) then request.2 else last_weight ids requests n d.
Proof.
  unfold last_weight. rewrite filter_app, filter_cons, filter_nil.
  case_decide.
  - by rewrite last_snoc.
  - by rewrite app_nil_r.
Qed.

Lemma soft_request_grid (self : Solver) (name : string) (day : nat) (w : Q) (g0 g : grid Q) :
  fold_result (range (numShifts self)) (λ s g,
    fold_result (range (numRoles self)) (λ r g,
      rid ← dict_get (resourceIdLookup self) name;
      grid_set g rid r day s w) g) g0 = Ok g →
  ∀ n r d s, r < numRoles self → s < numShifts self →
    grid_find g n r d s
    = if decide (targets (resourceIdLookup self) n d (name, day, w))
      then Some w else grid_find g0 n r d s.
Proof.
  intros H.
  pose (Inv := λ (done : list nat) (g' : grid Q), ∀ n r d s, r < numRoles self →
    grid_find g' n r d s
    = if decide (targets (resourceIdLookup self) n d (name, day, w) ∧ s ∈ done)
      then Some w else grid_find g0 n r d s).
  assert (Inv ([] ++ range (numShifts self)) g) as HI.
  { revert H. apply fold_result_ind.
    - intros n r d s _. rewrite decide_False; [done|]. intros [_ ?%elem_of_nil]. done.
    - intros done s1 g1 g2 HI1 Hbody.
      pose (P := λ (rs : list nat) (g' : grid Q), ∀ n r d s,
        grid_find g' n r d s
        = if decide (targets (resourceIdLookup self) n d (name, day, w) ∧ s = s1 ∧ r ∈ rs)
          then Some w else grid_find g1 n r d s).
      assert (P ([] ++ range (numRoles self)) g2) as HP.
      { revert Hbody. apply fold_result_ind.
        - intros n r d s. rewrite decide_False; [done|]. intros (_ & _ & ?%elem_of_nil). done.
        - intros rs r1 g3 g4 HP3 Hset.
          apply bind_Ok in Hset as (rid & Hrid%dict_get_Ok & Hset).
          intros n r d s. rewrite (grid_find_set _ _ _ _ _ _ _ Hset), HP3.
          unfold targets. simpl.
          destruct (decide (n = rid ∧ r = r1 ∧ d = day ∧ s = s1)) as [(-> & -> & -> & ->)|Hne].
          + rewrite decide_True; [done|]. rewrite elem_of_app, list_elem_of_singleton. tauto.
          + destruct (decide ((dict_find (resourceIdLookup self) name = Some n ∧ day = d)
                              ∧ s = s1 ∧ r ∈ rs)) as [Hin|Hout].
            * rewrite decide_True; [done|]. rewrite elem_of_app. tauto.
            * rewrite decide_False; [done|].
              rewrite elem_of_app, list_elem_of_singleton.
              intros ((Hid & <-) & -> & [Hr| ->]); [tauto|].
              apply Hne. split; [congruence|done]. }
      simpl in HP. intros n r d s Hr. rewrite HP, HI1 by done.
      pose proof (elem_of_range (numRoles self) r).
      pose proof (elem_of_app done [s1] s) as Happ.
      rewrite list_elem_of_singleton in Happ.
      repeat case_decide; try done; exfalso; tauto. }
  simpl in HI. intros n r d s Hr Hs. rewrite HI by done.
  pose proof (elem_of_range (numShifts self) s).
  repeat case_decide; try done; exfalso; tauto.
Qed.

Lemma _softLeave_grid_cells (self : Solver) requests g :
  _softLeave_grid requests self = Ok g →
  ∀ n r d s, n < numResources self → r < numRoles self →
    d < numDays self → s < numShifts self →
    grid_find g n r d s = Some (last_weight (resourceIdLookup self) requests n d).
Proof.
  unfold _softLeave_grid. intros H.
  pose (P := λ (done : list (string * nat * Q)) (g' : grid Q),
    ∀ n r d s, n < numResources self → r < numRoles self →
      d < numDays self → s < numShifts self →
      grid_find g' n r d s = Some (last_weight (resourceIdLookup self) done n d)).
  assert (P ([] ++ requests) g) as HP; [|exact HP].
  revert H. apply fold_result_ind.
  - intros n r d s ????. by rewrite grid_find_build.
  - intros done [[name day] w] g1 g2 HP1 Hbody n r d s Hn Hr Hd Hs.
    simpl in Hbody. rewrite (soft_request_grid _ _ _ _ _ _ Hbody) by done.
    rewrite last_weight_snoc, HP1 by done. simpl. by case_decide.
Qed.

(** C8: the penalty grid built from the soft-leave requests holds, at every
    coordinate (n, r, d, s), the weight of the last request targeting (n, d)
    (the same for every role and shift; later requests overwrite earlier
    ones) and zero where no request targets (n, d); the objective handed to
    [Minimize] is the sum over all coordinates of penalty times variable. *)
Theorem soft_leave_last_write_wins args self st :
  HospitalSolver_build args self = Ok st →
  ∃ penalty,
    _softLeave_grid (args3 args) st = Ok penalty
    ∧ (∀ n r d s, n < numResources st → r < numRoles st →
         d < numDays st → s < numShifts st →
         grid_find penalty n r d s
         = Some (last_weight (resourceIdLookup st) (args3 args) n d))
    ∧ objective (model st)
      = Some (n ← range (numResources st); r ← range (numRoles st);
              d ← range (numDays st); s ← range (numShifts st);
              [(last_weight (resourceIdLookup st) (args3 args) n d, NewBoolVar n r d s)]).
Proof.
  intros Hb.
  destruct (HospitalSolver_build_constructed _ _ _ Hb) as [].
  destruct c_base0 as [].
  destruct c_objective0 as (g & e & Hg & He & Hobj).
  exists g. split; [done|]. split; [by apply _softLeave_grid_cells|].
  rewrite Hobj. f_equal.
  assert (_softLeave_objective g st
          = Ok (n ← range (numResources st); r ← range (numRoles st);
                d ← range (numDays st); s ← range (numShifts st);
                [(last_weight (resourceIdLookup st) (args3 args) n d, NewBoolVar n r d s)]))
    as He'; [|congruence].
  unfold _softLeave_objective.
  apply for_each_pure_in. intros n Hn%elem_of_range.
  apply for_each_pure_in. intros r Hr%elem_of_range.
  apply for_each_pure_in. intros d Hd%elem_of_range.
  apply for_each_pure_in. intros s Hs%elem_of_range.
  rewrite vars_get_ok by done. unfold grid_get.
  by rewrite (_softLeave_grid_cells _ _ _ Hg) by done.
Qed.

(** ** The cross-day transition constraint *)

Lemma matrix_find_set m m' i0 j0 v :
  matrix_set m i0 j0 v = Ok m' →
  is_Some (matrix_find m i0 j0)
  ∧ ∀ i j, matrix_find m' i j
           = if decide (i = i0 ∧ j = j0) then Some v else matrix_find m i j.
Proof.
  unfold matrix_set. intros H.
  apply bind_Ok in H as (row & Hrow%of_option_Ok & H).
  apply bind_Ok in H as (z & Hz%of_option_Ok & [= <-]).
  split.
  { unfold matrix_find. rewrite Hrow. simpl. by eexists. }
  intros i j. unfold matrix_find.
  destruct (decide (i = i0)) as [->|Hi]; last first.
  { rewrite list_lookup_insert_ne by done. rewrite decide_False by tauto. done. }
  rewrite list_lookup_insert_eq by (by apply lookup_lt_Some in Hrow).
  rewrite Hrow. cbn [mbind option_bind].
  destruct (decide (j = j0)) as [->|Hj]; last first.
  { rewrite list_lookup_insert_ne by done. rewrite decide_False by tauto. done. }
  rewrite decide_True by done. apply list_lookup_insert_eq.
  by apply lookup_lt_Some in Hz.
Qed.

Lemma matrix_set_raises m i0 j0 v :
  matrix_find m i0 j0 = None → matrix_set m i0 j0 v = Raise IndexError.
Proof.
  unfold matrix_find, matrix_set. intros H.
  destruct (m !! i0) as [row|]; [|done]. simpl in *. by rewrite H.
Qed.

Lemma matrix_find_zeros (S i j : nat) :
  matrix_find (replicate S (replicate S 0%Z)) i j
  = if decide (i < S ∧ j < S) then Some 0%Z else None.
Proof.
  unfold matrix_find.
  destruct (decide (i < S)) as [Hi|Hi]; last first.
  { rewrite (proj1 (lookup_replicate_None _ _ _)) by lia.
    rewrite decide_False by tauto. done. }
  rewrite lookup_replicate_2 by done. cbn [mbind option_bind].
  destruct (decide (j < S)) as [Hj|Hj].
  - rewrite lookup_replicate_2 by done. by rewrite decide_True.
  - rewrite (proj1 (lookup_replicate_None _ _ _)) by lia.
    rewrite decide_False by tauto. done.
Qed.

Lemma _nextDayShift_matrix_cells arg self m :
  _nextDayShift_matrix arg self = Ok m →
  (∀ p, p ∈ arg → p.1 < numShifts self)
  ∧ ∀ i j, matrix_find m i j
           = if decide (i < numShifts self ∧ j < numShifts self)
             then Some (flagged arg i j) else None.
Proof.
  unfold _nextDayShift_matrix. intros H.
  pose (P := λ (done : list (nat * nat)) (m' : list (list Z)),
    (∀ p, p ∈ done → p.1 < numShifts self)
    ∧ ∀ i j, matrix_find m' i j
             = if decide (i < numShifts self ∧ j < numShifts self)
               then Some (flagged done i j) else None).
  assert (P ([] ++ arg) m) as HP; [|exact HP].
  revert H. apply fold_result_ind.
  - split; [by intros p ?%elem_of_nil|].
    intros i j. rewrite matrix_find_zeros. case_decide; [|done].
    unfold flagged. rewrite decide_False; [done|]. simpl. intros [_ ?%elem_of_nil]. done.
  - intros done p m1 m2 [Hlt Hcells] Hset. simpl in Hset.
    apply matrix_find_set in Hset as [Hsome Hset].
    rewrite Hcells in Hsome. case_decide as Hp; [|by destruct Hsome].
    split.
    + intros q [Hq| ->%list_elem_of_singleton]%elem_of_app; [by apply Hlt|tauto].
    + intros i j. rewrite Hset, Hcells. unfold flagged.
      rewrite fmap_app. simpl.
      pose proof (elem_of_app (done.*1) [p.1] i) as Happ.
      rewrite list_elem_of_singleton in Happ.
      repeat case_decide; try done; exfalso; try tauto; try lia.
      all: destruct_and?; subst; tauto.
Qed.

Lemma _nextDayShift_matrix_total arg self :
  (∀ p, p ∈ arg → p.1 < numShifts self) →
  ∃ m, _nextDayShift_matrix arg self = Ok m.
Proof.
  intros Hlt. unfold _nextDayShift_matrix.
  assert (∀ pre m0,
    (∀ i j, matrix_find m0 i j
            = if decide (i < numShifts self ∧ j < numShifts self)
              then Some (flagged pre i j) else None) →
    ∃ m, fold_result arg (λ dependence m,
           matrix_set m dependence.1 dependence.1 1%Z) m0 = Ok m) as Hgen.
  { induction arg as [|p arg IH]; intros pre m0 Hm0; simpl; [by eexists|].
    destruct (matrix_set m0 p.1 p.1 1) as [m1|e] eqn:Hset.
    - simpl. apply (IH (λ q Hq, Hlt q (proj2 (elem_of_cons _ _ _) (or_intror Hq)))
                      (pre ++ [p])).
      apply matrix_find_set in Hset as [_ Hset].
      intros i j. rewrite Hset, Hm0. unfold flagged. rewrite fmap_app. simpl.
      pose proof (elem_of_app (pre.*1) [p.1] i) as Happ.
      rewrite list_elem_of_singleton in Happ.
      assert (p.1 < numShifts self) by (apply Hlt; left).
      repeat case_decide; try done; exfalso; try tauto; try lia.
      all: destruct_and?; subst; tauto.
    - exfalso. unfold matrix_set in Hset.
      assert (p.1 < numShifts self) as Hp by (apply Hlt; left).
      pose proof (Hm0 p.1 p.1) as Hc. rewrite decide_True in Hc by done.
      unfold matrix_find in Hc.
      destruct (m0 !! p.1) as [row|]; [|done]. simpl in Hc, Hset.
      rewrite Hc in Hset. done. }
  apply (Hgen []). intros i j. rewrite matrix_find_zeros.
  case_decide; [|done]. unfold flagged. rewrite decide_False; [done|].
  simpl. intros [_ ?%elem_of_nil]. done.
Qed.

Lemma _nextDayShift_adds_shape arg self m :
  vars_ok self → _nextDayShift_matrix arg self = Ok m →
  _nextDayShift_adds (set_non_sequential m self)
  = Ok (n ← range (numResources self); d ← range (numDays self - 1);
        s ← range (numShifts self); [LinLe (transition_expr arg self n d s) 1]).
Proof.
  intros Hv Hm. apply _nextDayShift_matrix_cells in Hm as [_ Hcells].
  unfold _nextDayShift_adds. simpl.
  apply for_each_pure_in. intros n Hn%elem_of_range.
  apply for_each_pure_in. intros d Hd%elem_of_range.
  apply for_each_pure_in. intros s Hs%elem_of_range.
  rewrite (for_each_pure_in _ _ (λ j, r ← range (numRoles self);
     [(flagged arg s j, NewBoolVar n r d s); (1%Z, NewBoolVar n r (d + 1) j)])); [done|].
  intros j Hj%elem_of_range.
  apply for_each_pure_in. intros r Hr%elem_of_range.
  rewrite !vars_get_ok by (done || lia). simpl.
  unfold matrix_get. rewrite Hcells, decide_True by done. done.
Qed.

Lemma eval_cons v t e : eval v (t :: e) = (t.1 * bool_to_Z (v t.2) + eval v e)%Z.
Proof. reflexivity. Qed.

Lemma bool_to_Z_range b : (0 ≤ bool_to_Z b ≤ 1)%Z.
Proof. destruct b; simpl; lia. Qed.

Lemma eval_elem_ge v e t :
  Forall (λ t, (0 ≤ t.1)%Z) e → t ∈ e → (eval v [t] ≤ eval v e)%Z.
Proof.
  induction 1 as [|t' e Ht' He IH]; intros Hin.
  - by apply elem_of_nil in Hin.
  - rewrite !eval_cons. pose proof (eval_nonneg v e He).
    pose proof (bool_to_Z_range (v t'.2)).
    apply elem_of_cons in Hin as [->|Hin].
    + change (eval v []) with 0%Z. lia.
    + specialize (IH Hin). rewrite eval_cons in IH. nia.
Qed.

Lemma eval_two_ge v e t1 t2 :
  Forall (λ t, (0 ≤ t.1)%Z) e → t1 ∈ e → t2 ∈ e → t1 ≠ t2 →
  (eval v [t1] + eval v [t2] ≤ eval v e)%Z.
Proof.
  induction 1 as [|t' e Ht' He IH]; intros H1 H2 Hne.
  - by apply elem_of_nil in H1.
  - rewrite (eval_cons v t' e). pose proof (bool_to_Z_range (v t'.2)).
    apply elem_of_cons in H1 as [->|H1]; apply elem_of_cons in H2 as [->|H2].
    + done.
    + pose proof (eval_elem_ge v e t2 He H2). rewrite !eval_cons in *.
      change (eval v []) with 0%Z in *. lia.
    + pose proof (eval_elem_ge v e t1 He H1). rewrite !eval_cons in *.
      change (eval v []) with 0%Z in *. lia.
    + specialize (IH H1 H2 Hne). nia.
Qed.

Lemma eval_bind {A} v (l : list A) (f : A → linexpr) :
  eval v (l ≫= f) = sumZ ((λ a, eval v (f a)) <$> l).
Proof.
  induction l as [|a l IH]; [done|].
  rewrite bind_cons, eval_app, IH. done.
Qed.

Lemma sumZ_zero {A} (f : A → Z) (l : list A) :
  (∀ a, a ∈ l → f a = 0%Z) → sumZ (f <$> l) = 0%Z.
Proof.
  induction l as [|a l IH]; intros H; [done|].
  rewrite fmap_cons. simpl. rewrite H by left. rewrite IH; [done|].
  intros b Hb. apply H. by right.
Qed.

Lemma sumZ_le_1 {A} (f : A → Z) (l : list A) :
  NoDup l →
  (∀ a, a ∈ l → (0 ≤ f a ≤ 1)%Z) →
  (∀ a b, a ∈ l → b ∈ l → f a ≠ 0%Z → f b ≠ 0%Z → a = b) →
  (sumZ (f <$> l) ≤ 1)%Z.
Proof.
  induction 1 as [|a l Ha Hnd IH]; intros Hrange Huniq; [simpl; lia|].
  rewrite fmap_cons. simpl.
  destruct (decide (f a = 0%Z)) as [->|Hfa].
  - simpl. apply IH.
    + intros b Hb. apply Hrange. by right.
    + intros b c Hb Hc. apply Huniq; by right.
  - rewrite sumZ_zero.
    + assert (0 ≤ f a ≤ 1)%Z by (apply Hrange; left). lia.
    + intros b Hb. destruct (decide (f b = 0%Z)) as [|Hfb]; [done|].
      exfalso. apply Ha. rewrite (Huniq a b); [done|left|by right|done|done].
Qed.

Lemma transition_expr_pairs arg self n d s :
  transition_expr arg self n d s
  = p ← shift_role_pairs self;
    [(flagged arg s p.1, NewBoolVar n p.2 d s); (1%Z, NewBoolVar n p.2 (d + 1) p.1)].
Proof.
  unfold transition_expr, shift_role_pairs.
  induction (range (numShifts self)) as [|j js IH]; [done|].
  rewrite !bind_cons, bind_app. f_equal; [|done].
  clear IH. induction (range (numRoles self)) as [|r rs IH]; [done|].
  rewrite !bind_cons, bind_app. by f_equal.
Qed.

Lemma NoDup_range n : NoDup (range n).
Proof. apply NoDup_seq. Qed.

Lemma NoDup_shift_role_pairs self : NoDup (shift_role_pairs self).
Proof.
  unfold shift_role_pairs. apply NoDup_bind; [| |apply NoDup_range].
  - intros j1 j2 [j r] _ _ H1 H2.
    apply list_elem_of_bind in H1 as (r1 & [= -> ->]%list_elem_of_singleton & _).
    apply list_elem_of_bind in H2 as (r2 & [= -> ->]%list_elem_of_singleton & _).
    done.
  - intros j _. apply NoDup_bind; [| |apply NoDup_range].
    + intros r1 r2 p _ _ ->%list_elem_of_singleton [= ->]%list_elem_of_singleton. done.
    + intros r _. apply NoDup_singleton.
Qed.

Lemma flagged_range arg s j : (0 ≤ flagged arg s j ≤ 1)%Z.
Proof. unfold flagged. case_decide; lia. Qed.

Lemma transition_expr_nonneg arg self n d s :
  Forall (λ t, (0 ≤ t.1)%Z) (transition_expr arg self n d s).
Proof.
  apply Forall_forall. intros t Ht. unfold transition_expr in Ht.
  apply list_elem_of_bind in Ht as (j & Ht & _).
  apply list_elem_of_bind in Ht as (r & Ht & _).
  pose proof (flagged_range arg s j).
  apply elem_of_cons in Ht as [->|Ht]; [simpl; lia|].
  apply list_elem_of_singleton in Ht as ->. simpl. lia.
Qed.

Lemma transition_expr_two arg self n d s0 j0 r1 r2 n' d' s' :
  s0 ∉ arg.*1 →
  (eval (assign_two (NewBoolVar n r1 d s0) (NewBoolVar n r2 (d + 1) j0))
     (transition_expr arg self n' d' s') ≤ 1)%Z.
Proof.
  intros Hs0. rewrite transition_expr_pairs, eval_bind.
  set (v := assign_two _ _).
  assert (∀ x, v x = true → x = NewBoolVar n r1 d s0 ∨ x = NewBoolVar n r2 (d + 1) j0) as Hv.
  { intros x Hx. unfold v, assign_two in Hx. by apply bool_decide_eq_true in Hx. }
  assert (∀ p : nat * nat,
    eval v [(flagged arg s' p.1, NewBoolVar n' p.2 d' s');
            (1%Z, NewBoolVar n' p.2 (d' + 1) p.1)] ≠ 0%Z →
    (s' ∈ arg.*1 ∧ p.1 = s' ∧ v (NewBoolVar n' p.2 d' s') = true
     ∧ v (NewBoolVar n' p.2 (d' + 1) p.1) = false)
    ∨ ((flagged arg s' p.1 = 0%Z ∨ v (NewBoolVar n' p.2 d' s') = false)
       ∧ v (NewBoolVar n' p.2 (d' + 1) p.1) = true)) as Hact.
  { intros p Hp. rewrite !eval_cons in Hp. change (eval v []) with 0%Z in Hp. simpl in Hp.
    destruct (v (NewBoolVar n' p.2 d' s')) eqn:EX;
      destruct (v (NewBoolVar n' p.2 (d' + 1) p.1)) eqn:EY; simpl in Hp.
    - right. split; [|done]. left.
      pose proof (Hv _ EX) as HX. pose proof (Hv _ EY) as HY.
      destruct HX as [HX|HX], HY as [HY|HY]; simplify_eq; try lia.
      unfold flagged. apply decide_False. tauto.
    - left. unfold flagged in Hp |- *. case_decide as Hd; [|lia].
      destruct Hd as [-> ?]. done.
    - right. split; [by right|done].
    - lia. }
  apply sumZ_le_1.
  - apply NoDup_shift_role_pairs.
  - intros p _. rewrite !eval_cons. change (eval v []) with 0%Z. simpl.
    pose proof (flagged_range arg s' p.1).
    destruct (v (NewBoolVar n' p.2 d' s')) eqn:EX;
      destruct (v (NewBoolVar n' p.2 (d' + 1) p.1)) eqn:EY; simpl; try lia.
    apply Hv in EX. apply Hv in EY.
    destruct EX as [EX|EX], EY as [EY|EY]; simplify_eq; try lia.
    unfold flagged. rewrite decide_False by tauto. lia.
  - intros [ja ra] [jb rb] _ _ Ha Hb.
    apply Hact in Ha. apply Hact in Hb. simpl in Ha, Hb.
    destruct Ha as [(Hfa & -> & Ha & _)|[_ Ha]], Hb as [(Hfb & -> & Hb & _)|[_ Hb]];
      apply Hv in Ha; apply Hv in Hb;
      destruct Ha as [Ha|Ha], Hb as [Hb|Hb]; simplify_eq; try done; try lia.
Qed.

(** What the constraints of [_nextDayShift] enforce, as the code is written
    (not as its docstring describes it): a resource that an accepted valuation
    puts on the first component of some declared pair on day [d] has no
    assignment at all on day [d + 1] (any shift, any role); and a shift that
    is the first component of no declared pair restricts nothing: being on it
    on day [d] and on any shift on day [d + 1] satisfies every constraint
    [_nextDayShift] adds. *)
Theorem next_day_transition arg self self' :
  vars_ok self → _nextDayShift arg self = Ok self' →
  ∃ added,
    constraints (model self') = constraints (model self) ++ added
    ∧ (∀ from to n r r' d j v,
         (from, to) ∈ arg →
         n < numResources self → r < numRoles self → r' < numRoles self →
         d + 1 < numDays self → j < numShifts self →
         accepted v (model self') →
         v (NewBoolVar n r d from) = true → v (NewBoolVar n r' (d + 1) j) = false)
    ∧ (∀ s j n r1 r2 d,
         s ∉ arg.*1 →
         Forall (holds (assign_two (NewBoolVar n r1 d s) (NewBoolVar n r2 (d + 1) j))) added).
Proof.
  intros Hv H. unfold _nextDayShift in H.
  apply bind_Ok in H as (m & Hm & H).
  apply bind_Ok in H as (added & Hadded & [= <-]).
  rewrite (_nextDayShift_adds_shape arg) in Hadded by done. injection Hadded as <-.
  eexists. split; [reflexivity|]. split.
  - intros from to n r r' d j v Hpair Hn Hr Hr' Hd Hj Hacc Hx.
    apply _nextDayShift_matrix_cells in Hm as [Hlt _].
    pose proof (Hlt _ Hpair) as Hfrom. simpl in Hfrom.
    assert (holds v (LinLe (transition_expr arg self n d from) 1)) as Hc.
    { apply (accepted_elem _ _ _ Hacc). simpl. apply elem_of_app. right.
      apply list_elem_of_bind. exists n. split; [|by apply elem_of_range].
      apply list_elem_of_bind. exists d. split; [|apply elem_of_range; lia].
      apply list_elem_of_bind. exists from. split; [|by apply elem_of_range].
      by apply list_elem_of_singleton. }
    simpl in Hc.
    destruct (v (NewBoolVar n r' (d + 1) j)) eqn:Hy; [exfalso|done].
    pose proof (eval_two_ge v _ (flagged arg from from, NewBoolVar n r d from)
                  (1%Z, NewBoolVar n r' (d + 1) j)
                  (transition_expr_nonneg arg self n d from)) as Hge.
    rewrite !eval_cons in Hge. change (eval v []) with 0%Z in Hge. simpl in Hge.
    rewrite Hx, Hy in Hge. simpl in Hge.
    assert (flagged arg from from = 1%Z) as Hflag.
    { unfold flagged. rewrite decide_True; [done|]. split; [done|].
      apply list_elem_of_fmap. by exists (from, to). }
    rewrite Hflag in Hge.
    assert (1 + 0 + (1 + 0) ≤ eval v (transition_expr arg self n d from))%Z; [|lia].
    apply Hge.
    + unfold transition_expr.
      apply list_elem_of_bind. exists from. split; [|by apply elem_of_range].
      apply list_elem_of_bind. exists r. split; [|by apply elem_of_range].
      rewrite Hflag. left.
    + unfold transition_expr.
      apply list_elem_of_bind. exists j. split; [|by apply elem_of_range].
      apply list_elem_of_bind. exists r'. split; [|by apply elem_of_range].
      right. left.
    + intros [=]. lia.
  - intros s j n r1 r2 d Hs. apply Forall_forall. intros c Hc.
    apply list_elem_of_bind in Hc as (n' & Hc & _).
    apply list_elem_of_bind in Hc as (d' & Hc & _).
    apply list_elem_of_bind in Hc as (s' & Hc & _).
    apply list_elem_of_singleton in Hc as ->. simpl.
    by apply transition_expr_two.
Qed.

(** ** The night-shift rule and the number of shifts *)

Lemma _dayAfterNight_raises self :
  numShifts self < 3 → _dayAfterNight self = Raise IndexError.
Proof.
  intros HS. unfold _dayAfterNight, _nextDayShift, _nextDayShift_matrix. simpl.
  rewrite matrix_set_raises; [done|].
  rewrite matrix_find_zeros. apply decide_False. lia.
Qed.

Lemma _dayAfterNight_total self :
  vars_ok self → 3 ≤ numShifts self → ∃ self', _dayAfterNight self = Ok self'.
Proof.
  intros Hv HS. unfold _dayAfterNight, _nextDayShift.
  destruct (_nextDayShift_matrix_total [(2, 0); (2, 1); (2, 2)] self) as [m Hm].
  { intros p Hp. repeat (apply elem_of_cons in Hp as [->|Hp]; [simpl; lia|]).
    by apply elem_of_nil in Hp. }
  rewrite Hm. simpl. rewrite (_nextDayShift_adds_shape _ _ _ Hv Hm). simpl. by eexists.
Qed.

(** C10 (as amended): with at least 3 shifts per day the indexing done by
    [_dayAfterNight] never raises; with fewer than 3 shifts the construction
    of [HospitalSolver] always fails, and it fails with an index error
    whenever the steps before [_dayAfterNight] (the base construction)
    succeed. *)
Theorem day_after_night_needs_three_shifts args self day0 :
  args1 args !! 0 = Some day0 →
  (3 ≤ length day0 →
     ∀ s, build Solver_childConstraints args self = Ok s →
          ∃ s', _dayAfterNight s = Ok s')
  ∧ (length day0 < 3 →
       (∃ e, HospitalSolver_build args self = Raise e)
       ∧ ∀ s, build Solver_childConstraints args self = Ok s →
              HospitalSolver_build args self = Raise IndexError).
Proof.
  intros Hday0.
  assert (∀ s, build Solver_childConstraints args self = Ok s →
               vars_ok s ∧ numShifts s = length day0) as Hbase.
  { intros s [] %build_base_constructed. split; [done|].
    destruct c_shifts0 as (day0' & ? & ->). congruence. }
  split.
  - intros HS s Hs. destruct (Hbase _ Hs) as [Hv HN].
    apply _dayAfterNight_total; [done|lia].
  - intros HS.
    assert (∀ s, build Solver_childConstraints args self = Ok s →
                 HospitalSolver_build args self = Raise IndexError) as Hfail.
    { intros s Hs. destruct (Hbase _ Hs) as [Hv HN].
      unfold HospitalSolver_build. rewrite build_split, Hs. simpl.
      unfold HospitalSolver_childConstraints.
      rewrite _dayAfterNight_raises by lia. done. }
    split; [|done].
    destruct (build Solver_childConstraints args self) as [s|e] eqn:Hs.
    + exists IndexError. by apply (Hfail s).
    + exists e. unfold HospitalSolver_build. by rewrite build_split, Hs.
Qed.

(** ** The identifier registry *)

Section FirstSeen.
Context {A : Type} `{EqDecision A}.
Implicit Types (l acc : list A) (x y : A).

Lemma index_of_elem x l : x ∈ l ↔ is_Some (index_of x l).
Proof.
  induction l as [|y l IH]; simpl.
  - split; [by intros ?%elem_of_nil|by intros [? ?]].
  - rewrite elem_of_cons. case_decide.
    + split; [by eexists|by left].
    + rewrite IH, fmap_is_Some. tauto.
Qed.

Lemma index_of_lookup x l i : index_of x l = Some i → l !! i = Some x.
Proof.
  revert i. induction l as [|y l IH]; intros i; simpl; [done|].
  case_decide.
  - intros [= <-]. by subst.
  - destruct (index_of x l) as [j|]; [|done]. intros [= <-]. by apply IH.
Qed.

Lemma index_of_app x l1 l2 :
  index_of x (l1 ++ l2)
  = match index_of x l1 with
    | Some i => Some i
    | None => (λ i, length l1 + i) <$> index_of x l2
    end.
Proof.
  induction l1 as [|y l1 IH]; simpl.
  - by destruct (index_of x l2).
  - case_decide; [done|]. rewrite IH.
    destruct (index_of x l1); [done|]. by destruct (index_of x l2).
Qed.

Lemma index_of_lt x l i : index_of x l = Some i → i < length l.
Proof. intros H%index_of_lookup. by apply lookup_lt_Some in H. Qed.

Lemma index_of_NoDup l i x : NoDup l → l !! i = Some x → index_of x l = Some i.
Proof.
  intros Hnd Hi. destruct (index_of x l) as [j|] eqn:Hj.
  - apply index_of_lookup in Hj. f_equal. by apply (NoDup_lookup l j i x).
  - exfalso. assert (x ∈ l) as Hx by (by apply list_elem_of_lookup; exists i).
    apply index_of_elem in Hx as [? ?]. congruence.
Qed.

Lemma append_new_elem acc x y : y ∈ append_new acc x ↔ y ∈ acc ∨ y = x.
Proof.
  unfold append_new. case_decide.
  - split; [by left|]. intros [?| ->]; done.
  - by rewrite elem_of_app, list_elem_of_singleton.
Qed.

Lemma foldl_append_new_elem acc l y : y ∈ foldl append_new acc l ↔ y ∈ acc ∨ y ∈ l.
Proof.
  revert acc. induction l as [|x l IH]; intros acc; simpl.
  - split; [by left|]. intros [?|?%elem_of_nil]; done.
  - rewrite IH, append_new_elem, elem_of_cons. tauto.
Qed.

Lemma foldl_append_new_NoDup acc l : NoDup acc → NoDup (foldl append_new acc l).
Proof.
  revert acc. induction l as [|x l IH]; intros acc Hnd; simpl; [done|].
  apply IH. unfold append_new. case_decide; [done|].
  apply NoDup_app. split; [done|]. split; [|apply NoDup_singleton].
  intros y Hy ->%list_elem_of_singleton. done.
Qed.

Lemma foldl_append_new_concat acc (ls : list (list A)) :
  foldl (λ a l, foldl append_new a l) acc ls = foldl append_new acc (concat ls).
Proof.
  revert acc. induction ls as [|l ls IH]; intros acc; simpl; [done|].
  by rewrite IH, foldl_app.
Qed.

Lemma first_seen_elem l x : x ∈ first_seen l ↔ x ∈ l.
Proof.
  unfold first_seen. rewrite foldl_append_new_elem.
  split; [intros [?%elem_of_nil|?]; done|by right].
Qed.

Lemma first_seen_NoDup l : NoDup (first_seen l).
Proof. apply foldl_append_new_NoDup, NoDup_nil_2. Qed.

Lemma first_seen_snoc l x :
  first_seen (l ++ [x])
  = if decide (x ∈ l) then first_seen l else first_seen l ++ [x].
Proof.
  unfold first_seen at 1. rewrite foldl_snoc. fold (first_seen l).
  unfold append_new. pose proof (first_seen_elem l x).
  repeat case_decide; tauto.
Qed.

(** First-seen order: positions in the de-duplicated list are ordered as the
    first occurrences in the scanned list. *)
Lemma first_seen_order l x y i j p q :
  index_of x (first_seen l) = Some i → index_of y (first_seen l) = Some j →
  index_of x l = Some p → index_of y l = Some q →
  (i < j ↔ p < q).
Proof.
  revert i j p q. induction l as [|z l IH] using rev_ind; intros i j p q; [done|].
  rewrite first_seen_snoc, !(index_of_app _ l [z]).
  assert (∀ w, index_of w l = None → w ∉ l) as Hnone.
  { intros w Hw [? ?]%index_of_elem. congruence. }
  assert (∀ w, index_of w l = None → index_of w (first_seen l) = None) as Hnone'.
  { intros w Hw. destruct (index_of w (first_seen l)) eqn:E; [|done].
    exfalso. apply (Hnone w Hw), first_seen_elem, index_of_elem. by eexists. }
  case_decide as Hz.
  - (* [z] was seen before: nothing is appended *)
    destruct (index_of x l) as [p'|] eqn:Ex; destruct (index_of y l) as [q'|] eqn:Ey.
    + intros ?? [= <-] [= <-]. by apply IH.
    + rewrite (Hnone' _ Ey). done.
    + rewrite (Hnone' _ Ex). done.
    + rewrite (Hnone' _ Ex). done.
  - rewrite !(index_of_app _ (first_seen l) [z]).
    destruct (index_of x l) as [p'|] eqn:Ex; destruct (index_of y l) as [q'|] eqn:Ey.
    + destruct (index_of x (first_seen l)) as [i'|] eqn:Exf; last first.
      { exfalso. assert (x ∈ first_seen l) as Hx.
        { apply first_seen_elem, index_of_elem. by eexists. }
        apply index_of_elem in Hx as [? ?]. congruence. }
      destruct (index_of y (first_seen l)) as [j'|] eqn:Eyf; last first.
      { exfalso. assert (y ∈ first_seen l) as Hy.
        { apply first_seen_elem, index_of_elem. by eexists. }
        apply index_of_elem in Hy as [? ?]. congruence. }
      intros [= <-] [= <-] [= <-] [= <-]. by apply IH.
    + destruct (index_of x (first_seen l)) as [i'|] eqn:Exf; last first.
      { exfalso. assert (x ∈ first_seen l) as Hx.
        { apply first_seen_elem, index_of_elem. by eexists. }
        apply index_of_elem in Hx as [? ?]. congruence. }
      rewrite (Hnone' _ Ey). simpl. case_decide; [|done]. simpl.
      intros [= <-] [= <-] [= <-] [= <-].
      apply index_of_lt in Exf. apply index_of_lt in Ex. lia.
    + destruct (index_of y (first_seen l)) as [j'|] eqn:Eyf; last first.
      { exfalso. assert (y ∈ first_seen l) as Hy.
        { apply first_seen_elem, index_of_elem. by eexists. }
        apply index_of_elem in Hy as [? ?]. congruence. }
      rewrite (Hnone' _ Ex). simpl. case_decide; [|done]. simpl.
      intros [= <-] [= <-] [= <-] [= <-].
      apply index_of_lt in Eyf. apply index_of_lt in Ey. lia.
    + rewrite (Hnone' _ Ex), (Hnone' _ Ey). simpl.
      repeat case_decide; try done. simpl.
      intros [= <-] [= <-] [= <-] [= <-]. lia.
Qed.

End FirstSeen.

Lemma dict_find_NoDup {K V} `{EqDecision K} (d : dict K V) k v :
  NoDup (dict_keys d) → dict_find d k = Some v ↔ (k, v) ∈ d.
Proof.
  unfold dict_keys. induction d as [|[k' v'] d IH]; simpl; intros Hnd.
  - split; [done|by intros ?%elem_of_nil].
  - apply NoDup_cons in Hnd as [Hk' Hnd]. rewrite elem_of_cons. case_decide.
    + subst. split; [intros [= ->]; by left|].
      intros [[= ->]|Hin]; [done|]. exfalso. apply Hk'.
      apply list_elem_of_fmap. by exists (k', v).
    + rewrite IH by done. split; [by right|]. intros [[= ? ?]|?]; done.
Qed.

Lemma enumerate_lookup {A} (l : list A) i : enumerate l !! i = pair i <$> l !! i.
Proof. unfold enumerate. apply list_lookup_imap. Qed.

Lemma enumerate_elem {A} (l : list A) i x : (i, x) ∈ enumerate l ↔ l !! i = Some x.
Proof.
  rewrite list_elem_of_lookup. split.
  - intros [j Hj]. rewrite enumerate_lookup in Hj.
    destruct (l !! j) eqn:E; [|done]. injection Hj as <- <-. done.
  - intros H. exists i. by rewrite enumerate_lookup, H.
Qed.

Lemma enumerate_keys_NoDup {A} (l : list A) : NoDup (dict_keys (enumerate l)).
Proof.
  unfold dict_keys. apply NoDup_alt. intros i j k Hi Hj.
  rewrite list_lookup_fmap, enumerate_lookup in Hi, Hj.
  destruct (l !! i); [|done]. destruct (l !! j); [|done].
  simpl in Hi, Hj. congruence.
Qed.

Lemma enumerate_swap_keys {A} (l : list A) :
  dict_keys ((λ p, (p.2, p.1)) <$> enumerate l) = l.
Proof.
  unfold dict_keys. apply list_eq. intros i.
  rewrite !list_lookup_fmap, enumerate_lookup. by destruct (l !! i).
Qed.

Lemma enumerate_swap_elem {A} (l : list A) i x :
  (x, i) ∈ (λ p : nat * A, (p.2, p.1)) <$> enumerate l ↔ l !! i = Some x.
Proof.
  rewrite list_elem_of_fmap, <- enumerate_elem. split.
  - intros ([j y] & [= -> ->] & H). done.
  - intros H. by exists (i, x).
Qed.

Lemma ids_of_first_seen (scanned : list string) k i :
  dict_find (dict_of_items ((λ p, (p.2, p.1)) <$> enumerate (first_seen scanned))) k = Some i
  ↔ first_seen scanned !! i = Some k.
Proof.
  assert (NoDup (dict_keys ((λ p : nat * string, (p.2, p.1))
                              <$> enumerate (first_seen scanned)))) as Hnd.
  { rewrite enumerate_swap_keys. apply first_seen_NoDup. }
  rewrite dict_of_items_NoDup by exact Hnd.
  rewrite dict_find_NoDup by exact Hnd. apply enumerate_swap_elem.
Qed.

Lemma names_of_first_seen (scanned : list string) k i :
  dict_find (dict_of_items (enumerate (first_seen scanned))) i = Some k
  ↔ first_seen scanned !! i = Some k.
Proof.
  rewrite dict_of_items_NoDup by apply enumerate_keys_NoDup.
  rewrite dict_find_NoDup by apply enumerate_keys_NoDup. apply enumerate_elem.
Qed.

Lemma first_seen_indexing_intro (scanned : list string) :
  first_seen_indexing scanned
    (dict_of_items ((λ p, (p.2, p.1)) <$> enumerate (first_seen scanned)))
    (dict_of_items (enumerate (first_seen scanned)))
    (length (first_seen scanned)).
Proof.
  split.
  - intros k. rewrite <- first_seen_elem, list_elem_of_lookup.
    split.
    + intros [i Hi]. exists i. by apply ids_of_first_seen.
    + intros [i Hi]. exists i. by apply ids_of_first_seen.
  - intros k i. by rewrite ids_of_first_seen, names_of_first_seen.
  - intros i. rewrite <- lookup_lt_is_Some. split.
    + intros [k Hk]. exists k. by apply names_of_first_seen.
    + intros [k Hk]. exists k. by apply names_of_first_seen.
  - intros k1 k2 i1 i2 p1 p2 H1 H2. apply first_seen_order.
    + apply index_of_NoDup; [apply first_seen_NoDup|]. by apply ids_of_first_seen.
    + apply index_of_NoDup; [apply first_seen_NoDup|]. by apply ids_of_first_seen.
Qed.

Lemma elem_of_concat {A} (x : A) (ls : list (list A)) :
  x ∈ concat ls ↔ ∃ l, x ∈ l ∧ l ∈ ls.
Proof.
  induction ls as [|l ls IH]; simpl.
  - split; [by intros ?%elem_of_nil|]. by intros (l & _ & ?%elem_of_nil).
  - rewrite elem_of_app, IH. split.
    + intros [?|(l' & ? & ?)]; [exists l; split; [done|left]|].
      exists l'. split; [done|by right].
    + intros (l' & Hx & [->|?]%elem_of_cons); [by left|]. right. by exists l'.
Qed.

Lemma bind_singleton_fmap {A B} (f : A → B) (l : list A) : l ≫= (λ x, [f x]) = f <$> l.
Proof. induction l as [|x l IH]; [done|]. rewrite bind_cons, IH. done. Qed.

Lemma _createEmployeeRoleLookup_registry_value arg :
  ∃ mapping,
    _createEmployeeRoleLookup_registry arg
    = Ok {| reg_numResources := length (first_seen (dict_keys arg));
            reg_numRoles := length (first_seen (role_scan arg));
            reg_resourcesLookup := dict_of_items (enumerate (first_seen (dict_keys arg)));
            reg_resourceIdLookup :=
              dict_of_items ((λ p, (p.2, p.1)) <$> enumerate (first_seen (dict_keys arg)));
            reg_rolesLookup := dict_of_items (enumerate (first_seen (role_scan arg)));
            reg_rolesIdLookup :=
              dict_of_items ((λ p, (p.2, p.1)) <$> enumerate (first_seen (role_scan arg)));
            reg_resourceRoleMapping := mapping |}.
Proof.
  unfold _createEmployeeRoleLookup_registry.
  rewrite (for_each_pure_in _ _ (λ k, [default [] (dict_find arg k)])); last first.
  { intros k [l Hl]%dict_find_key. unfold dict_get.
    destruct (dict_find arg k); [done|discriminate]. }
  cbn [mbind result_bind rbind]. rewrite bind_singleton_fmap, foldl_append_new_concat.
  fold (role_scan arg). fold (first_seen (role_scan arg)).
  fold (first_seen (dict_keys arg)).
  destruct (fold_result_total
    (λ resource (mapping : dict nat (list nat)),
       roleList ← dict_get arg resource;
       roleIdList ← for_each roleList (λ role,
         i ← dict_get (dict_of_items ((λ p, (p.2, p.1))
                                        <$> enumerate (first_seen (role_scan arg)))) role;
         Ok [i]);
       rid ← dict_get (dict_of_items ((λ p, (p.2, p.1))
                                        <$> enumerate (first_seen (dict_keys arg)))) resource;
       Ok (dict_set mapping rid roleIdList))
    (dict_keys arg) []) as [mapping Hmapping].
  { intros k mapping Hk.
    pose proof (dict_find_key _ _ Hk) as [roleList Hl].
    assert (dict_get arg k = Ok roleList) as Hget by (by apply dict_get_Ok).
    simpl. rewrite Hget. cbn [of_option mbind result_bind rbind].
    destruct (for_each_total roleList (λ role,
      i ← dict_get (dict_of_items ((λ p, (p.2, p.1))
                                     <$> enumerate (first_seen (role_scan arg)))) role;
      Ok [i])) as [ids ->].
    { intros role Hrole.
      assert (role ∈ first_seen (role_scan arg)) as Hin.
      { apply first_seen_elem. unfold role_scan. apply elem_of_concat.
        exists roleList. split; [done|]. apply list_elem_of_fmap. exists k.
        by rewrite Hl. }
      apply list_elem_of_lookup in Hin as [i Hi].
      apply ids_of_first_seen in Hi. unfold dict_get. rewrite Hi. by eexists. }
    cbn [mbind result_bind rbind].
    assert (k ∈ first_seen (dict_keys arg)) as Hin by (by apply first_seen_elem).
    apply list_elem_of_lookup in Hin as [i Hi].
    apply ids_of_first_seen in Hi. unfold dict_get. rewrite Hi. by eexists. }
  exists mapping. rewrite Hmapping. done.
Qed.

(** C7: registry construction never fails and writes a registry that is a
    function of the input alone (whatever the session held before), so
    running it again on the same input changes nothing; resource indices
    follow the first-seen order of the keys and role indices the first-seen
    order of the scan over resources and their role lists, each distinct key
    getting one index. *)
Theorem registry_deterministic_first_seen (arg : dict string (list string)) :
  ∃ reg,
    (∀ self, _createEmployeeRoleLookup arg self = Ok (set_registry reg self))
    ∧ (∀ self once, _createEmployeeRoleLookup arg self = Ok once →
         registry_of once = reg ∧ _createEmployeeRoleLookup arg once = Ok once)
    ∧ first_seen_indexing (dict_keys arg)
        (reg_resourceIdLookup reg) (reg_resourcesLookup reg) (reg_numResources reg)
    ∧ first_seen_indexing (role_scan arg)
        (reg_rolesIdLookup reg) (reg_rolesLookup reg) (reg_numRoles reg).
Proof.
  destruct (_createEmployeeRoleLookup_registry_value arg) as [mapping Hreg].
  eexists. split; [|split; [|split]].
  - intros self. unfold _createEmployeeRoleLookup. rewrite Hreg. reflexivity.
  - intros self once. unfold _createEmployeeRoleLookup. rewrite Hreg.
    intros [= <-]. split; reflexivity.
  - apply first_seen_indexing_intro.
  - apply first_seen_indexing_intro.
Qed.

(** ** The status returned by [solve] *)

Lemma solve_returns_None engine child args self st ret :
  solve engine child args self = Ok (st, ret) → ret = None.
Proof.
  unfold solve. intros H. apply bind_Ok in H as (built & _ & H).
  destruct (_finalSolve engine built). by injection H as _ <-.
Qed.

(** C2: on [demo_args] the engine invocation inside [_finalSolve] produces the
    status [OPTIMAL], but [solve] returns [None] to its caller: the status is
    dropped. *)
Theorem solve_discards_status :
  HospitalSolver_build demo_args (HospitalSolver_init 4) = Ok demo_built
  ∧ (_finalSolve demo_engine demo_built).2 = OPTIMAL
  ∧ HospitalSolver_solve demo_engine demo_args (HospitalSolver_init 4)
    = Ok (demo_solved, None).
Proof. split; [|split]; vm_compute; reflexivity. Qed.

(** ** Roster projection *)

Lemma day_key_inj (d d' : nat) : "Day_" +:+ pretty d = "Day_" +:+ pretty d' → d = d'.
Proof. cbn [String.append]. intros [= H]. by apply (inj pretty). Qed.

(** The per-resource roster has no entry for a day on which the valuation
    assigns the resource nothing. *)
Lemma roster_by_resource_omits_free_days self name n sv calendar d :
  vars_ok self → solver self = Some sv →
  dict_find (resourceIdLookup self) name = Some n →
  getRosterByResource name self = Ok calendar →
  (∀ r s, r < numRoles self → s < numShifts self →
          Value sv (NewBoolVar n r d s) = false) →
  dict_find calendar ("Day_" +:+ pretty d) = None.
Proof.
  intros Hv Hsv Hn Hcal Hfree. unfold getRosterByResource in Hcal.
  apply bind_Ok in Hcal as (n' & Hn'%dict_get_Ok & Hcal).
  assert (n' = n) as -> by congruence.
  pose (P := λ (_ : list nat) (cal : dict string pyvalue),
              dict_find cal ("Day_" +:+ pretty d) = None).
  assert (P ([] ++ range (numDays self)) calendar) as HP; [|exact HP].
  revert Hcal. apply fold_result_ind; [done|].
  intros ? d1 cal1 cal2 HP1 Hday. unfold getRosterByResource_day in Hday.
  apply bind_Ok in Hday as (st & Hst & [= <-]).
  pose (Q := λ (_ : list nat) (st : dict string pyvalue * dict string pyvalue),
              dict_find st.2 ("Day_" +:+ pretty d) = None).
  assert (Q ([] ++ range (numShifts self)) st) as HQ; [|exact HQ].
  revert Hst. apply fold_result_ind; [exact HP1|].
  intros ? s1 st1 st2 HQ1 Hshift.
  assert (Q ([] ++ range (numRoles self)) st2) as HQ2; [|exact HQ2].
  revert Hshift. apply fold_result_ind; [exact HQ1|].
  intros ? r1 st3 st4 HQ3 Hrole.
  unfold solver_Value in Hrole. rewrite Hsv in Hrole.
  cbn [of_option mbind result_bind rbind] in Hrole.
  apply bind_Ok in Hrole as (x & Hx & Hrole).
  apply vars_get_inv in Hx as (-> & _ & Hr1 & _ & Hs1); [|done].
  destruct (Value sv (NewBoolVar n r1 d1 s1)) eqn:Hval.
  - apply bind_Ok in Hrole as (role & _ & [= <-]). unfold Q. simpl.
    rewrite dict_find_set. case_decide as Hkey; [|exact HQ3].
    apply day_key_inj in Hkey as ->. rewrite Hfree in Hval by done. done.
  - by injection Hrole as <-.
Qed.

(** C9: in the per-day roster of the solved [demo_args] session, shifts 1 and 2
    of day 0 have no assigned resource, yet each is emitted as an entry
    holding only its shift number. *)
Theorem roster_by_day_emits_unstaffed_shifts :
  getRosterByDay 0 demo_solved
  = Ok [("Day", PyInt 0);
        ("Shift 0",
         PyDict [("Shift", PyInt 0);
                 ("R1", PyDict [("Resources", PyList [PyStr "B"]);
                                ("Requirement", PyTuple [PyInt 1])])]);
        ("Shift 1", PyDict [("Shift", PyInt 1)]);
        ("Shift 2", PyDict [("Shift", PyInt 2)])].
Proof. vm_compute. reflexivity. Qed.

(** ** Instances *)

Lemma accepted_acceptedb v m : accepted v m → acceptedb v m = true.
Proof.
  unfold acceptedb, accepted. rewrite forallb_forall, Forall_forall.
  intros H c Hc. apply holdsb_holds, H. by apply list_elem_of_In.
Qed.

Lemma daily_exclusivity_witness :
  LinLe (ones (day_vars two_day_session 0 1)) 1 ∈ constraints (model two_day_session)
  ∧ ∀ v, accepted v (model two_day_session) →
         count_true v (day_vars two_day_session 0 1) ≤ 1.
Proof.
  apply (daily_exclusivity two_day_args (Solver_init 1 250 true) two_day_session 0 1).
  - left. vm_compute. reflexivity.
  - vm_compute. lia.
  - vm_compute. lia.
Defined.

(** In the base-class model of [two_day_args] it is this constraint alone
    that keeps the resource from working two shifts on day 1: the valuation
    doing so satisfies every other constraint of the model. *)
Example daily_exclusivity_needed :
  let v := assign_two (NewBoolVar 0 0 1 0) (NewBoolVar 0 0 1 1) in
  ¬ accepted v (model two_day_session)
  ∧ Forall (holds v)
      (filter (λ c, c ≠ LinLe (ones (day_vars two_day_session 0 1)) 1)
              (constraints (model two_day_session))).
Proof.
  split.
  - intros H. apply accepted_acceptedb in H. vm_compute in H. discriminate.
  - apply Forall_forall. intros c Hc. apply holdsb_holds.
    revert c Hc. apply Forall_forall. vm_compute.
    repeat constructor.
Qed.

Lemma ineligible_roles_pruned_witness :
  is_zero (NewBoolVar 0 1 0 0) ∈ constraints (model demo_built)
  ∧ ∀ v, accepted v (model demo_built) → v (NewBoolVar 0 1 0 0) = false.
Proof.
  apply (ineligible_roles_pruned demo_args (HospitalSolver_init 4) demo_built 0 [0] 1 0 0).
  - vm_compute. reflexivity.
  - vm_compute. lia.
  - vm_compute. lia.
  - vm_compute. lia.
  - vm_compute. lia.
  - vm_compute. reflexivity.
  - intros H. apply list_elem_of_singleton in H. discriminate.
Defined.

Lemma hard_leave_bans_day_witness :
  is_zero (NewBoolVar 1 0 1 2) ∈ constraints (model demo_built)
  ∧ ∀ v, accepted v (model demo_built) → v (NewBoolVar 1 0 1 2) = false.
Proof.
  apply (hard_leave_bans_day demo_args (HospitalSolver_init 4) demo_built "B" 1 1 0 2).
  - vm_compute. reflexivity.
  - simpl. left.
  - vm_compute. reflexivity.
  - vm_compute. lia.
  - vm_compute. lia.
Defined.

Lemma requirement_satisfaction_witness :
  (∀ r q v, dict_find [(0, 1%Z)] r = Some q → accepted v (model demo_built) →
     (q ≤ Z.of_nat (count_true v (slot_vars demo_built r 0 0)))%Z)
  ∧ ∃ added, _setRequirementConstraint_adds demo_built = Ok added
      ∧ (∀ c, c ∈ added → c ∈ constraints (model demo_built))
      ∧ ∀ r, dict_find [(0, 1%Z)] r = None →
          ∀ c n, c ∈ added → NewBoolVar n r 0 0 ∉ constraint_vars c.
Proof.
  apply (requirement_satisfaction demo_args (HospitalSolver_init 4) demo_built 0 0
           [[(0, 1%Z)]; []; []] [(0, 1%Z)]).
  - vm_compute. reflexivity.
  - vm_compute. lia.
  - vm_compute. lia.
  - vm_compute. reflexivity.
  - vm_compute. reflexivity.
Defined.

Lemma soft_leave_last_write_wins_witness :
  ∃ penalty,
    _softLeave_grid (args3 demo_args) demo_built = Ok penalty
    ∧ (∀ n r d s, n < numResources demo_built → r < numRoles demo_built →
         d < numDays demo_built → s < numShifts demo_built →
         grid_find penalty n r d s
         = Some (last_weight (resourceIdLookup demo_built) (args3 demo_args) n d))
    ∧ objective (model demo_built)
      = Some (n ← range (numResources demo_built); r ← range (numRoles demo_built);
              d ← range (numDays demo_built); s ← range (numShifts demo_built);
              [(last_weight (resourceIdLookup demo_built) (args3 demo_args) n d,
                NewBoolVar n r d s)]).
Proof.
  apply (soft_leave_last_write_wins demo_args (HospitalSolver_init 4) demo_built).
  vm_compute. reflexivity.
Defined.

(** The weight of the later request for (A, day 0) replaces the earlier one. *)
Example last_weight_demo :
  last_weight (resourceIdLookup demo_built) (args3 demo_args) 0 0 = 5 # 10
  ∧ last_weight (resourceIdLookup demo_built) (args3 demo_args) 1 0 = 1 # 10
  ∧ last_weight (resourceIdLookup demo_built) (args3 demo_args) 1 1 = 0%Q.
Proof. repeat split; vm_compute; reflexivity. Qed.

Lemma next_day_transition_witness :
  ∃ added,
    constraints (model two_day_session_night) = constraints (model two_day_session) ++ added
    ∧ (∀ from to n r r' d j v,
         (from, to) ∈ [(2, 0)] →
         n < numResources two_day_session → r < numRoles two_day_session →
         r' < numRoles two_day_session →
         d + 1 < numDays two_day_session → j < numShifts two_day_session →
         accepted v (model two_day_session_night) →
         v (NewBoolVar n r d from) = true → v (NewBoolVar n r' (d + 1) j) = false)
    ∧ (∀ s j n r1 r2 d,
         s ∉ [(2, 0)].*1 →
         Forall (holds (assign_two (NewBoolVar n r1 d s) (NewBoolVar n r2 (d + 1) j))) added).
Proof.
  apply (next_day_transition [(2, 0)] two_day_session two_day_session_night).
  - vm_compute. reflexivity.
  - vm_compute. reflexivity.
Defined.

(** C1: a defect of [_nextDayShift].  Only the pair (2, 0) is declared on
    [two_day_session].  The compatibility matrix the code stores has its 1 at
    (2, 2), not at the declared (2, 0), because both indices are read from
    component 0 of the pair; and the transition 2 -> 1, which is not declared,
    is forbidden: the valuation that works shift 2 on day 0 and shift 1 on
    day 1 satisfies the model before [_nextDayShift] and violates it after. *)
Theorem undeclared_pair_is_restricted :
  ((2, 1) ∉ [(2, 0)])
  ∧ vars_ok two_day_session
  ∧ _nextDayShift [(2, 0)] two_day_session = Ok two_day_session_night
  ∧ matrix_find (non_sequential_shifts_indices two_day_session_night) 2 0 = Some 0%Z
  ∧ matrix_find (non_sequential_shifts_indices two_day_session_night) 2 2 = Some 1%Z
  ∧ accepted (assign_two (NewBoolVar 0 0 0 2) (NewBoolVar 0 0 1 1)) (model two_day_session)
  ∧ ¬ accepted (assign_two (NewBoolVar 0 0 0 2) (NewBoolVar 0 0 1 1))
        (model two_day_session_night).
Proof.
  split; [|split; [|split; [|split; [|split; [|split]]]]].
  - intros H. apply list_elem_of_singleton in H. discriminate.
  - vm_compute. reflexivity.
  - vm_compute. reflexivity.
  - vm_compute. reflexivity.
  - vm_compute. reflexivity.
  - apply acceptedb_accepted. vm_compute. reflexivity.
  - intros H. apply accepted_acceptedb in H. vm_compute in H. discriminate.
Qed.

Lemma day_after_night_needs_three_shifts_witness :
  (3 ≤ length [ [("R1", 1%Z)] ] →
     ∀ s, build Solver_childConstraints one_shift_args (HospitalSolver_init 4) = Ok s →
          ∃ s', _dayAfterNight s = Ok s')
  ∧ (length [ [("R1", 1%Z)] ] < 3 →
       (∃ e, HospitalSolver_build one_shift_args (HospitalSolver_init 4) = Raise e)
       ∧ ∀ s, build Solver_childConstraints one_shift_args (HospitalSolver_init 4) = Ok s →
              HospitalSolver_build one_shift_args (HospitalSolver_init 4)
              = Raise IndexError).
Proof.
  apply (day_after_night_needs_three_shifts one_shift_args (HospitalSolver_init 4)
           [ [("R1", 1%Z)] ]).
  reflexivity.
Defined.

(** On a well-formed single-shift input the failure is the index error. *)
Example one_shift_index_error :
  HospitalSolver_build one_shift_args (HospitalSolver_init 4) = Raise IndexError.
Proof. vm_compute. reflexivity. Qed.

(** C10, as stated, fails: with a single shift per day and a requirement
    naming an unregistered role, construction fails with a key error raised
    by [_createRequirementMapping], not with an index error. *)
Lemma fewer_shifts_key_error :
  (∃ day0, args1 unregistered_role_args !! 0 = Some day0 ∧ length day0 < 3)
  ∧ HospitalSolver_build unregistered_role_args (HospitalSolver_init 4) = Raise KeyError.
Proof.
  split.
  - eexists. split; [reflexivity|]. simpl. lia.
  - vm_compute. reflexivity.
Qed.

(** * Further properties of the code *)

(** ** More on loops *)

Lemma for_each_Raise {A B} (l : list A) (body : A → result (list B)) e :
  for_each l body = Raise e → ∃ x, x ∈ l ∧ body x = Raise e.
Proof.
  induction l as [|x l IH]; simpl; [done|].
  destruct (body x) as [ys|e'] eqn:Hx; simpl.
  - destruct (for_each l body) as [zs|e'']; simpl; [done|].
    intros [= ->]. destruct IH as (y & ? & ?); [done|].
    exists y. split; [by right|done].
  - intros [= ->]. exists x. split; [left|done].
Qed.

Lemma for_each_is_Ok {A B} (l : list A) (body : A → result (list B)) :
  (∃ ys, for_each l body = Ok ys) ↔ ∀ x, x ∈ l → ∃ zs, body x = Ok zs.
Proof.
  split.
  - intros [ys H] x Hx. destruct (for_each_Ok_body _ _ _ _ H Hx) as (zs & ? & _).
    by exists zs.
  - apply for_each_total.
Qed.

(** The first failing iteration decides the exception. *)
Lemma for_each_first_Raise {A B} (pre post : list A) x (body : A → result (list B)) e :
  (∀ y, y ∈ pre → ∃ zs, body y = Ok zs) → body x = Raise e →
  for_each (pre ++ x :: post) body = Raise e.
Proof.
  induction pre as [|y pre IH]; intros Hpre Hx; simpl.
  - by rewrite Hx.
  - destruct (Hpre y) as [zs ->]; [left|]. simpl.
    rewrite IH; [done| |done]. intros z Hz. apply Hpre. by right.
Qed.

Lemma fold_result_Ok_body {A S} (body : A → S → result S) l s0 s x :
  fold_result l body s0 = Ok s → x ∈ l → ∃ s1 s2, body x s1 = Ok s2.
Proof.
  revert s0. induction l as [|y l IH]; intros s0 H Hx; simpl in H.
  - by apply elem_of_nil in Hx.
  - apply bind_Ok in H as (s1 & H1 & H).
    apply elem_of_cons in Hx as [->|Hx]; [by exists s0, s1|]. by apply (IH s1).
Qed.

Lemma fold_result_app {A S} (body : A → S → result S) l1 l2 s0 :
  fold_result (l1 ++ l2) body s0 = fold_result l1 body s0 ≫= fold_result l2 body.
Proof.
  revert s0. induction l1 as [|x l1 IH]; intros s0; simpl; [done|].
  destruct (body x s0) as [s1|]; simpl; [apply IH|done].
Qed.

(** Nested accumulator loops are one loop over the pairs in iteration order. *)
Lemma fold_result_nested {A B S} (body : A → B → S → result S) l1 l2 s0 :
  fold_result l1 (λ a s, fold_result l2 (body a) s) s0
  = fold_result (a ← l1; b ← l2; [(a, b)]) (λ p s, body p.1 p.2 s) s0.
Proof.
  revert s0. induction l1 as [|a l1 IH]; intros s0; [done|].
  rewrite bind_cons, fold_result_app. simpl.
  assert (fold_result (l2 ≫= λ b, [(a, b)]) (λ p s, body p.1 p.2 s) s0
          = fold_result l2 (body a) s0) as ->.
  { clear IH. revert s0. induction l2 as [|b l2 IH]; intros s0; [done|].
    rewrite bind_cons. simpl. destruct (body a b s0); simpl; [apply IH|done]. }
  destruct (fold_result l2 (body a) s0); simpl; [apply IH|done].
Qed.

(** ** The decision variables *)

Lemma pretty_N_char_digit x : is_digit (pretty_N_char x).
Proof.
  unfold is_digit, pretty_N_char.
  repeat case_match; vm_compute; split; lia.
Qed.

Lemma pretty_N_go_digits x s : digits s → digits (pretty_N_go x s).
Proof.
  revert s. induction (N.lt_wf_0 x) as [x _ IH]; intros s Hs.
  assert (x = 0 ∨ 0 < x)%N as [->|Hx] by lia.
  - by rewrite pretty_N_go_0.
  - rewrite pretty_N_go_step by done. apply IH.
    + by apply N.div_lt.
    + split; [apply pretty_N_char_digit|done].
Qed.

Lemma pretty_nat_digits (n : nat) : digits (pretty n).
Proof.
  unfold pretty, pretty_nat, pretty, pretty_N. case_decide.
  - simpl. split; [|done]. vm_compute. split; lia.
  - by apply pretty_N_go_digits.
Qed.

(** Two digit strings followed by the same non-digit separator. *)
Lemma digits_separator a a' c t t' :
  digits a → digits a' → ¬ is_digit c →
  a +:+ String c t = a' +:+ String c t' → a = a' ∧ t = t'.
Proof.
  revert a'. induction a as [|x a IH]; intros [|x' a'] Ha Ha' Hc; simpl.
  - by intros [= ->].
  - intros [= -> _]. by destruct Ha'.
  - intros [= -> _]. by destruct Ha.
  - intros [= -> H]. destruct Ha, Ha'.
    destruct (IH a') as [-> ->]; done.
Qed.

Lemma var_name_inj x y : var_name x = var_name y → x = y.
Proof.
  destruct x as [n r d s], y as [n' r' d' s']. unfold var_name. simpl.
  intros [= H].
  assert (∀ c, nat_of_ascii c = 114 ∨ nat_of_ascii c = 100 ∨ nat_of_ascii c = 115 →
               ¬ is_digit c) as Hsep.
  { unfold is_digit. lia. }
  apply digits_separator in H as [Hn H];
    [|apply pretty_nat_digits..|apply Hsep; vm_compute; tauto].
  apply digits_separator in H as [Hr H];
    [|apply pretty_nat_digits..|apply Hsep; vm_compute; tauto].
  apply digits_separator in H as [Hd Hs];
    [|apply pretty_nat_digits..|apply Hsep; vm_compute; tauto].
  apply (inj pretty) in Hn, Hr, Hd, Hs. by subst.
Qed.

(** X1: [_createVars] allocates one variable per coordinate of the session's
    shape: reading [vars[n][r][d][s]] gives the variable of these coordinates
    when all four indices are inside the shape and raises [IndexError]
    otherwise, and variables of different coordinates have different names. *)
Theorem createVars_dense_and_named self :
  (∀ n r d s,
     grid_get (vars (_createVars self)) n r d s
     = if decide (n < numResources self ∧ r < numRoles self
                  ∧ d < numDays self ∧ s < numShifts self)
       then Ok (NewBoolVar n r d s) else Raise IndexError)
  ∧ (∀ x y, var_name x = var_name y → x = y)
  ∧ vars_ok (_createVars self).
Proof.
  split; [|split; [apply var_name_inj|reflexivity]].
  intros n r d s. simpl. case_decide as Hin.
  - destruct Hin as (? & ? & ? & ?). by apply grid_get_build.
  - unfold grid_get.
    destruct (grid_find _ n r d s) as [x|] eqn:Hx; [|done].
    apply grid_find_build_Some in Hx. tauto.
Qed.

(** ** The eligibility lists of the registry *)

Lemma registry_fields arg reg :
  _createEmployeeRoleLookup_registry arg = Ok reg →
  reg_numResources reg = length (first_seen (dict_keys arg))
  ∧ reg_numRoles reg = length (first_seen (role_scan arg))
  ∧ reg_resourcesLookup reg = dict_of_items (enumerate (first_seen (dict_keys arg)))
  ∧ reg_resourceIdLookup reg
    = dict_of_items ((λ p, (p.2, p.1)) <$> enumerate (first_seen (dict_keys arg)))
  ∧ reg_rolesLookup reg = dict_of_items (enumerate (first_seen (role_scan arg)))
  ∧ reg_rolesIdLookup reg
    = dict_of_items ((λ p, (p.2, p.1)) <$> enumerate (first_seen (role_scan arg))).
Proof.
  destruct (_createEmployeeRoleLookup_registry_value arg) as [mapping ->].
  intros [= <-]. simpl. repeat split.
Qed.

Lemma registry_mapping_fold arg reg :
  _createEmployeeRoleLookup_registry arg = Ok reg →
  fold_result (dict_keys arg) (λ resource mapping,
    roleList ← dict_get arg resource;
    roleIdList ← for_each roleList (λ role,
      i ← dict_get (reg_rolesIdLookup reg) role; Ok [i]);
    rid ← dict_get (reg_resourceIdLookup reg) resource;
    Ok (dict_set mapping rid roleIdList)) []
  = Ok (reg_resourceRoleMapping reg).
Proof.
  intros H. unfold _createEmployeeRoleLookup_registry in H.
  rewrite (for_each_pure_in _ _ (λ k, [default [] (dict_find arg k)])) in H; last first.
  { intros k [l Hl]%dict_find_key. unfold dict_get.
    destruct (dict_find arg k); [done|discriminate]. }
  cbn [mbind result_bind rbind] in H.
  apply bind_Ok in H as (mapping & Hfold & [= <-]). exact Hfold.
Qed.

Lemma for_each_lookup_Forall2 {K V} `{EqDecision K} (d : dict K V) (ks : list K) vs :
  for_each ks (λ k, v ← dict_get d k; Ok [v]) = Ok vs →
  Forall2 (λ k v, dict_find d k = Some v) ks vs.
Proof.
  revert vs. induction ks as [|k ks IH]; intros vs H.
  - injection H as <-. constructor.
  - apply for_each_cons_Ok in H as (y1 & y2 & H1 & H2 & ->).
    apply bind_Ok in H1 as (v & Hv%dict_get_Ok & [= <-]).
    constructor; [done|by apply IH].
Qed.

Lemma first_seen_ids_inj (scanned : list string) k1 k2 i :
  dict_find (dict_of_items ((λ p, (p.2, p.1)) <$> enumerate (first_seen scanned))) k1 = Some i →
  dict_find (dict_of_items ((λ p, (p.2, p.1)) <$> enumerate (first_seen scanned))) k2 = Some i →
  k1 = k2.
Proof. rewrite !ids_of_first_seen. congruence. Qed.

Lemma first_seen_ids_lt (scanned : list string) k i :
  dict_find (dict_of_items ((λ p, (p.2, p.1)) <$> enumerate (first_seen scanned))) k = Some i →
  i < length (first_seen scanned).
Proof. rewrite ids_of_first_seen. apply lookup_lt_Some. Qed.

Lemma registry_eligibility arg reg name roles :
  _createEmployeeRoleLookup_registry arg = Ok reg →
  dict_find arg name = Some roles →
  ∃ n ids,
    dict_find (reg_resourceIdLookup reg) name = Some n
    ∧ n < reg_numResources reg
    ∧ dict_find (reg_resourcesLookup reg) n = Some name
    ∧ dict_find (reg_resourceRoleMapping reg) n = Some ids
    ∧ Forall2 (λ role i, dict_find (reg_rolesIdLookup reg) role = Some i
                         ∧ i < reg_numRoles reg
                         ∧ dict_find (reg_rolesLookup reg) i = Some role) roles ids.
Proof.
  intros Hreg Hroles.
  pose proof (registry_mapping_fold _ _ Hreg) as Hfold.
  destruct (registry_fields _ _ Hreg) as (EN & ER & Enames & Eids & Ernames & Erids).
  pose (P := λ (done : list string) (m : dict nat (list nat)),
    ∀ k, k ∈ done → ∃ roles n ids,
      dict_find arg k = Some roles
      ∧ dict_find (reg_resourceIdLookup reg) k = Some n
      ∧ dict_find m n = Some ids
      ∧ Forall2 (λ role i, dict_find (reg_rolesIdLookup reg) role = Some i) roles ids).
  assert (P ([] ++ dict_keys arg) (reg_resourceRoleMapping reg)) as HP.
  { revert Hfold. apply fold_result_ind.
    - by intros k ?%elem_of_nil.
    - intros done k' m m' HP Hbody.
      apply bind_Ok in Hbody as (roleList & Hl%dict_get_Ok & Hbody).
      apply bind_Ok in Hbody as (ids' & Hids%for_each_lookup_Forall2 & Hbody).
      apply bind_Ok in Hbody as (n' & Hn'%dict_get_Ok & [= <-]).
      intros k Hk. apply elem_of_app in Hk as [Hk|Hk%list_elem_of_singleton].
      + destruct (HP k Hk) as (rs & n & ids & Hrs & Hn & Hm & Hf).
        destruct (decide (n = n')) as [->|Hne].
        * assert (k = k') as ->.
          { rewrite Eids in Hn, Hn'. by apply (first_seen_ids_inj _ _ _ _ Hn Hn'). }
          exists roleList, n', ids'. by rewrite dict_find_set, decide_True.
        * exists rs, n, ids. by rewrite dict_find_set, decide_False.
      + subst k. exists roleList, n', ids'. by rewrite dict_find_set, decide_True. }
  destruct (HP name) as (rs & n & ids & Hrs & Hn & Hm & Hf).
  { simpl. by apply dict_find_Some_key in Hroles. }
  assert (rs = roles) as -> by congruence.
  exists n, ids. split; [done|]. split; [|split; [|split; [done|]]].
  - rewrite EN. rewrite Eids in Hn. by apply first_seen_ids_lt in Hn.
  - rewrite Enames. rewrite Eids in Hn.
    apply names_of_first_seen. by apply ids_of_first_seen.
  - eapply Forall2_impl; [exact Hf|]. intros role i Hi. simpl in Hi.
    split; [done|]. rewrite Erids in Hi. split.
    + rewrite ER. by apply first_seen_ids_lt in Hi.
    + rewrite Ernames. apply names_of_first_seen. by apply ids_of_first_seen.
Qed.

(** X2: After registry construction, the eligibility list stored under a
    resource's index is the resource's role list translated to role indices,
    in order; these indices are below [numRoles] and map back to the role
    names. *)
Theorem resource_roles_reindexed arg self self' name roles :
  _createEmployeeRoleLookup arg self = Ok self' →
  dict_find arg name = Some roles →
  ∃ n ids,
    dict_find (resourceIdLookup self') name = Some n
    ∧ n < numResources self'
    ∧ dict_find (resourcesLookup self') n = Some name
    ∧ dict_find (resourceRoleMapping self') n = Some ids
    ∧ Forall2 (λ role i, dict_find (rolesIdLookup self') role = Some i
                         ∧ i < numRoles self'
                         ∧ dict_find (rolesLookup self') i = Some role) roles ids.
Proof.
  unfold _createEmployeeRoleLookup. intros H Hroles.
  apply bind_Ok in H as (reg & Hreg & [= <-]). simpl.
  by apply (registry_eligibility arg).
Qed.

Lemma resource_roles_reindexed_witness :
  ∃ n ids,
    dict_find (resourceIdLookup demo_built) "B" = Some n
    ∧ n < numResources demo_built
    ∧ dict_find (resourcesLookup demo_built) n = Some "B"
    ∧ dict_find (resourceRoleMapping demo_built) n = Some ids
    ∧ Forall2 (λ role i, dict_find (rolesIdLookup demo_built) role = Some i
                         ∧ i < numRoles demo_built
                         ∧ dict_find (rolesLookup demo_built) i = Some role)
        ["R1"; "R2"] ids.
Proof.
  apply (resource_roles_reindexed (args0 demo_args) demo_built demo_built "B" ["R1"; "R2"]).
  - vm_compute. reflexivity.
  - vm_compute. reflexivity.
Defined.

(** ** Eligibility pruning *)

Lemma _removeExtraRoles_adds_elem self added c :
  vars_ok self → _removeExtraRoles_adds self = Ok added →
  c ∈ added ↔
  ∃ n k d s roles,
    n < numResources self ∧ k < numRoles self ∧ d < numDays self ∧ s < numShifts self
    ∧ dict_find (resourceRoleMapping self) n = Some roles ∧ (k ∉ roles)
    ∧ c = is_zero (NewBoolVar n k d s).
Proof.
  intros Hv Hadds. unfold _removeExtraRoles_adds in Hadds. split.
  - intros Hc.
    destruct (for_each_Ok_elem _ _ _ _ Hadds Hc) as (n & l1 & Hn%elem_of_range & H1 & Hc1).
    apply bind_Ok in H1 as (absent & Habsent & H1).
    destruct (for_each_Ok_elem _ _ _ _ H1 Hc1) as (k & l2 & Hk & H2 & Hc2).
    destruct (for_each_Ok_elem _ _ _ _ Habsent Hk) as (k' & l3 & Hk'%elem_of_range & H3 & Hk3).
    apply bind_Ok in H3 as (roles & Hroles%dict_get_Ok & [= <-]).
    case_decide as Hin; [by apply elem_of_nil in Hk3|].
    apply list_elem_of_singleton in Hk3 as ->.
    destruct (for_each_Ok_elem _ _ _ _ H2 Hc2) as (d & l4 & Hd%elem_of_range & H4 & Hc4).
    destruct (for_each_Ok_elem _ _ _ _ H4 Hc4) as (s & l5 & Hs%elem_of_range & H5 & Hc5).
    rewrite vars_get_ok in H5 by done. injection H5 as <-.
    apply list_elem_of_singleton in Hc5 as ->.
    by exists n, k', d, s, roles.
  - intros (n & k & d & s & roles & Hn & Hk & Hd & Hs & Hroles & Hnot & ->).
    destruct (for_each_Ok_body _ _ _ n Hadds) as (l1 & H1 & Hl1); [by apply elem_of_range|].
    apply Hl1. clear Hadds Hl1.
    apply bind_Ok in H1 as (absent & Habsent & H1).
    rewrite (for_each_pure_in _ _ (λ role, if decide (role ∈ roles) then [] else [role]))
      in Habsent; last first.
    { intros role _. unfold dict_get. by rewrite Hroles. }
    injection Habsent as <-.
    destruct (for_each_Ok_body _ _ _ k H1) as (l2 & H2 & Hl2).
    { apply list_elem_of_bind. exists k. split; [|by apply elem_of_range].
      rewrite decide_False by done. by apply list_elem_of_singleton. }
    apply Hl2. clear H1 Hl2.
    destruct (for_each_Ok_body _ _ _ d H2) as (l3 & H3 & Hl3); [by apply elem_of_range|].
    apply Hl3. clear H2 Hl3.
    destruct (for_each_Ok_body _ _ _ s H3) as (l4 & H4 & Hl4); [by apply elem_of_range|].
    apply Hl4. clear H3 Hl4.
    rewrite vars_get_ok in H4 by done. injection H4 as <-.
    by apply list_elem_of_singleton.
Qed.

(** X3: [_removeExtraRoles] adds exactly the constraints [vars[n][k][d][s] == 0]
    for the roles [k] outside [resourceRoleMapping[n]]; it never constrains a
    variable of a role the resource is eligible for. *)
Theorem removeExtraRoles_exact self self' :
  vars_ok self → _removeExtraRoles self = Ok self' →
  ∃ added,
    constraints (model self') = constraints (model self) ++ added
    ∧ (∀ c, c ∈ added ↔
         ∃ n k d s roles,
           n < numResources self ∧ k < numRoles self
           ∧ d < numDays self ∧ s < numShifts self
           ∧ dict_find (resourceRoleMapping self) n = Some roles ∧ (k ∉ roles)
           ∧ c = is_zero (NewBoolVar n k d s))
    ∧ (∀ n k d s roles c,
         dict_find (resourceRoleMapping self) n = Some roles → k ∈ roles →
         c ∈ added → NewBoolVar n k d s ∉ constraint_vars c).
Proof.
  intros Hv H. unfold _removeExtraRoles in H.
  apply bind_Ok in H as (added & Hadds & [= <-]).
  exists added. split; [reflexivity|]. split.
  - intros c. by apply _removeExtraRoles_adds_elem.
  - intros n k d s roles c Hroles Hk Hc Hx.
    apply (_removeExtraRoles_adds_elem _ _ _ Hv Hadds) in Hc
      as (n' & k' & d' & s' & roles' & _ & _ & _ & _ & Hroles' & Hnot & ->).
    simpl in Hx. apply list_elem_of_singleton in Hx as [= -> -> -> ->].
    congruence.
Qed.

Lemma removeExtraRoles_exact_witness :
  ∃ added,
    constraints (model demo_pruned_again)
    = constraints (model demo_built) ++ added
    ∧ (∀ c, c ∈ added ↔
         ∃ n k d s roles,
           n < numResources demo_built ∧ k < numRoles demo_built
           ∧ d < numDays demo_built ∧ s < numShifts demo_built
           ∧ dict_find (resourceRoleMapping demo_built) n = Some roles ∧ (k ∉ roles)
           ∧ c = is_zero (NewBoolVar n k d s))
    ∧ (∀ n k d s roles c,
         dict_find (resourceRoleMapping demo_built) n = Some roles → k ∈ roles →
         c ∈ added → NewBoolVar n k d s ∉ constraint_vars c).
Proof.
  apply (removeExtraRoles_exact demo_built demo_pruned_again).
  - vm_compute. reflexivity.
  - vm_compute. reflexivity.
Defined.

Lemma Forall2_elem_r {A B} (P : A → B → Prop) l k y :
  Forall2 P l k → y ∈ k → ∃ x, x ∈ l ∧ P x y.
Proof.
  induction 1 as [|x y' l k HP _ IH]; intros Hy.
  - by apply elem_of_nil in Hy.
  - apply elem_of_cons in Hy as [->|Hy].
    + exists x. split; [left|done].
    + destruct (IH Hy) as (x' & ? & ?). exists x'. split; [by right|done].
Qed.

Lemma registry_role_index arg reg role k :
  _createEmployeeRoleLookup_registry arg = Ok reg →
  dict_find (reg_rolesIdLookup reg) role = Some k →
  k < reg_numRoles reg ∧ dict_find (reg_rolesLookup reg) k = Some role.
Proof.
  intros Hreg Hk.
  destruct (registry_fields _ _ Hreg) as (_ & ER & _ & _ & Ernames & Erids).
  rewrite Erids in Hk. split.
  - rewrite ER. by apply first_seen_ids_lt in Hk.
  - rewrite Ernames. apply names_of_first_seen. by apply ids_of_first_seen.
Qed.

Lemma registry_resource_index arg reg name n :
  _createEmployeeRoleLookup_registry arg = Ok reg →
  dict_find (reg_resourceIdLookup reg) name = Some n →
  n < reg_numResources reg ∧ dict_find (reg_resourcesLookup reg) n = Some name
  ∧ name ∈ dict_keys arg.
Proof.
  intros Hreg Hn.
  destruct (registry_fields _ _ Hreg) as (EN & _ & Enames & Eids & _ & _).
  rewrite Eids in Hn. split; [|split].
  - rewrite EN. by apply first_seen_ids_lt in Hn.
  - rewrite Enames. apply names_of_first_seen. by apply ids_of_first_seen.
  - apply ids_of_first_seen in Hn. apply first_seen_elem.
    apply list_elem_of_lookup. by exists n.
Qed.

(** X4: In the constructed model, a resource named in the input can never be
    given a registered role that is missing from its own role list: the
    variable of (resource, role) is false on every day and shift in every
    accepted valuation. *)
Theorem ineligible_by_name args self st name roles role n k d s :
  HospitalSolver_build args self = Ok st →
  dict_find (args0 args) name = Some roles → role ∉ roles →
  dict_find (resourceIdLookup st) name = Some n →
  dict_find (rolesIdLookup st) role = Some k →
  d < numDays st → s < numShifts st →
  ∀ v, accepted v (model st) → v (NewBoolVar n k d s) = false.
Proof.
  intros Hb Hroles Hnot Hn Hk Hd Hs v Hacc.
  destruct (HospitalSolver_build_constructed _ _ _ Hb) as [].
  destruct c_base0 as [].
  destruct (registry_eligibility _ _ _ _ c_registry0 Hroles)
    as (n' & ids & Hn' & HnN & _ & Hids & Hf).
  simpl in Hn', HnN, Hids, Hf. assert (n' = n) as -> by congruence.
  destruct (registry_role_index _ _ _ _ c_registry0 Hk) as [HkR Hkname].
  simpl in HkR, Hkname.
  assert (k ∉ ids) as Hkids.
  { intros Hin. destruct (Forall2_elem_r _ _ _ _ Hf Hin) as (role' & Hrole' & _ & _ & Hname).
    assert (role' = role) as -> by congruence. done. }
  destruct c_extra0 as (l & Hl & Hin).
  apply holds_is_zero, (accepted_elem _ _ _ Hacc), Hin.
  apply (_removeExtraRoles_adds_elem _ _ _ c_vars0 Hl).
  by exists n, k, d, s, ids.
Qed.

Lemma ineligible_by_name_witness :
  demo_valuation (NewBoolVar 0 1 1 2) = false.
Proof.
  apply (ineligible_by_name demo_args (HospitalSolver_init 4) demo_built
           "A" ["R1"] "R2" 0 1 1 2).
  - vm_compute. reflexivity.
  - vm_compute. reflexivity.
  - intros H. apply list_elem_of_singleton in H. discriminate.
  - vm_compute. reflexivity.
  - vm_compute. reflexivity.
  - vm_compute. lia.
  - vm_compute. lia.
  - apply acceptedb_accepted. vm_compute. reflexivity.
Defined.

(** ** Re-indexing the requirement matrix *)

Lemma bind_Raise {A B} (m : result A) (f : A → result B) e :
  m ≫= f = Raise e ↔ m = Raise e ∨ ∃ a, m = Ok a ∧ f a = Raise e.
Proof.
  destruct m as [a|e']; simpl.
  - split; [intros H; right; by exists a|]. intros [[=]|(a' & [= <-] & H)]. done.
  - split; [intros [= ->]; by left|]. intros [[= ->]|(a' & [=] & _)]. done.
Qed.

Lemma dict_get_Raise {K V} `{EqDecision K} (d : dict K V) k e :
  dict_get d k = Raise e ↔ dict_find d k = None ∧ e = KeyError.
Proof.
  unfold dict_get. destruct (dict_find d k); simpl.
  - split; [done|by intros [? _]].
  - split; [by intros [= <-]|by intros [_ ->]].
Qed.

Lemma for_each_singleton_Forall2 {A B} (f : A → result B) (l : list A) ys :
  for_each l (λ x, y ← f x; Ok [y]) = Ok ys → Forall2 (λ x y, f x = Ok y) l ys.
Proof.
  revert ys. induction l as [|x l IH]; intros ys H.
  - injection H as <-. constructor.
  - apply for_each_cons_Ok in H as (y1 & y2 & H1 & H2 & ->).
    apply bind_Ok in H1 as (y & Hy & [= <-]).
    constructor; [done|by apply IH].
Qed.

Lemma for_each_map_Forall2 {A B C} (f : A → result B) (g : B → C) (l : list A) ys :
  for_each l (λ x, a ← f x; Ok [g a]) = Ok ys →
  Forall2 (λ x y, ∃ a, f x = Ok a ∧ y = g a) l ys.
Proof.
  revert ys. induction l as [|x l IH]; intros ys H.
  - injection H as <-. constructor.
  - apply for_each_cons_Ok in H as (y1 & y2 & H1 & H2 & ->).
    apply bind_Ok in H1 as (a & Ha & [= <-]).
    constructor; [by exists a|by apply IH].
Qed.

Lemma Forall2_elem_l {A B} (P : A → B → Prop) l k x :
  Forall2 P l k → x ∈ l → ∃ y, y ∈ k ∧ P x y.
Proof.
  induction 1 as [|x' y l k HP _ IH]; intros Hx.
  - by apply elem_of_nil in Hx.
  - apply elem_of_cons in Hx as [->|Hx].
    + exists y. split; [left|done].
    + destruct (IH Hx) as (y' & ? & ?). exists y'. split; [by right|done].
Qed.

Section DictOfItems.
Context {K V : Type} `{EqDecision K}.
Implicit Types (items : list (K * V)) (acc : dict K V).

Lemma dict_find_foldl_set_other acc items k :
  k ∉ items.*1 →
  dict_find (foldl (λ d kv, dict_set d kv.1 kv.2) acc items) k = dict_find acc k.
Proof.
  revert acc. induction items as [|[k0 v0] items IH]; intros acc Hk; [done|].
  simpl in *. apply not_elem_of_cons in Hk as [Hne Hk].
  rewrite IH by done. rewrite dict_find_set. by rewrite decide_False.
Qed.

Lemma dict_find_foldl_set_functional acc items k v :
  (∀ v1 v2, (k, v1) ∈ items → (k, v2) ∈ items → v1 = v2) →
  (k, v) ∈ items →
  dict_find (foldl (λ d kv, dict_set d kv.1 kv.2) acc items) k = Some v.
Proof.
  revert acc. induction items as [|[k0 v0] items IH]; intros acc Hfun Hin.
  - by apply elem_of_nil in Hin.
  - simpl. destruct (decide (k ∈ items.*1)) as [Hk|Hk].
    + apply list_elem_of_fmap in Hk as ([k' v'] & -> & Hk). simpl in *.
      assert (v' = v) as ->.
      { apply Hfun; [by right|done]. }
      apply IH; [|done]. intros v1 v2 H1 H2. apply Hfun; by right.
    + rewrite dict_find_foldl_set_other by done.
      apply elem_of_cons in Hin as [[= <- <-]|Hin].
      * rewrite dict_find_set. by rewrite decide_True.
      * exfalso. apply Hk. apply list_elem_of_fmap. by exists (k, v).
Qed.

Lemma dict_find_foldl_set_elem acc items k v :
  dict_find (foldl (λ d kv, dict_set d kv.1 kv.2) acc items) k = Some v →
  (k, v) ∈ items ∨ dict_find acc k = Some v.
Proof.
  revert acc. induction items as [|[k0 v0] items IH]; intros acc H; [by right|].
  simpl in H. apply IH in H as [H|H]; [left; by right|].
  rewrite dict_find_set in H. case_decide; [|by right].
  left. simplify_eq. left.
Qed.

End DictOfItems.

Lemma _createRequirementMapping_shift_inv self (shift : dict string Z) items :
  (∀ r1 r2 k, dict_find (rolesIdLookup self) r1 = Some k →
              dict_find (rolesIdLookup self) r2 = Some k → r1 = r2) →
  for_each (dict_keys shift) (λ role,
    k ← dict_get (rolesIdLookup self) role;
    v ← dict_get shift role;
    Ok [(k, v)]) = Ok items →
  (∀ role q, dict_find shift role = Some q →
     ∃ k, dict_find (rolesIdLookup self) role = Some k
          ∧ dict_find (dict_of_items items) k = Some q)
  ∧ (∀ k q, dict_find (dict_of_items items) k = Some q →
       ∃ role, dict_find (rolesIdLookup self) role = Some k
               ∧ dict_find shift role = Some q).
Proof.
  intros Hinj Hitems.
  assert (Forall2 (λ role kv, dict_find (rolesIdLookup self) role = Some kv.1
                              ∧ dict_find shift role = Some kv.2)
            (dict_keys shift) items) as Hf.
  { assert (for_each (dict_keys shift) (λ role,
              kv ← (k ← dict_get (rolesIdLookup self) role;
                    v ← dict_get shift role; Ok (k, v));
              Ok [kv]) = Ok items) as Hitems'.
    { rewrite <- Hitems. clear. induction (dict_keys shift) as [|role l IH]; [done|].
      simpl. rewrite IH.
      destruct (dict_get (rolesIdLookup self) role); [|done]. simpl.
      by destruct (dict_get shift role). }
    apply for_each_singleton_Forall2 in Hitems'.
    eapply Forall2_impl; [exact Hitems'|]. intros role [k v] H. simpl in *.
    apply bind_Ok in H as (k' & Hk'%dict_get_Ok & H).
    apply bind_Ok in H as (v' & Hv'%dict_get_Ok & [= <- <-]). done. }
  assert (∀ k v, (k, v) ∈ items →
            ∃ role, dict_find (rolesIdLookup self) role = Some k
                    ∧ dict_find shift role = Some v) as Helem.
  { intros k v Hkv. destruct (Forall2_elem_r _ _ _ _ Hf Hkv) as (role & _ & ? & ?).
    by exists role. }
  split.
  - intros role q Hq.
    destruct (Forall2_elem_l _ _ _ role Hf) as ([k v] & Hkv & Hk & Hv).
    { by apply dict_find_Some_key in Hq. }
    simpl in *. assert (v = q) as -> by congruence.
    exists k. split; [done|]. unfold dict_of_items.
    apply dict_find_foldl_set_functional; [|done].
    intros v1 v2 H1 H2.
    destruct (Helem _ _ H1) as (ra & Hka & Hva).
    destruct (Helem _ _ H2) as (rb & Hkb & Hvb).
    assert (ra = rb) as -> by (by apply (Hinj ra rb k)). congruence.
  - intros k q Hq. unfold dict_of_items in Hq.
    apply dict_find_foldl_set_elem in Hq as [Hq|Hq]; [by apply Helem|done].
Qed.

Lemma _createRequirementMapping_value_inv arg self mapping :
  (∀ r1 r2 k, dict_find (rolesIdLookup self) r1 = Some k →
              dict_find (rolesIdLookup self) r2 = Some k → r1 = r2) →
  _createRequirementMapping_value arg self = Ok mapping →
  length mapping = length arg
  ∧ ∀ d day, arg !! d = Some day →
      ∃ day', mapping !! d = Some day'
        ∧ length day' = length day
        ∧ ∀ s shift, day !! s = Some shift →
            ∃ req, day' !! s = Some req
              ∧ (∀ role q, dict_find shift role = Some q →
                   ∃ k, dict_find (rolesIdLookup self) role = Some k
                        ∧ dict_find req k = Some q)
              ∧ (∀ k q, dict_find req k = Some q →
                   ∃ role, dict_find (rolesIdLookup self) role = Some k
                           ∧ dict_find shift role = Some q).
Proof.
  intros Hinj Hmapping.
  unfold _createRequirementMapping_value in Hmapping.
  apply for_each_singleton_Forall2 in Hmapping.
  split; [symmetry; by eapply Forall2_length|].
  intros d day Hday.
  destruct (Forall2_lookup_l _ _ _ _ _ Hmapping Hday) as (day' & Hday' & Hd).
  exists day'. split; [done|].
  apply for_each_map_Forall2 in Hd.
  split; [symmetry; by eapply Forall2_length|].
  intros s shift Hshift.
  destruct (Forall2_lookup_l _ _ _ _ _ Hd Hshift) as (req & Hreq & items & Hitems & ->).
  exists (dict_of_items items). split; [done|].
  by apply _createRequirementMapping_shift_inv.
Qed.

(** X5: On success [_createRequirementMapping] keeps the shape of the requirement
    matrix and re-keys every (day, shift) dictionary from role names to role
    indices without losing or inventing an entry: a role's minimum is found
    under the role's index, and every stored entry comes from a role of the
    input.  It adds no constraint.  (Role indices must be injective, as they
    are after registry construction.) *)
Theorem createRequirementMapping_reindexes arg self self' :
  (∀ r1 r2 k, dict_find (rolesIdLookup self) r1 = Some k →
              dict_find (rolesIdLookup self) r2 = Some k → r1 = r2) →
  _createRequirementMapping arg self = Ok self' →
  model self' = model self
  ∧ length (requirementMapping self') = length arg
  ∧ ∀ d day, arg !! d = Some day →
      ∃ day', requirementMapping self' !! d = Some day'
        ∧ length day' = length day
        ∧ ∀ s shift, day !! s = Some shift →
            ∃ req, day' !! s = Some req
              ∧ (∀ role q, dict_find shift role = Some q →
                   ∃ k, dict_find (rolesIdLookup self) role = Some k
                        ∧ dict_find req k = Some q)
              ∧ (∀ k q, dict_find req k = Some q →
                   ∃ role, dict_find (rolesIdLookup self) role = Some k
                           ∧ dict_find shift role = Some q).
Proof.
  intros Hinj H. unfold _createRequirementMapping in H.
  apply bind_Ok in H as (mapping & Hmapping & [= <-]). simpl.
  split; [done|]. by apply _createRequirementMapping_value_inv.
Qed.

Lemma createRequirementMapping_reindexes_witness :
  model demo_built = model demo_built
  ∧ length (requirementMapping demo_built) = length (args1 demo_args)
  ∧ ∀ d day, args1 demo_args !! d = Some day →
      ∃ day', requirementMapping demo_built !! d = Some day'
        ∧ length day' = length day
        ∧ ∀ s shift, day !! s = Some shift →
            ∃ req, day' !! s = Some req
              ∧ (∀ role q, dict_find shift role = Some q →
                   ∃ k, dict_find (rolesIdLookup demo_built) role = Some k
                        ∧ dict_find req k = Some q)
              ∧ (∀ k q, dict_find req k = Some q →
                   ∃ role, dict_find (rolesIdLookup demo_built) role = Some k
                           ∧ dict_find shift role = Some q).
Proof.
  apply (createRequirementMapping_reindexes (args1 demo_args) demo_built demo_built).
  - intros r1 r2 k. unfold demo_built. simpl.
    repeat case_decide; intros; simplify_eq; done.
  - vm_compute. reflexivity.
Defined.

Lemma _createRequirementMapping_value_Raise arg self e :
  _createRequirementMapping_value arg self = Raise e → e = KeyError.
Proof.
  unfold _createRequirementMapping_value. intros H.
  apply for_each_Raise in H as (day & _ & H).
  apply bind_Raise in H as [H|(? & _ & [=])].
  apply for_each_Raise in H as (shift & _ & H).
  apply bind_Raise in H as [H|(? & _ & [=])].
  apply for_each_Raise in H as (role & _ & H).
  apply bind_Raise in H as [H|(k & _ & H)]; [by apply dict_get_Raise in H as [_ ->]|].
  apply bind_Raise in H as [H|(? & _ & [=])]. by apply dict_get_Raise in H as [_ ->].
Qed.

Lemma _createRequirementMapping_value_Ok_iff arg self :
  (∃ m, _createRequirementMapping_value arg self = Ok m)
  ↔ ∀ day shift role, day ∈ arg → shift ∈ day → role ∈ dict_keys shift →
      is_Some (dict_find (rolesIdLookup self) role).
Proof.
  unfold _createRequirementMapping_value. split.
  - intros [m H] day shift role Hday Hshift Hrole.
    destruct (for_each_Ok_body _ _ _ _ H Hday) as (l1 & H1 & _).
    apply bind_Ok in H1 as (reqs & H1 & _).
    destruct (for_each_Ok_body _ _ _ _ H1 Hshift) as (l2 & H2 & _).
    apply bind_Ok in H2 as (items & H2 & _).
    destruct (for_each_Ok_body _ _ _ _ H2 Hrole) as (l3 & H3 & _).
    apply bind_Ok in H3 as (k & Hk%dict_get_Ok & _). by exists k.
  - intros Hreg. apply for_each_total. intros day Hday.
    destruct (for_each_total day (λ shift,
      items ← for_each (dict_keys shift) (λ role,
        k ← dict_get (rolesIdLookup self) role;
        v ← dict_get shift role;
        Ok [(k, v)]);
      Ok [dict_of_items items])) as [reqs ->]; [|by eexists].
    intros shift Hshift.
    destruct (for_each_total (dict_keys shift) (λ role,
      k ← dict_get (rolesIdLookup self) role;
      v ← dict_get shift role;
      Ok [(k, v)])) as [items ->]; [|by eexists].
    intros role Hrole.
    destruct (Hreg day shift role) as [k Hk]; [done..|].
    destruct (dict_find_key _ _ Hrole) as [v Hv].
    unfold dict_get. rewrite Hk, Hv. by eexists.
Qed.

(** X6: [_createRequirementMapping] raises [KeyError] as soon as some (day, shift)
    dictionary of the requirement matrix names a role that is not in the
    registry. *)
Theorem createRequirementMapping_unregistered_role arg self day shift role :
  day ∈ arg → shift ∈ day → role ∈ dict_keys shift →
  dict_find (rolesIdLookup self) role = None →
  _createRequirementMapping arg self = Raise KeyError.
Proof.
  intros Hday Hshift Hrole Hnone. unfold _createRequirementMapping.
  destruct (_createRequirementMapping_value arg self) as [m|e] eqn:H.
  - exfalso.
    destruct (proj1 (_createRequirementMapping_value_Ok_iff arg self)
                (ex_intro _ m H) day shift role) as [k Hk]; [done..|].
    congruence.
  - apply _createRequirementMapping_value_Raise in H as ->. done.
Qed.

Lemma createRequirementMapping_unregistered_role_witness :
  _createRequirementMapping (args1 unregistered_role_args) two_day_session = Raise KeyError.
Proof.
  apply (createRequirementMapping_unregistered_role (args1 unregistered_role_args)
           two_day_session [ [("R2", 1%Z)] ] [("R2", 1%Z)] "R2").
  - left.
  - left.
  - left.
  - vm_compute. reflexivity.
Defined.

(** ** Hard leaves: which inputs are encoded and which raise *)

Lemma vars_get_outside self n r d s :
  vars_ok self →
  ¬ (n < numResources self ∧ r < numRoles self ∧ d < numDays self ∧ s < numShifts self) →
  grid_get (vars self) n r d s = Raise IndexError.
Proof.
  intros Hv Hout. unfold grid_get.
  destruct (grid_find (vars self) n r d s) as [x|] eqn:Hx; [|done].
  rewrite Hv in Hx. apply grid_find_build_Some in Hx. tauto.
Qed.

Lemma range_S n : range (S n) = 0 :: seq 1 n.
Proof. reflexivity. Qed.

Lemma hard_leave_body_Ok self leave :
  vars_ok self → ids_in_range self → hard_leave_valid self leave →
  ∃ cs, for_each (range (numShifts self)) (λ shift,
          rid ← dict_get (resourceIdLookup self) leave.1;
          _banShift_adds (rid, leave.2, shift) self) = Ok cs.
Proof.
  intros Hv Hids [[n Hn] Hday]. apply for_each_total.
  intros s Hs%elem_of_range. unfold dict_get. rewrite Hn. simpl.
  unfold _banShift_adds. simpl. apply for_each_total.
  intros r Hr%elem_of_range.
  rewrite vars_get_ok; [by eexists|done|by apply (Hids leave.1)|done|lia|done].
Qed.

Lemma hard_leave_body_KeyError self name day :
  0 < numShifts self → dict_find (resourceIdLookup self) name = None →
  for_each (range (numShifts self)) (λ shift,
    rid ← dict_get (resourceIdLookup self) (name, day).1;
    _banShift_adds (rid, (name, day).2, shift) self) = Raise KeyError.
Proof.
  intros HS Hnone. destruct (numShifts self) as [|S']; [lia|].
  rewrite range_S. simpl. unfold dict_get. by rewrite Hnone.
Qed.

Lemma hard_leave_body_IndexError self name day :
  vars_ok self → 0 < numShifts self → 0 < numRoles self →
  is_Some (dict_find (resourceIdLookup self) name) → numDays self ≤ day →
  for_each (range (numShifts self)) (λ shift,
    rid ← dict_get (resourceIdLookup self) (name, day).1;
    _banShift_adds (rid, (name, day).2, shift) self) = Raise IndexError.
Proof.
  intros Hv HS HR [n Hn] Hday.
  destruct (numShifts self) as [|S'] eqn:ES; [lia|].
  rewrite range_S. simpl. unfold dict_get. rewrite Hn. simpl.
  unfold _banShift_adds.
  destruct (numRoles self) as [|R'] eqn:ER; [lia|].
  rewrite range_S. simpl. rewrite vars_get_outside; [done|done|lia].
Qed.

(** X7: [_hardLeave] on a session with at least one shift: it succeeds when every
    leave names a registered resource and (unless there is no role) a day of
    the grid; the first leave with an unregistered resource makes it raise
    [KeyError]; the first leave with a registered resource and a day outside
    the grid makes it raise [IndexError]. *)
Theorem hardLeave_outcome self arg :
  vars_ok self → ids_in_range self → 0 < numShifts self →
  ((∀ leave, leave ∈ arg → hard_leave_valid self leave) →
     ∃ self', _hardLeave arg self = Ok self')
  ∧ (∀ pre name day post,
       arg = pre ++ (name, day) :: post →
       (∀ leave, leave ∈ pre → hard_leave_valid self leave) →
       dict_find (resourceIdLookup self) name = None →
       _hardLeave arg self = Raise KeyError)
  ∧ (∀ pre name day post,
       arg = pre ++ (name, day) :: post →
       (∀ leave, leave ∈ pre → hard_leave_valid self leave) →
       is_Some (dict_find (resourceIdLookup self) name) →
       0 < numRoles self → numDays self ≤ day →
       _hardLeave arg self = Raise IndexError).
Proof.
  intros Hv Hids HS. unfold _hardLeave, _hardLeave_adds. split; [|split].
  - intros Hvalid.
    destruct (for_each_total arg (λ leave,
      for_each (range (numShifts self)) (λ shift,
        rid ← dict_get (resourceIdLookup self) leave.1;
        _banShift_adds (rid, leave.2, shift) self))) as [cs ->]; [|by eexists].
    intros leave Hleave. apply hard_leave_body_Ok; auto.
  - intros pre name day post -> Hpre Hnone.
    rewrite (for_each_first_Raise pre post (name, day) _ KeyError); [done| |].
    + intros leave Hleave. apply hard_leave_body_Ok; auto.
    + by apply hard_leave_body_KeyError.
  - intros pre name day post -> Hpre Hsome HR Hday.
    rewrite (for_each_first_Raise pre post (name, day) _ IndexError); [done| |].
    + intros leave Hleave. apply hard_leave_body_Ok; auto.
    + by apply hard_leave_body_IndexError.
Qed.

Lemma hardLeave_outcome_witness :
  ((∀ leave, leave ∈ [("B", 1); ("Z", 0)] → hard_leave_valid demo_built leave) →
     ∃ self', _hardLeave [("B", 1); ("Z", 0)] demo_built = Ok self')
  ∧ (∀ pre name day post,
       [("B", 1); ("Z", 0)] = pre ++ (name, day) :: post →
       (∀ leave, leave ∈ pre → hard_leave_valid demo_built leave) →
       dict_find (resourceIdLookup demo_built) name = None →
       _hardLeave [("B", 1); ("Z", 0)] demo_built = Raise KeyError)
  ∧ (∀ pre name day post,
       [("B", 1); ("Z", 0)] = pre ++ (name, day) :: post →
       (∀ leave, leave ∈ pre → hard_leave_valid demo_built leave) →
       is_Some (dict_find (resourceIdLookup demo_built) name) →
       0 < numRoles demo_built → numDays demo_built ≤ day →
       _hardLeave [("B", 1); ("Z", 0)] demo_built = Raise IndexError).
Proof.
  apply (hardLeave_outcome demo_built [("B", 1); ("Z", 0)]).
  - vm_compute. reflexivity.
  - intros name n. unfold demo_built. simpl.
    repeat case_decide; intros; simplify_eq; lia.
  - vm_compute. lia.
Defined.

(** An unregistered resource after a valid leave, and a day outside the grid. *)
Example hardLeave_raises :
  _hardLeave [("B", 1); ("Z", 0)] demo_built = Raise KeyError
  ∧ _hardLeave [("B", 7)] demo_built = Raise IndexError.
Proof. split; vm_compute; reflexivity. Qed.

(** ** Soft leaves: which inputs are encoded and which raise *)

Lemma fold_result_inv_total {A S} (Inv : S → Prop) (body : A → S → result S) l s0 :
  Inv s0 →
  (∀ x s, x ∈ l → Inv s → ∃ s', body x s = Ok s' ∧ Inv s') →
  ∃ s', fold_result l body s0 = Ok s' ∧ Inv s'.
Proof.
  revert s0. induction l as [|x l IH]; intros s0 H0 Hb; simpl; [by exists s0|].
  destruct (Hb x s0) as (s1 & -> & H1); [left|done|]. simpl.
  apply IH; [done|]. intros y s Hy. apply Hb. by right.
Qed.

Lemma fold_result_first_Raise {A S} (Inv : S → Prop) (body : A → S → result S)
    pre x post s0 e :
  Inv s0 →
  (∀ y s, y ∈ pre → Inv s → ∃ s', body y s = Ok s' ∧ Inv s') →
  (∀ s, Inv s → body x s = Raise e) →
  fold_result (pre ++ x :: post) body s0 = Raise e.
Proof.
  intros H0 Hpre Hx. rewrite fold_result_app.
  destruct (fold_result_inv_total Inv body pre s0 H0 Hpre) as (s1 & -> & H1).
  simpl. by rewrite Hx.
Qed.

Lemma grid_set_Ok {A} (g : grid A) n r d s a :
  is_Some (grid_find g n r d s) → ∃ g', grid_set g n r d s a = Ok g'.
Proof. intros [x Hx]. unfold grid_set, grid_get. rewrite Hx. by eexists. Qed.

Lemma grid_set_Raise {A} (g : grid A) n r d s a :
  grid_find g n r d s = None → grid_set g n r d s a = Raise IndexError.
Proof. intros Hx. unfold grid_set, grid_get. by rewrite Hx. Qed.

Lemma grid_set_shape {A} self (g g' : grid A) n r d s a :
  grid_shape_ok self g → grid_set g n r d s a = Ok g' → grid_shape_ok self g'.
Proof.
  intros Hg Hset n' r' d' s'.
  rewrite (grid_find_set _ _ _ _ _ _ _ Hset). case_decide as Heq; [|apply Hg].
  destruct Heq as (-> & -> & -> & ->).
  unfold grid_set in Hset. apply bind_Ok in Hset as (x & Hx & _).
  unfold grid_get in Hx. apply of_option_Ok in Hx.
  split; [intros _|by eexists]. apply Hg. by eexists.
Qed.

Lemma grid_build_shape {A} self (f : nat → nat → nat → nat → A) :
  grid_shape_ok self
    (grid_build (numResources self) (numRoles self) (numDays self) (numShifts self) f).
Proof.
  intros n r d s. split.
  - intros [x Hx]. apply grid_find_build_Some in Hx. tauto.
  - intros (? & ? & ? & ?). rewrite grid_find_build by done. by eexists.
Qed.

Lemma soft_body_Ok self (request : string * nat * Q) (g : grid Q) :
  ids_in_range self → soft_leave_valid self request → grid_shape_ok self g →
  ∃ g', fold_result (range (numShifts self)) (λ s g,
          fold_result (range (numRoles self)) (λ r g,
            rid ← dict_get (resourceIdLookup self) request.1.1;
            grid_set g rid r request.1.2 s request.2) g) g = Ok g'
        ∧ grid_shape_ok self g'.
Proof.
  intros Hids [[n Hn] Hday] Hg.
  apply fold_result_inv_total; [done|].
  intros s g1 Hs%elem_of_range Hg1.
  apply fold_result_inv_total; [done|].
  intros r g2 Hr%elem_of_range Hg2.
  unfold dict_get. rewrite Hn. simpl.
  destruct (grid_set_Ok g2 n r request.1.2 s request.2) as [g3 Hg3].
  { apply Hg2. split; [by apply (Hids request.1.1)|done]. }
  exists g3. split; [done|]. by apply (grid_set_shape _ _ _ _ _ _ _ _ Hg2 Hg3).
Qed.

Lemma soft_body_KeyError self name day (w : Q) (g : grid Q) :
  0 < numShifts self → 0 < numRoles self →
  dict_find (resourceIdLookup self) name = None →
  fold_result (range (numShifts self)) (λ s g,
    fold_result (range (numRoles self)) (λ r g,
      rid ← dict_get (resourceIdLookup self) (name, day, w).1.1;
      grid_set g rid r (name, day, w).1.2 s (name, day, w).2) g) g = Raise KeyError.
Proof.
  intros HS HR Hnone.
  destruct (numShifts self) as [|S']; [lia|]. destruct (numRoles self) as [|R']; [lia|].
  rewrite !range_S. simpl. unfold dict_get. by rewrite Hnone.
Qed.

Lemma soft_body_IndexError self name day (w : Q) (g : grid Q) :
  0 < numShifts self → 0 < numRoles self →
  is_Some (dict_find (resourceIdLookup self) name) → numDays self ≤ day →
  grid_shape_ok self g →
  fold_result (range (numShifts self)) (λ s g,
    fold_result (range (numRoles self)) (λ r g,
      rid ← dict_get (resourceIdLookup self) (name, day, w).1.1;
      grid_set g rid r (name, day, w).1.2 s (name, day, w).2) g) g = Raise IndexError.
Proof.
  intros HS HR [n Hn] Hday Hg.
  assert (grid_find g n 0 day 0 = None) as Hnone.
  { destruct (grid_find g n 0 day 0) eqn:E; [|done].
    assert (is_Some (grid_find g n 0 day 0)) as Hs by (by eexists).
    apply Hg in Hs. lia. }
  destruct (numShifts self) as [|S']; [lia|]. destruct (numRoles self) as [|R']; [lia|].
  rewrite !range_S. simpl. unfold dict_get. rewrite Hn. simpl.
  by rewrite grid_set_Raise.
Qed.

Lemma _softLeave_objective_total self (g : grid Q) :
  vars_ok self → grid_shape_ok self g → ∃ e, _softLeave_objective g self = Ok e.
Proof.
  intros Hv Hg. unfold _softLeave_objective.
  apply for_each_total. intros n Hn%elem_of_range.
  apply for_each_total. intros r Hr%elem_of_range.
  apply for_each_total. intros d Hd%elem_of_range.
  apply for_each_total. intros s Hs%elem_of_range.
  destruct (proj2 (Hg n r d s)) as [w Hw]; [done|].
  assert (grid_get g n r d s = Ok w) as -> by (unfold grid_get; by rewrite Hw).
  simpl. rewrite vars_get_ok by done. by eexists.
Qed.

(** X8: [_softLeave] on a session with at least one shift and one role: it
    succeeds, leaving the constraints untouched, when every request names a
    registered resource and a day of the grid; the first request with an
    unregistered resource makes it raise [KeyError]; the first request with a
    registered resource and a day outside the grid makes it raise
    [IndexError]. *)
Theorem softLeave_outcome self arg :
  vars_ok self → ids_in_range self → 0 < numShifts self → 0 < numRoles self →
  ((∀ request, request ∈ arg → soft_leave_valid self request) →
     ∃ self', _softLeave arg self = Ok self'
              ∧ constraints (model self') = constraints (model self))
  ∧ (∀ pre name day w post,
       arg = pre ++ (name, day, w) :: post →
       (∀ request, request ∈ pre → soft_leave_valid self request) →
       dict_find (resourceIdLookup self) name = None →
       _softLeave arg self = Raise KeyError)
  ∧ (∀ pre name day w post,
       arg = pre ++ (name, day, w) :: post →
       (∀ request, request ∈ pre → soft_leave_valid self request) →
       is_Some (dict_find (resourceIdLookup self) name) → numDays self ≤ day →
       _softLeave arg self = Raise IndexError).
Proof.
  intros Hv Hids HS HR. unfold _softLeave, _softLeave_grid. split; [|split].
  - intros Hvalid.
    destruct (fold_result_inv_total (grid_shape_ok self)
      (λ (request : string * nat * Q) (g : grid Q),
         fold_result (range (numShifts self)) (λ s g,
           fold_result (range (numRoles self)) (λ r g,
             rid ← dict_get (resourceIdLookup self) request.1.1;
             grid_set g rid r request.1.2 s request.2) g) g) arg
      (grid_build (numResources self) (numRoles self) (numDays self) (numShifts self)
         (λ _ _ _ _, 0%Q))) as (g & -> & Hg).
    + apply grid_build_shape.
    + intros request g Hreq Hg. apply soft_body_Ok; auto.
    + simpl. destruct (_softLeave_objective_total self g Hv Hg) as [e ->].
      simpl. by eexists.
  - intros pre name day w post -> Hpre Hnone.
    rewrite (fold_result_first_Raise (grid_shape_ok self) _ pre (name, day, w) post _ KeyError);
      [done|apply grid_build_shape| |].
    + intros request g Hreq Hg. apply soft_body_Ok; auto.
    + intros g _. by apply soft_body_KeyError.
  - intros pre name day w post -> Hpre Hsome Hday.
    rewrite (fold_result_first_Raise (grid_shape_ok self) _ pre (name, day, w) post _ IndexError);
      [done|apply grid_build_shape| |].
    + intros request g Hreq Hg. apply soft_body_Ok; auto.
    + intros g Hg. by apply soft_body_IndexError.
Qed.

Lemma softLeave_outcome_witness :
  ((∀ request, request ∈ [("A", 0, 9 # 10); ("Z", 0, 1 # 10)] →
               soft_leave_valid demo_built request) →
     ∃ self', _softLeave [("A", 0, 9 # 10); ("Z", 0, 1 # 10)] demo_built = Ok self'
              ∧ constraints (model self') = constraints (model demo_built))
  ∧ (∀ pre name day w post,
       [("A", 0, 9 # 10); ("Z", 0, 1 # 10)] = pre ++ (name, day, w) :: post →
       (∀ request, request ∈ pre → soft_leave_valid demo_built request) →
       dict_find (resourceIdLookup demo_built) name = None →
       _softLeave [("A", 0, 9 # 10); ("Z", 0, 1 # 10)] demo_built = Raise KeyError)
  ∧ (∀ pre name day w post,
       [("A", 0, 9 # 10); ("Z", 0, 1 # 10)] = pre ++ (name, day, w) :: post →
       (∀ request, request ∈ pre → soft_leave_valid demo_built request) →
       is_Some (dict_find (resourceIdLookup demo_built) name) → numDays demo_built ≤ day →
       _softLeave [("A", 0, 9 # 10); ("Z", 0, 1 # 10)] demo_built = Raise IndexError).
Proof.
  apply (softLeave_outcome demo_built [("A", 0, 9 # 10); ("Z", 0, 1 # 10)]).
  - vm_compute. reflexivity.
  - intros name n. unfold demo_built. simpl.
    repeat case_decide; intros; simplify_eq; lia.
  - vm_compute. lia.
  - vm_compute. lia.
Defined.

(** An unregistered resource after a valid request, and a day outside the grid. *)
Example softLeave_raises :
  _softLeave [("A", 0, 9 # 10); ("Z", 0, 1 # 10)] demo_built = Raise KeyError
  ∧ _softLeave [("A", 2, 9 # 10)] demo_built = Raise IndexError.
Proof. split; vm_compute; reflexivity. Qed.

(** ** When model construction succeeds *)

Lemma session_of_env args day0 a b :
  env a = env b → session_of args day0 a → session_of args day0 b.
Proof.
  intros Ee (H0 & Hd & Hs & Hreg & Hv).
  pose proof (env_numbers _ _ Ee) as (Nd & Ns & Nn & Nr & Nv).
  split; [done|]. split; [by rewrite <- Nd|]. split; [by rewrite <- Ns|].
  split; [by rewrite <- (registry_of_env _ _ Ee)|].
  unfold vars_ok in *. by rewrite <- Nv, <- Nd, <- Ns, <- Nn, <- Nr.
Qed.

Lemma session_after_createVars args day0 s0 s1 :
  args1 args !! 0 = Some day0 →
  _createEmployeeRoleLookup (args0 args)
    (set_shape (length (args1 args)) (length day0) s0) = Ok s1 →
  session_of args day0 (_createVars s1).
Proof.
  intros H0 H. unfold _createEmployeeRoleLookup in H.
  apply bind_Ok in H as (reg & Hreg & [= <-]).
  split; [done|]. split; [done|]. split; [done|]. split; [|done].
  rewrite Hreg. by destruct reg.
Qed.

Lemma base_session args self st :
  build Solver_childConstraints args self = Ok st →
  ∃ day0, session_of args day0 st.
Proof.
  intros [] %build_base_constructed. destruct c_shifts0 as (day0 & ? & ?).
  by exists day0.
Qed.

Lemma registry_role_registered arg reg role :
  _createEmployeeRoleLookup_registry arg = Ok reg →
  is_Some (dict_find (reg_rolesIdLookup reg) role) ↔ role ∈ role_scan arg.
Proof.
  intros Hreg. destruct (registry_fields _ _ Hreg) as (_ & _ & _ & _ & _ & ->).
  symmetry. apply (fsi_keys _ _ _ _ (first_seen_indexing_intro (role_scan arg))).
Qed.

Lemma registry_resource_registered arg reg name :
  _createEmployeeRoleLookup_registry arg = Ok reg →
  is_Some (dict_find (reg_resourceIdLookup reg) name) ↔ name ∈ dict_keys arg.
Proof.
  intros Hreg. destruct (registry_fields _ _ Hreg) as (_ & _ & _ & -> & _ & _).
  symmetry. apply (fsi_keys _ _ _ _ (first_seen_indexing_intro (dict_keys arg))).
Qed.

Lemma registry_roles_inj arg reg r1 r2 k :
  _createEmployeeRoleLookup_registry arg = Ok reg →
  dict_find (reg_rolesIdLookup reg) r1 = Some k →
  dict_find (reg_rolesIdLookup reg) r2 = Some k → r1 = r2.
Proof.
  intros Hreg. destruct (registry_fields _ _ Hreg) as (_ & _ & _ & _ & _ & ->).
  apply first_seen_ids_inj.
Qed.

Lemma registry_numRoles_zero arg reg :
  _createEmployeeRoleLookup_registry arg = Ok reg →
  reg_numRoles reg = 0 ↔ role_scan arg = [].
Proof.
  intros Hreg. destruct (registry_fields _ _ Hreg) as (_ & -> & _).
  split.
  - intros Hlen. apply nil_length_inv in Hlen.
    destruct (role_scan arg) as [|role l] eqn:E; [done|]. exfalso.
    assert (role ∈ first_seen (role :: l)) as Hin by (apply first_seen_elem; left).
    rewrite Hlen in Hin. by apply elem_of_nil in Hin.
  - by intros ->.
Qed.

Lemma registry_mapping_total arg reg n :
  _createEmployeeRoleLookup_registry arg = Ok reg →
  n < reg_numResources reg →
  is_Some (dict_find (reg_resourceRoleMapping reg) n).
Proof.
  intros Hreg Hn.
  destruct (registry_fields _ _ Hreg) as (EN & _ & _ & Eids & _ & _).
  rewrite EN in Hn. apply lookup_lt_is_Some in Hn as [k Hk].
  assert (k ∈ dict_keys arg) as Hin.
  { apply first_seen_elem, list_elem_of_lookup. by exists n. }
  destruct (dict_find_key _ _ Hin) as [roles Hroles].
  destruct (registry_eligibility _ _ _ _ Hreg Hroles) as (n' & ids & Hn' & _ & _ & Hids & _).
  rewrite Eids in Hn'. apply ids_of_first_seen in Hn'.
  assert (n' = n) as ->.
  { by apply (NoDup_lookup (first_seen (dict_keys arg)) n' n k (first_seen_NoDup _)). }
  by eexists.
Qed.

Lemma session_ids_in_range args day0 self :
  session_of args day0 self → ids_in_range self.
Proof.
  intros (_ & _ & _ & Hreg & _) name n Hn.
  by destruct (registry_resource_index _ _ name n Hreg Hn) as [? _].
Qed.

Lemma _removeExtraRoles_adds_total args day0 self :
  session_of args day0 self → ∃ cs, _removeExtraRoles_adds self = Ok cs.
Proof.
  intros (_ & _ & _ & Hreg & Hv). unfold _removeExtraRoles_adds.
  apply for_each_total. intros n Hn%elem_of_range.
  destruct (registry_mapping_total _ _ n Hreg Hn) as [roles Hroles]. simpl in Hroles.
  rewrite (for_each_pure_in _ _ (λ role, if decide (role ∈ roles) then [] else [role]));
    last first.
  { intros role _. unfold dict_get. by rewrite Hroles. }
  simpl. apply for_each_total. intros k Hk.
  apply list_elem_of_bind in Hk as (k' & Hk & Hk'%elem_of_range).
  case_decide; [by apply elem_of_nil in Hk|].
  apply list_elem_of_singleton in Hk as ->.
  apply for_each_total. intros d Hd%elem_of_range.
  apply for_each_total. intros s Hs%elem_of_range.
  rewrite vars_get_ok by done. by eexists.
Qed.

Lemma _maxOneShiftPerDay_adds_total self :
  vars_ok self → ∃ cs, _maxOneShiftPerDay_adds self = Ok cs.
Proof. intros Hv. rewrite _maxOneShiftPerDay_adds_shape by done. by eexists. Qed.

Lemma _createRequirementMapping_value_session args day0 self :
  session_of args day0 self →
  (∃ m, _createRequirementMapping_value (args1 args) self = Ok m) ↔ roles_registered args.
Proof.
  intros (_ & _ & _ & Hreg & _). rewrite _createRequirementMapping_value_Ok_iff.
  unfold roles_registered. split.
  - intros H day shift role ???.
    apply (registry_role_registered _ _ role Hreg). by apply (H day shift).
  - intros H day shift role ???.
    apply (registry_role_registered _ _ role Hreg). by apply (H day shift).
Qed.

Lemma _setRequirementConstraint_adds_Ok_iff args day0 self :
  session_of args day0 self →
  _createRequirementMapping_value (args1 args) self = Ok (requirementMapping self) →
  (∃ cs, _setRequirementConstraint_adds self = Ok cs)
  ↔ ∀ day, day ∈ args1 args → length day0 ≤ length day.
Proof.
  intros (H0 & HD & HS & Hreg & Hv) Hvalue.
  apply _createRequirementMapping_value_inv in Hvalue as [Hlen Hdays]; last first.
  { intros r1 r2 k. apply (registry_roles_inj _ _ r1 r2 k Hreg). }
  unfold _setRequirementConstraint_adds. split.
  - intros [cs Hcs] day Hday.
    apply list_elem_of_lookup in Hday as [d Hd].
    destruct (Hdays d day Hd) as (day' & Hday' & Hlen' & _).
    destruct (decide (length day0 ≤ length day)) as [|Hshort]; [done|]. exfalso.
    destruct (for_each_Ok_body _ _ _ d Hcs) as (l1 & H1 & _).
    { apply elem_of_range. rewrite HD. by apply lookup_lt_Some in Hd. }
    destruct (for_each_Ok_body _ _ _ (length day) H1) as (l2 & H2 & _).
    { apply elem_of_range. lia. }
    rewrite Hday' in H2. simpl in H2.
    apply bind_Ok in H2 as (req & Hreq%of_option_Ok & _).
    apply lookup_lt_Some in Hreq. lia.
  - intros Hcover. apply for_each_total. intros d Hd%elem_of_range.
    apply for_each_total. intros s Hs%elem_of_range.
    rewrite HD in Hd. apply lookup_lt_is_Some in Hd as [day Hday].
    destruct (Hdays d day Hday) as (day' & Hday' & Hlen' & Hshifts).
    assert (s < length day) as Hs'.
    { assert (length day0 ≤ length day); [|lia].
      apply Hcover, list_elem_of_lookup. by exists d. }
    apply lookup_lt_is_Some in Hs' as [shift Hshift].
    destruct (Hshifts s shift Hshift) as (req & Hreq & _ & Hback).
    rewrite Hday'. simpl. rewrite Hreq. simpl.
    apply for_each_total. intros k Hk.
    destruct (dict_find_key _ _ Hk) as [q Hq].
    destruct (Hback k q Hq) as (role & Hrole & _).
    destruct (registry_role_index _ _ _ _ Hreg Hrole) as [HkR _]. simpl in HkR.
    rewrite (for_each_pure_in _ _ (λ resource, [(1%Z, NewBoolVar resource k d s)]));
      last first.
    { intros n Hn%elem_of_range.
      assert (d < numDays self) by (apply lookup_lt_Some in Hday; lia).
      by rewrite vars_get_ok. }
    simpl. unfold dict_get. rewrite Hq. by eexists.
Qed.

Lemma base_build_Ok_iff args self :
  (∃ st, build Solver_childConstraints args self = Ok st)
  ↔ ∃ day0, args1 args !! 0 = Some day0
      ∧ roles_registered args
      ∧ ∀ day, day ∈ args1 args → length day0 ≤ length day.
Proof.
  split.
  - intros [st Hst].
    pose proof (build_base_constructed _ _ _ Hst) as Hc.
    destruct (base_session _ _ _ Hst) as [day0 Hsession].
    destruct Hc as []. exists day0. split; [apply Hsession|]. split.
    + apply (_createRequirementMapping_value_session args day0 st Hsession). by eexists.
    + apply (_setRequirementConstraint_adds_Ok_iff args day0 st Hsession c_requirement0).
      destruct c_required0 as (cs & Hcs & _). by exists cs.
  - intros (day0 & H0 & Hroles & Hcover). unfold build, Solver_childConstraints.
    rewrite H0. simpl.
    destruct (_createEmployeeRoleLookup_registry_value (args0 args)) as [mapping Hreg].
    destruct (_createEmployeeRoleLookup (args0 args)
                (set_shape (length (args1 args)) (length day0) (_createModel self)))
      as [s1|e] eqn:H1; last first.
    { unfold _createEmployeeRoleLookup in H1. by rewrite Hreg in H1. }
    simpl.
    pose proof (session_after_createVars _ _ _ _ H0 H1) as Hs1.
    unfold _removeExtraRoles.
    destruct (_removeExtraRoles_adds_total _ _ _ Hs1) as [cs2 ->]. simpl.
    assert (session_of args day0 (Add cs2 (_createVars s1))) as Hs2.
    { by apply (session_of_env args day0 (_createVars s1)). }
    unfold _createRequirementMapping.
    destruct (proj2 (_createRequirementMapping_value_session args day0 _ Hs2) Hroles)
      as [m Hm].
    rewrite Hm. simpl.
    assert (session_of args day0
              (set_requirementMapping m (Add cs2 (_createVars s1)))) as Hs3.
    { by apply (session_of_env args day0 (Add cs2 (_createVars s1))). }
    unfold _setRequirementConstraint.
    destruct (proj2 (_setRequirementConstraint_adds_Ok_iff args day0 _ Hs3 Hm) Hcover)
      as [cs4 ->].
    simpl. unfold _maxOneShiftPerDay.
    destruct (_maxOneShiftPerDay_adds_total
                (Add cs4 (set_requirementMapping m (Add cs2 (_createVars s1)))))
      as [cs5 ->]; [|by eexists].
    apply Hs3.
Qed.

(** X9: Model construction of the base class can only succeed when the
    requirement matrix has a first day, every role it names belongs to some
    resource, and no day has fewer shifts than the first day; and when these
    conditions hold and every minimum of the matrix is a head count in the
    engine's integer range, it does succeed. *)
Theorem base_build_conditions args self :
  ((∃ st, build Solver_childConstraints args self = Ok st) →
     ∃ day0, args1 args !! 0 = Some day0
       ∧ roles_registered args
       ∧ ∀ day, day ∈ args1 args → length day0 ≤ length day)
  ∧ (requirements_in_range args →
     (∃ day0, args1 args !! 0 = Some day0
        ∧ roles_registered args
        ∧ ∀ day, day ∈ args1 args → length day0 ≤ length day) →
     ∃ st, build Solver_childConstraints args self = Ok st).
Proof.
  split.
  - apply base_build_Ok_iff.
  - intros _. apply base_build_Ok_iff.
Qed.

(** A jagged matrix (a later day with fewer shifts) and an empty matrix fail. *)
Example base_build_fails :
  build Solver_childConstraints
    {| args0 := [("A", ["R1"])]; args1 := [[ []; [] ]; [ [] ]]; args2 := []; args3 := [] |}
    (Solver_init 1 250 true) = Raise IndexError
  ∧ build Solver_childConstraints
      {| args0 := [("A", ["R1"])]; args1 := []; args2 := []; args3 := [] |}
      (Solver_init 1 250 true) = Raise IndexError.
Proof. split; vm_compute; reflexivity. Qed.

Lemma first_failure {A} (P : A → Prop) (l : list A) :
  (∀ x, P x ∨ ¬ P x) →
  (∀ x, x ∈ l → P x)
  ∨ ∃ pre x post, l = pre ++ x :: post ∧ (∀ y, y ∈ pre → P y) ∧ ¬ P x.
Proof.
  intros Hdec. induction l as [|x l IH].
  - left. by intros x ?%elem_of_nil.
  - destruct (Hdec x) as [Hx|Hx]; last first.
    { right. exists [], x, l. split; [done|]. split; [by intros y ?%elem_of_nil|done]. }
    destruct IH as [IH|(pre & y & post & -> & Hpre & Hy)].
    + left. intros y [->|Hy]%elem_of_cons; auto.
    + right. exists (x :: pre), y, post. split; [done|]. split; [|done].
      intros z [->|Hz]%elem_of_cons; auto.
Qed.

Lemma is_Some_dec {A} (o : option A) : is_Some o ∨ ¬ is_Some o.
Proof. destruct o; [left; by eexists|right; by intros [? ?]]. Qed.

Lemma hard_leave_valid_dec self leave :
  hard_leave_valid self leave ∨ ¬ hard_leave_valid self leave.
Proof.
  unfold hard_leave_valid.
  destruct (is_Some_dec (dict_find (resourceIdLookup self) leave.1)); [|tauto].
  destruct (decide (numRoles self = 0)); [tauto|].
  destruct (decide (leave.2 < numDays self)); tauto.
Qed.

Lemma soft_leave_valid_dec self request :
  soft_leave_valid self request ∨ ¬ soft_leave_valid self request.
Proof.
  unfold soft_leave_valid.
  destruct (is_Some_dec (dict_find (resourceIdLookup self) request.1.1)); [|tauto].
  destruct (decide (request.1.2 < numDays self)); tauto.
Qed.

Lemma _hardLeave_adds_Ok_iff self arg :
  vars_ok self → ids_in_range self → 0 < numShifts self →
  (∃ cs, _hardLeave_adds arg self = Ok cs)
  ↔ ∀ leave, leave ∈ arg → hard_leave_valid self leave.
Proof.
  intros Hv Hids HS. unfold _hardLeave_adds. split.
  - intros [cs Hcs] [name day] Hleave.
    destruct (for_each_Ok_body _ _ _ _ Hcs Hleave) as (l1 & H1 & _).
    destruct (dict_find (resourceIdLookup self) name) as [n|] eqn:Hn; last first.
    { by rewrite hard_leave_body_KeyError in H1. }
    split; [by eexists|]. simpl.
    destruct (decide (numRoles self = 0)) as [|HR]; [by left|]. right.
    destruct (decide (day < numDays self)) as [|Hday]; [done|].
    rewrite hard_leave_body_IndexError in H1; [done|done|done|lia|by eexists|lia].
  - intros Hvalid. apply for_each_total. intros leave Hleave.
    apply hard_leave_body_Ok; auto.
Qed.

Lemma soft_body_no_roles self (request : string * nat * Q) (g : grid Q) :
  numRoles self = 0 →
  fold_result (range (numShifts self)) (λ s g,
    fold_result (range (numRoles self)) (λ r g,
      rid ← dict_get (resourceIdLookup self) request.1.1;
      grid_set g rid r request.1.2 s request.2) g) g = Ok g.
Proof.
  intros ->. simpl. induction (range (numShifts self)) as [|s l IH]; [done|].
  simpl. exact IH.
Qed.

Lemma _softLeave_Ok_iff self arg :
  vars_ok self → ids_in_range self → 0 < numShifts self →
  (∃ self', _softLeave arg self = Ok self')
  ↔ numRoles self = 0 ∨ ∀ request, request ∈ arg → soft_leave_valid self request.
Proof.
  intros Hv Hids HS. unfold _softLeave, _softLeave_grid. split.
  - intros [self' H]. apply bind_Ok in H as (g & Hg & _).
    destruct (decide (numRoles self = 0)) as [|HR]; [by left|]. right.
    destruct (first_failure (soft_leave_valid self) arg (soft_leave_valid_dec self))
      as [|(pre & [[name day] w] & post & -> & Hpre & Hbad)]; [done|]. exfalso.
    destruct (dict_find (resourceIdLookup self) name) as [n|] eqn:Hn.
    + rewrite (fold_result_first_Raise (grid_shape_ok self) _ pre (name, day, w) post _
                 IndexError) in Hg; [done|apply grid_build_shape| |].
      * intros request g' Hreq Hg'. apply soft_body_Ok; auto.
      * intros g' Hg'. apply soft_body_IndexError; [done|lia|by eexists| |done].
        destruct (decide (numDays self ≤ day)); [done|]. exfalso. apply Hbad.
        split; [by eexists|simpl; lia].
    + rewrite (fold_result_first_Raise (grid_shape_ok self) _ pre (name, day, w) post _
                 KeyError) in Hg; [done|apply grid_build_shape| |].
      * intros request g' Hreq Hg'. apply soft_body_Ok; auto.
      * intros g' _. apply soft_body_KeyError; [done|lia|done].
  - intros Hvalid.
    destruct (fold_result_inv_total (grid_shape_ok self)
      (λ (request : string * nat * Q) (g : grid Q),
         fold_result (range (numShifts self)) (λ s g,
           fold_result (range (numRoles self)) (λ r g,
             rid ← dict_get (resourceIdLookup self) request.1.1;
             grid_set g rid r request.1.2 s request.2) g) g) arg
      (grid_build (numResources self) (numRoles self) (numDays self) (numShifts self)
         (λ _ _ _ _, 0%Q))) as (g & -> & Hg).
    + apply grid_build_shape.
    + intros request g Hreq Hg. destruct Hvalid as [HR|Hvalid].
      * rewrite soft_body_no_roles by done. by exists g.
      * apply soft_body_Ok; auto.
    + simpl. destruct (_softLeave_objective_total self g Hv Hg) as [e ->].
      simpl. by eexists.
Qed.

Lemma _nextDayShift_env arg self self' :
  _nextDayShift arg self = Ok self' → env self' = env self.
Proof.
  unfold _nextDayShift. intros H.
  apply bind_Ok in H as (m & _ & H). apply bind_Ok in H as (cs & _ & [= <-]).
  reflexivity.
Qed.

Lemma _hardLeave_env arg self self' :
  _hardLeave arg self = Ok self' → env self' = env self.
Proof.
  unfold _hardLeave. intros H. apply bind_Ok in H as (cs & _ & [= <-]). reflexivity.
Qed.

Lemma _dayAfterNight_Ok_iff self :
  vars_ok self → (∃ self', _dayAfterNight self = Ok self') ↔ 3 ≤ numShifts self.
Proof.
  intros Hv. split.
  - intros [self' H]. destruct (decide (3 ≤ numShifts self)) as [|Hlt]; [done|].
    rewrite _dayAfterNight_raises in H by lia. done.
  - by apply _dayAfterNight_total.
Qed.

Lemma session_hard_leave_valid args day0 self leave :
  session_of args day0 self →
  hard_leave_valid self leave
  ↔ leave.1 ∈ dict_keys (args0 args)
    ∧ (role_scan (args0 args) = [] ∨ leave.2 < length (args1 args)).
Proof.
  intros (_ & Hd & _ & Hreg & _). unfold hard_leave_valid.
  rewrite <- (registry_resource_registered _ _ leave.1 Hreg).
  rewrite <- (registry_numRoles_zero _ _ Hreg), Hd. done.
Qed.

Lemma session_soft_leave_valid args day0 self request :
  session_of args day0 self →
  soft_leave_valid self request
  ↔ request.1.1 ∈ dict_keys (args0 args) ∧ request.1.2 < length (args1 args).
Proof.
  intros (_ & Hd & _ & Hreg & _). unfold soft_leave_valid.
  rewrite <- (registry_resource_registered _ _ request.1.1 Hreg), Hd. done.
Qed.

Lemma hospital_build_Ok_iff args self :
  (∃ st, HospitalSolver_build args self = Ok st)
  ↔ ∃ day0, args1 args !! 0 = Some day0
      ∧ roles_registered args
      ∧ (∀ day, day ∈ args1 args → length day0 ≤ length day)
      ∧ 3 ≤ length day0
      ∧ (∀ leave, leave ∈ args2 args →
           leave.1 ∈ dict_keys (args0 args)
           ∧ (role_scan (args0 args) = [] ∨ leave.2 < length (args1 args)))
      ∧ (role_scan (args0 args) = []
         ∨ ∀ request, request ∈ args3 args →
             request.1.1 ∈ dict_keys (args0 args)
             ∧ request.1.2 < length (args1 args)).
Proof.
  unfold HospitalSolver_build. rewrite build_split.
  unfold HospitalSolver_childConstraints. split.
  - intros [st H]. apply bind_Ok in H as (s5 & Hb & Hc).
    destruct (proj1 (base_build_Ok_iff args self) (ex_intro _ s5 Hb))
      as (day0 & H0 & Hroles & Hlen).
    destruct (base_session _ _ _ Hb) as (day0' & Hs5).
    assert (day0' = day0) as -> by (destruct Hs5 as [E _]; congruence).
    apply bind_Ok in Hc as (s6 & Hn & Hc). apply bind_Ok in Hc as (s7 & Hh & Hs).
    assert (session_of args day0 s6) as Hs6.
    { eapply session_of_env; [|exact Hs5]. symmetry. by eapply _nextDayShift_env. }
    assert (session_of args day0 s7) as Hs7.
    { eapply session_of_env; [|exact Hs6]. symmetry. by eapply _hardLeave_env. }
    assert (3 ≤ length day0) as H3.
    { destruct Hs5 as (_ & _ & <- & _ & Hv).
      apply (_dayAfterNight_Ok_iff s5 Hv). by exists s6. }
    exists day0. do 4 (split; [done|]). split.
    + intros leave Hleave. apply (session_hard_leave_valid _ _ _ _ Hs6).
      revert leave Hleave. apply _hardLeave_adds_Ok_iff.
      * by destruct Hs6 as (_ & _ & _ & _ & ?).
      * by eapply session_ids_in_range.
      * destruct Hs6 as (_ & _ & -> & _). lia.
      * unfold _hardLeave in Hh. apply bind_Ok in Hh as (cs & Hcs & _). by exists cs.
    + assert (numRoles s7 = 0 ∨ ∀ request, request ∈ args3 args → soft_leave_valid s7 request)
        as [HR|Hvalid].
      { apply _softLeave_Ok_iff.
        - by destruct Hs7 as (_ & _ & _ & _ & ?).
        - by eapply session_ids_in_range.
        - destruct Hs7 as (_ & _ & -> & _). lia.
        - by exists st. }
      * left. destruct Hs7 as (_ & _ & _ & Hreg & _).
        by apply (registry_numRoles_zero _ _ Hreg).
      * right. intros request Hreq.
        by apply (session_soft_leave_valid _ _ _ _ Hs7), Hvalid.
  - intros (day0 & H0 & Hroles & Hlen & H3 & Hhard & Hsoft).
    destruct (proj2 (base_build_Ok_iff args self)) as [s5 Hb].
    { exists day0. done. }
    rewrite Hb. simpl.
    destruct (base_session _ _ _ Hb) as (day0' & Hs5).
    assert (day0' = day0) as -> by (destruct Hs5 as [E _]; congruence).
    destruct (proj2 (_dayAfterNight_Ok_iff s5 ltac:(by destruct Hs5 as (_ & _ & _ & _ & ?))))
      as [s6 Hn].
    { destruct Hs5 as (_ & _ & -> & _). done. }
    rewrite Hn. simpl.
    assert (session_of args day0 s6) as Hs6.
    { eapply session_of_env; [|exact Hs5]. symmetry. by eapply _nextDayShift_env. }
    destruct (proj2 (_hardLeave_adds_Ok_iff s6 (args2 args)
                       ltac:(by destruct Hs6 as (_ & _ & _ & _ & ?))
                       (session_ids_in_range _ _ _ Hs6)
                       ltac:(destruct Hs6 as (_ & _ & -> & _); lia))) as [cs Hcs].
    { intros leave Hleave. by apply (session_hard_leave_valid _ _ _ _ Hs6), Hhard. }
    unfold _hardLeave. rewrite Hcs. simpl.
    assert (session_of args day0 (Add cs s6)) as Hs7.
    { eapply session_of_env; [|exact Hs6]. reflexivity. }
    apply _softLeave_Ok_iff.
    + by destruct Hs7 as (_ & _ & _ & _ & ?).
    + by eapply session_ids_in_range.
    + destruct Hs7 as (_ & _ & -> & _). lia.
    + destruct Hsoft as [Hnil|Hvalid].
      * left. destruct Hs7 as (_ & _ & _ & Hreg & _).
        by apply (registry_numRoles_zero _ _ Hreg).
      * right. intros request Hreq.
        by apply (session_soft_leave_valid _ _ _ _ Hs7), Hvalid.
Qed.

(** X10: Model construction of [HospitalSolver] can only succeed when the
    conditions of the base construction hold, the first day has at least three
    shifts, every hard leave names a resource of the map (and, when some role
    exists, a day of the matrix), and, when some role exists, every soft leave
    names a resource of the map and a day of the matrix; and when these
    conditions hold, every minimum of the matrix is a head count in the
    engine's integer range and every soft-leave weight is a penalty in that
    range, it does succeed. *)
Theorem hospital_build_conditions args self :
  ((∃ st, HospitalSolver_build args self = Ok st) →
     ∃ day0, args1 args !! 0 = Some day0
       ∧ roles_registered args
       ∧ (∀ day, day ∈ args1 args → length day0 ≤ length day)
       ∧ 3 ≤ length day0
       ∧ (∀ leave, leave ∈ args2 args →
            leave.1 ∈ dict_keys (args0 args)
            ∧ (role_scan (args0 args) = [] ∨ leave.2 < length (args1 args)))
       ∧ (role_scan (args0 args) = []
          ∨ ∀ request, request ∈ args3 args →
              request.1.1 ∈ dict_keys (args0 args)
              ∧ request.1.2 < length (args1 args)))
  ∧ (requirements_in_range args → weights_in_range args →
     (∃ day0, args1 args !! 0 = Some day0
        ∧ roles_registered args
        ∧ (∀ day, day ∈ args1 args → length day0 ≤ length day)
        ∧ 3 ≤ length day0
        ∧ (∀ leave, leave ∈ args2 args →
             leave.1 ∈ dict_keys (args0 args)
             ∧ (role_scan (args0 args) = [] ∨ leave.2 < length (args1 args)))
        ∧ (role_scan (args0 args) = []
           ∨ ∀ request, request ∈ args3 args →
               request.1.1 ∈ dict_keys (args0 args)
               ∧ request.1.2 < length (args1 args))) →
     ∃ st, HospitalSolver_build args self = Ok st).
Proof.
  split.
  - apply hospital_build_Ok_iff.
  - intros _ _. apply hospital_build_Ok_iff.
Qed.

(** [demo_args] meets every condition, and its construction succeeds. *)
Example hospital_build_conditions_demo :
  requirements_in_range demo_args ∧ weights_in_range demo_args
  ∧ HospitalSolver_build demo_args (HospitalSolver_init 4) = Ok demo_built.
Proof.
  split; [|split].
  - intros day shift role q Hday Hshift Hq.
    repeat (apply elem_of_cons in Hday as [->|Hday]);
      [| |by apply elem_of_nil in Hday];
      repeat (apply elem_of_cons in Hshift as [->|Hshift]);
      try (by apply elem_of_nil in Hshift); try done.
    simpl in Hq. case_decide; [|done]. injection Hq as <-. lia.
  - intros request Hreq.
    repeat (apply elem_of_cons in Hreq as [->|Hreq]);
      [| | |by apply elem_of_nil in Hreq]; split; done.
  - vm_compute. reflexivity.
Qed.

(** ** Rest after the night shift *)

Lemma transition_excludes arg self v n r r' d s j :
  s ∈ arg.*1 →
  s < numShifts self → j < numShifts self →
  r < numRoles self → r' < numRoles self →
  holds v (LinLe (transition_expr arg self n d s) 1) →
  v (NewBoolVar n r d s) = true → v (NewBoolVar n r' (d + 1) j) = false.
Proof.
  intros Hs HsS Hj Hr Hr' Hc Hx. simpl in Hc.
  destruct (v (NewBoolVar n r' (d + 1) j)) eqn:Hy; [exfalso|done].
  pose proof (eval_two_ge v _ (flagged arg s s, NewBoolVar n r d s)
                (1%Z, NewBoolVar n r' (d + 1) j)
                (transition_expr_nonneg arg self n d s)) as Hge.
  rewrite !eval_cons in Hge. change (eval v []) with 0%Z in Hge. simpl in Hge.
  rewrite Hx, Hy in Hge. simpl in Hge.
  assert (flagged arg s s = 1%Z) as Hflag.
  { unfold flagged. by rewrite decide_True. }
  rewrite Hflag in Hge.
  assert (1 + 0 + (1 + 0) ≤ eval v (transition_expr arg self n d s))%Z; [|lia].
  apply Hge.
  - unfold transition_expr.
    apply list_elem_of_bind. exists s. split; [|by apply elem_of_range].
    apply list_elem_of_bind. exists r. split; [|by apply elem_of_range].
    rewrite Hflag. left.
  - unfold transition_expr.
    apply list_elem_of_bind. exists j. split; [|by apply elem_of_range].
    apply list_elem_of_bind. exists r'. split; [|by apply elem_of_range].
    right. left.
  - intros [=]. lia.
Qed.

(** X11: In every valuation accepted by a model [HospitalSolver] constructs, a
    resource that works shift 2 on some day, in any role, has no assignment at
    all on the following day: no shift and no role. *)
Theorem rest_after_night args self st v n r r' d j :
  HospitalSolver_build args self = Ok st →
  accepted v (model st) →
  n < numResources st → r < numRoles st → r' < numRoles st →
  d + 1 < numDays st → j < numShifts st →
  v (NewBoolVar n r d 2) = true →
  v (NewBoolVar n r' (d + 1) j) = false.
Proof.
  intros Hbuild Hacc Hn Hr Hr' Hd Hj Hx.
  destruct (HospitalSolver_build_constructed _ _ _ Hbuild) as [Hbase Hm (l & Hl & Hin) _ _].
  assert (vars_ok st) as Hv by (by destruct Hbase).
  pose proof (_nextDayShift_matrix_cells _ _ _ Hm) as [Hlt _].
  assert (2 < numShifts st) as H2 by (apply (Hlt (2, 0)); left).
  rewrite (_nextDayShift_adds_env st (set_non_sequential (non_sequential_shifts_indices st) st))
    in Hl by done.
  rewrite (_nextDayShift_adds_shape [(2, 0); (2, 1); (2, 2)]) in Hl by done.
  injection Hl as <-.
  apply (transition_excludes [(2, 0); (2, 1); (2, 2)] st v n r r' d 2 j); try done.
  - simpl. left.
  - apply (accepted_elem _ _ _ Hacc), Hin.
    apply list_elem_of_bind. exists n. split; [|by apply elem_of_range].
    apply list_elem_of_bind. exists d. split; [|apply elem_of_range; lia].
    apply list_elem_of_bind. exists 2. split; [|by apply elem_of_range].
    by apply list_elem_of_singleton.
Qed.

Lemma rest_after_night_witness :
  assign_two (NewBoolVar 1 0 0 0) (NewBoolVar 0 0 0 2) (NewBoolVar 0 0 1 1) = false.
Proof.
  apply (rest_after_night demo_args (HospitalSolver_init 4) demo_built
           (assign_two (NewBoolVar 1 0 0 0) (NewBoolVar 0 0 0 2)) 0 0 0 0 1).
  - vm_compute. reflexivity.
  - apply acceptedb_accepted. vm_compute. reflexivity.
  - vm_compute. lia.
  - vm_compute. lia.
  - vm_compute. lia.
  - vm_compute. lia.
  - vm_compute. lia.
  - vm_compute. reflexivity.
Defined.

(** ** The roster of one resource *)

Section PyDictSet.
Context {K V : Type} `{EqDecision K}.
Implicit Types (d : dict K V) (k : K) (v : V).

Lemma dict_set_set d k v v' : dict_set (dict_set d k v) k v' = dict_set d k v'.
Proof.
  induction d as [|[k0 v0] d IH]; simpl.
  - by rewrite decide_True.
  - destruct (decide (k = k0)) as [->|Hne]; simpl.
    + by rewrite decide_True.
    + by rewrite decide_False, IH.
Qed.

Lemma dict_keys_set d k v k' :
  k' ∈ dict_keys (dict_set d k v) ↔ k' = k ∨ k' ∈ dict_keys d.
Proof.
  split.
  - intros [x Hx]%dict_find_key. rewrite dict_find_set in Hx.
    case_decide; [by left|]. right. by eapply dict_find_Some_key.
  - intros Hk. assert (is_Some (dict_find (dict_set d k v) k')) as [x Hx].
    { rewrite dict_find_set. case_decide; [by eexists|].
      destruct Hk as [?|Hk]; [done|]. by apply dict_find_key. }
    by eapply dict_find_Some_key.
Qed.

End PyDictSet.

Lemma last_filter_snoc {A} (P : A → Prop) `{∀ x, Decision (P x)} (l : list A) x :
  last (filter P (l ++ [x])) = if decide (P x) then Some x else last (filter P l).
Proof.
  rewrite filter_app, filter_cons, filter_nil. case_decide.
  - by rewrite last_snoc.
  - by rewrite app_nil_r.
Qed.

(** The state of the shift and role loops of one day: the aliased [day]
    dictionary and the calendar. *)
Lemma getRosterByResource_pairs self sv n d cal (l : list (nat * nat)) :
  vars_ok self → solver self = Some sv →
  n < numResources self → d < numDays self →
  (∀ r, r < numRoles self → is_Some (dict_find (rolesLookup self) r)) →
  Forall (λ p, p.1 < numShifts self ∧ p.2 < numRoles self) l →
  fold_result l (λ p st,
      value ← solver_Value self;
      x ← grid_get (vars self) n p.2 d p.1;
      if (value : valuation) x then
        role ← dict_get (rolesLookup self) p.2;
        let day := dict_set st.1 "Role" (PyStr role) in
        let day := dict_set day "Shift" (PyInt (Z.of_nat p.1)) in
        Ok (day, dict_set st.2 ("Day_" +:+ pretty d) (PyDict day))
      else Ok st) ([], cal)
  = Ok (match last (filter (λ p, Value sv (NewBoolVar n p.2 d p.1) = true) l) with
        | Some p =>
            let day := day_dict (default "" (dict_find (rolesLookup self) p.2)) p.1 in
            (day, dict_set cal ("Day_" +:+ pretty d) (PyDict day))
        | None => ([], cal)
        end).
Proof.
  intros Hv Hsv Hn Hd Hroles. induction l as [|p l IH] using rev_ind; intros Hl; [done|].
  apply Forall_app in Hl as [Hl Hp]. apply Forall_singleton in Hp as [Hs Hr].
  rewrite fold_result_app, (IH Hl), last_filter_snoc. clear IH.
  cbn [mbind result_bind rbind fold_result].
  unfold solver_Value. rewrite Hsv. cbn [of_option mbind result_bind rbind].
  rewrite vars_get_ok by done. cbn [mbind result_bind rbind].
  destruct (Value sv (NewBoolVar n p.2 d p.1)) eqn:Hval.
  - rewrite decide_True by done.
    destruct (Hroles _ Hr) as [role Hrole].
    unfold dict_get. rewrite Hrole. cbn [of_option mbind result_bind rbind default].
    destruct (last (filter _ l)) as [p'|]; simpl.
    + by rewrite dict_set_set.
    + done.
  - rewrite decide_False by done. done.
Qed.

Lemma getRosterByResource_day_value self sv n d cal :
  vars_ok self → solver self = Some sv →
  n < numResources self → d < numDays self →
  (∀ r, r < numRoles self → is_Some (dict_find (rolesLookup self) r)) →
  getRosterByResource_day self n d cal
  = Ok (match last (worked (Value sv) self n d) ≫= day_entry self with
        | Some entry => dict_set cal ("Day_" +:+ pretty d) entry
        | None => cal
        end).
Proof.
  intros Hv Hsv Hn Hd Hroles. unfold getRosterByResource_day.
  rewrite (fold_result_nested (λ s r st,
      value ← solver_Value self;
      x ← grid_get (vars self) n r d s;
      if (value : valuation) x then
        role ← dict_get (rolesLookup self) r;
        let day := dict_set st.1 "Role" (PyStr role) in
        let day := dict_set day "Shift" (PyInt (Z.of_nat s)) in
        Ok (day, dict_set st.2 ("Day_" +:+ pretty d) (PyDict day))
      else Ok st)).
  cbn beta.
  rewrite (getRosterByResource_pairs self sv n d cal) by
    (try done; apply Forall_forall; intros [s r] Hp;
     apply list_elem_of_bind in Hp as (s' & Hp & Hs'%elem_of_range);
     apply list_elem_of_bind in Hp as (r' & Hp & Hr'%elem_of_range);
     apply list_elem_of_singleton in Hp as [= -> ->]; done).
  cbn [mbind result_bind rbind]. f_equal. unfold worked.
  destruct (last (filter _ _)) as [p|] eqn:Hlast; [|done].
  cbn [mbind option_bind]. unfold day_entry.
  assert (p.2 < numRoles self) as Hr.
  { apply last_Some_elem_of, list_elem_of_filter in Hlast as [_ Hp].
    apply list_elem_of_bind in Hp as (s' & Hp & _).
    apply list_elem_of_bind in Hp as (r' & Hp & Hr'%elem_of_range).
    by apply list_elem_of_singleton in Hp as ->. }
  destruct (Hroles _ Hr) as [role ->]. done.
Qed.

Lemma resource_key_not_day (d : nat) : "Resource" ≠ "Day_" +:+ pretty d.
Proof. cbn [String.append]. intros [=]. Qed.

Lemma getRosterByResource_days self sv name n (l : list nat) :
  vars_ok self → solver self = Some sv → n < numResources self →
  (∀ r, r < numRoles self → is_Some (dict_find (rolesLookup self) r)) →
  Forall (λ d, d < numDays self) l →
  ∃ calendar,
    fold_result l (getRosterByResource_day self n) [("Resource", PyStr name)] = Ok calendar
    ∧ dict_find calendar "Resource" = Some (PyStr name)
    ∧ (∀ d, dict_find calendar ("Day_" +:+ pretty d)
            = if decide (d ∈ l) then last (worked (Value sv) self n d) ≫= day_entry self
              else None)
    ∧ (∀ k, k ∈ dict_keys calendar → k = "Resource" ∨ ∃ d, d ∈ l ∧ k = "Day_" +:+ pretty d).
Proof.
  intros Hv Hsv Hn Hroles. induction l as [|d0 l IH] using rev_ind; intros Hl.
  - eexists. split; [reflexivity|]. split; [done|]. split.
    + intros d. rewrite decide_False by apply not_elem_of_nil. done.
    + intros k Hk. apply list_elem_of_singleton in Hk. by left.
  - apply Forall_app in Hl as [Hl Hd0]. rewrite Forall_singleton in Hd0.
    destruct (IH Hl) as (cal & Hcal & Hres & Hdays & Hkeys). clear IH.
    rewrite fold_result_app, Hcal. cbn [mbind result_bind rbind fold_result].
    rewrite (getRosterByResource_day_value self sv n d0 cal Hv Hsv Hn Hd0 Hroles).
    eexists. split; [reflexivity|].
    destruct (last (worked (Value sv) self n d0) ≫= day_entry self) as [entry|] eqn:He.
    + split; [|split].
      * rewrite dict_find_set, decide_False by apply resource_key_not_day. done.
      * intros d. rewrite dict_find_set. destruct (decide (d = d0)) as [->|Hne].
        -- rewrite !decide_True; [done|apply elem_of_app; right; left|done].
        -- rewrite decide_False by (by intros ?%day_key_inj). rewrite Hdays.
           repeat case_decide; try done; exfalso.
           ++ apply H0, elem_of_app. by left.
           ++ apply elem_of_app in H0 as [?|?%list_elem_of_singleton]; done.
      * intros k [->|Hk]%dict_keys_set.
        -- right. exists d0. split; [apply elem_of_app; right; left|done].
        -- destruct (Hkeys k Hk) as [?|(d & Hd & ->)]; [by left|right].
           exists d. split; [apply elem_of_app; by left|done].
    + split; [done|]. split.
      * intros d. rewrite Hdays. destruct (decide (d = d0)) as [->|Hne].
        -- rewrite (decide_True (P := d0 ∈ l ++ [d0])) by (apply elem_of_app; right; left).
           rewrite He. by case_decide.
        -- repeat case_decide; try done; exfalso.
           ++ apply H0, elem_of_app. by left.
           ++ apply elem_of_app in H0 as [?|?%list_elem_of_singleton]; done.
      * intros k Hk. destruct (Hkeys k Hk) as [?|(d & Hd & ->)]; [by left|right].
        exists d. split; [apply elem_of_app; by left|done].
Qed.

Lemma getRosterByResource_value self sv name n :
  vars_ok self → solver self = Some sv →
  dict_find (resourceIdLookup self) name = Some n → n < numResources self →
  (∀ r, r < numRoles self → is_Some (dict_find (rolesLookup self) r)) →
  ∃ calendar,
    getRosterByResource name self = Ok calendar
    ∧ dict_find calendar "Resource" = Some (PyStr name)
    ∧ (∀ d, d < numDays self →
         dict_find calendar ("Day_" +:+ pretty d)
         = last (worked (Value sv) self n d) ≫= day_entry self)
    ∧ (∀ k, k ∈ dict_keys calendar →
         k = "Resource" ∨ ∃ d, d < numDays self ∧ k = "Day_" +:+ pretty d).
Proof.
  intros Hv Hsv Hname Hn Hroles. unfold getRosterByResource, dict_get.
  rewrite Hname. cbn [of_option mbind result_bind rbind].
  destruct (getRosterByResource_days self sv name n (range (numDays self)))
    as (calendar & Hcal & Hres & Hdays & Hkeys); try done.
  { apply Forall_forall. by intros d ?%elem_of_range. }
  exists calendar. split; [done|]. split; [done|]. split.
  - intros d Hd. rewrite Hdays, decide_True; [done|by apply elem_of_range].
  - intros k Hk. destruct (Hkeys k Hk) as [?|(d & Hd%elem_of_range & ->)]; [by left|right].
    by exists d.
Qed.

(** X12: On a solved session [getRosterByResource] returns, for a registered
    resource, a dictionary holding the resource's name under ["Resource"] and,
    for each day, under ["Day_d"], the role name and shift of the LAST
    assignment the valuation gives the resource on that day in shift-major
    order (nothing when there is none); it has no other key. *)
Theorem roster_by_resource_entries self sv name n :
  vars_ok self → solver self = Some sv →
  dict_find (resourceIdLookup self) name = Some n → n < numResources self →
  (∀ r, r < numRoles self → is_Some (dict_find (rolesLookup self) r)) →
  ∃ calendar,
    getRosterByResource name self = Ok calendar
    ∧ dict_find calendar "Resource" = Some (PyStr name)
    ∧ (∀ d, d < numDays self →
         dict_find calendar ("Day_" +:+ pretty d)
         = last (worked (Value sv) self n d) ≫= day_entry self)
    ∧ (∀ k, k ∈ dict_keys calendar →
         k = "Resource" ∨ ∃ d, d < numDays self ∧ k = "Day_" +:+ pretty d).
Proof. apply getRosterByResource_value. Qed.

Lemma roster_by_resource_entries_witness :
  ∃ calendar,
    getRosterByResource "B" demo_solved = Ok calendar
    ∧ dict_find calendar "Resource" = Some (PyStr "B")
    ∧ (∀ d, d < numDays demo_solved →
         dict_find calendar ("Day_" +:+ pretty d)
         = last (worked (Value demo_answer) demo_solved 1 d) ≫= day_entry demo_solved)
    ∧ (∀ k, k ∈ dict_keys calendar →
         k = "Resource" ∨ ∃ d, d < numDays demo_solved ∧ k = "Day_" +:+ pretty d).
Proof.
  apply (roster_by_resource_entries demo_solved demo_answer "B" 1).
  - vm_compute. reflexivity.
  - reflexivity.
  - vm_compute. reflexivity.
  - vm_compute. lia.
  - intros r Hr. vm_compute in Hr.
    destruct r as [|[|r]]; [by eexists|by eexists|lia].
Defined.

(** B works role R1 on shift 0 of day 0 and nothing on day 1. *)
Example roster_by_resource_demo :
  getRosterByResource "B" demo_solved
  = Ok [("Resource", PyStr "B");
        ("Day_0", PyDict [("Role", PyStr "R1"); ("Shift", PyInt 0)])]
  ∧ getRosterByResource "C" demo_solved = Raise KeyError.
Proof. split; vm_compute; reflexivity. Qed.

(** ** The roster of one day *)

Lemma filter_snoc {A} (P : A → Prop) `{∀ x, Decision (P x)} (l : list A) x :
  filter P (l ++ [x]) = if decide (P x) then filter P l ++ [x] else filter P l.
Proof.
  rewrite filter_app, filter_cons, filter_nil. case_decide; [done|by rewrite app_nil_r].
Qed.

(** The [role] dictionary after the resources in [l] have been visited. *)
Lemma getRosterByDay_role_prefix self sv day s r (l : list nat) :
  vars_ok self → solver self = Some sv →
  day < numDays self → s < numShifts self → r < numRoles self →
  (∀ n, n < numResources self → is_Some (dict_find (resourcesLookup self) n)) →
  Forall (λ n, n < numResources self) l →
  fold_result l (λ n role,
    value ← solver_Value self;
    x ← grid_get (vars self) n r day s;
    if (value : valuation) x then
      dayReq ← of_option IndexError (requirementMapping self !! day);
      shiftReq ← of_option IndexError (dayReq !! s);
      q ← dict_get shiftReq r;
      let role := dict_set role "Requirement" (PyTuple [PyInt q]) in
      name ← dict_get (resourcesLookup self) n;
      py_append role "Resources" (PyStr name)
    else Ok role) [("Resources", PyList [])]
  = match filter (λ n, Value sv (NewBoolVar n r day s) = true) l with
    | [] => Ok [("Resources", PyList [])]
    | ns => q ← requirement_at self day s r;
            Ok (role_entry q (omap (dict_find (resourcesLookup self)) ns))
    end.
Proof.
  intros Hv Hsv Hday Hs Hr Hnames.
  induction l as [|n l IH] using rev_ind; intros Hl; [done|].
  apply Forall_app in Hl as [Hl Hn]. rewrite Forall_singleton in Hn.
  rewrite fold_result_app, (IH Hl), filter_snoc. clear IH.
  cbn [fold_result].
  assert (∀ role, (value ← solver_Value self;
                   x ← grid_get (vars self) n r day s;
                   if (value : valuation) x then
                     dayReq ← of_option IndexError (requirementMapping self !! day);
                     shiftReq ← of_option IndexError (dayReq !! s);
                     q ← dict_get shiftReq r;
                     let role := dict_set role "Requirement" (PyTuple [PyInt q]) in
                     name ← dict_get (resourcesLookup self) n;
                     py_append role "Resources" (PyStr name)
                   else Ok role)
                  = if Value sv (NewBoolVar n r day s) then
                      q ← requirement_at self day s r;
                      name ← dict_get (resourcesLookup self) n;
                      py_append (dict_set role "Requirement" (PyTuple [PyInt q]))
                        "Resources" (PyStr name)
                    else Ok role) as Hbody.
  { intros role. unfold solver_Value. rewrite Hsv. cbn [of_option mbind result_bind rbind].
    rewrite vars_get_ok by done. cbn [mbind result_bind rbind].
    destruct (Value sv (NewBoolVar n r day s)); [|done].
    unfold requirement_at.
    destruct (of_option IndexError (requirementMapping self !! day)) as [dayReq|]; [|done].
    cbn [mbind result_bind rbind].
    destruct (of_option IndexError (dayReq !! s)) as [shiftReq|]; [|done].
    cbn [mbind result_bind rbind].
    destruct (dict_get shiftReq r); done. }
  destruct (Hnames _ Hn) as [name Hname].
  destruct (Value sv (NewBoolVar n r day s)) eqn:Hval.
  - rewrite decide_True by done.
    destruct (filter _ l) as [|a ns] eqn:Hf.
    + cbn [mbind result_bind rbind app]. rewrite Hbody.
      destruct (requirement_at self day s r) as [q|e]; [|done].
      cbn [mbind result_bind rbind]. unfold dict_get. rewrite Hname.
      cbn [of_option mbind result_bind rbind omap list_omap]. rewrite Hname. reflexivity.
    + cbn [app]. destruct (requirement_at self day s r) as [q|e] eqn:Hq; [|done].
      cbn [mbind result_bind rbind]. rewrite Hbody.
      cbn [mbind result_bind rbind]. unfold dict_get. rewrite Hname.
      cbn [of_option mbind result_bind rbind].
      rewrite app_comm_cons, omap_app. cbn [omap list_omap]. rewrite Hname.
      unfold role_entry. rewrite fmap_app. reflexivity.
  - rewrite decide_False by done.
    destruct (filter _ l) as [|a ns] eqn:Hf.
    + cbn [mbind result_bind rbind]. by rewrite Hbody.
    + destruct (requirement_at self day s r) as [q|e]; [|done].
      cbn [mbind result_bind rbind]. by rewrite Hbody.
Qed.

Lemma omap_total_length {A B} (f : A → option B) (l : list A) :
  (∀ x, x ∈ l → is_Some (f x)) → length (omap f l) = length l.
Proof.
  induction l as [|x l IH]; intros Hf; [done|]. cbn [omap list_omap].
  destruct (Hf x) as [y ->]; [left|]. simpl. f_equal. apply IH.
  intros z Hz. apply Hf. by right.
Qed.

Lemma staff_elem v self day s r n : n ∈ staff v self day s r → n < numResources self.
Proof. unfold staff. by intros [_ ?%elem_of_range]%list_elem_of_filter. Qed.

Lemma fold_result_ext {A S} (f g : A → S → result S) l s0 :
  (∀ x s, x ∈ l → f x s = g x s) → fold_result l f s0 = fold_result l g s0.
Proof.
  revert s0. induction l as [|x l IH]; intros s0 H; [done|]. simpl.
  rewrite H by left. destruct (g x s0); simpl; [|done].
  apply IH. intros y s Hy. apply H. by right.
Qed.

Lemma fold_result_Ok_or_Raise {A S} (body : A → S → result S) l s0 e :
  (∀ y s, y ∈ l → body y s = Raise e ∨ ∃ s', body y s = Ok s') →
  fold_result l body s0 = Raise e ∨ ∃ s', fold_result l body s0 = Ok s'.
Proof.
  revert s0. induction l as [|x l IH]; intros s0 H; simpl; [right; by eexists|].
  destruct (H x s0) as [->|[s1 ->]]; [left|by left|]; simpl.
  apply IH. intros y s Hy. apply H. by right.
Qed.

Lemma fold_result_some_Raise {A S} (body : A → S → result S) l s0 e x :
  (∀ y s, y ∈ l → body y s = Raise e ∨ ∃ s', body y s = Ok s') →
  x ∈ l → (∀ s, body x s = Raise e) →
  fold_result l body s0 = Raise e.
Proof.
  revert s0. induction l as [|y l IH]; intros s0 H Hx Hraise.
  - by apply elem_of_nil in Hx.
  - simpl. apply elem_of_cons in Hx as [<-|Hx]; [by rewrite Hraise|].
    destruct (H y s0) as [->|[s1 ->]]; [left|done|]; simpl.
    apply IH; [|done|done]. intros z s Hz. apply H. by right.
Qed.

Lemma getRosterByDay_role_value self sv day s r :
  vars_ok self → solver self = Some sv →
  day < numDays self → s < numShifts self → r < numRoles self →
  (∀ n, n < numResources self → is_Some (dict_find (resourcesLookup self) n)) →
  getRosterByDay_role self day s r
  = match staff (Value sv) self day s r with
    | [] => Ok [("Resources", PyList [])]
    | _ => q ← requirement_at self day s r;
           Ok (role_entry q (staff_names (Value sv) self day s r))
    end.
Proof.
  intros Hv Hsv Hday Hs Hr Hnames. unfold getRosterByDay_role, staff_names, staff.
  rewrite (getRosterByDay_role_prefix self sv) by
    (try done; apply Forall_forall; by intros n ?%elem_of_range).
  by destruct (filter _ _).
Qed.

Lemma getRosterByDay_shift_step self sv day s r shift :
  vars_ok self → solver self = Some sv →
  day < numDays self → s < numShifts self → r < numRoles self →
  (∀ n, n < numResources self → is_Some (dict_find (resourcesLookup self) n)) →
  (role ← getRosterByDay_role self day s r;
   len ← py_len role "Resources";
   if decide (len ≠ 0) then
     name ← dict_get (rolesLookup self) r;
     Ok (dict_set shift name (PyDict role))
   else Ok shift)
  = shift_step (Value sv) self day s r shift.
Proof.
  intros Hv Hsv Hday Hs Hr Hnames.
  rewrite (getRosterByDay_role_value self sv) by done. unfold shift_step.
  destruct (staff (Value sv) self day s r) as [|a ns] eqn:Hstaff; [reflexivity|].
  destruct (requirement_at self day s r) as [q|e]; [|done].
  cbn [mbind result_bind rbind]. unfold py_len.
  assert (dict_get (role_entry q (staff_names (Value sv) self day s r)) "Resources"
          = Ok (PyList (PyStr <$> staff_names (Value sv) self day s r))) as -> by reflexivity.
  cbn [mbind result_bind rbind].
  rewrite decide_True; [done|].
  rewrite length_fmap. unfold staff_names. rewrite omap_total_length.
  - rewrite Hstaff. done.
  - intros n Hn%staff_elem. by apply Hnames.
Qed.

Lemma getRosterByDay_shift_fold self sv day s :
  vars_ok self → solver self = Some sv →
  day < numDays self → s < numShifts self →
  (∀ n, n < numResources self → is_Some (dict_find (resourcesLookup self) n)) →
  getRosterByDay_shift self day s
  = fold_result (range (numRoles self)) (shift_step (Value sv) self day s)
      [("Shift", PyInt (Z.of_nat s))].
Proof.
  intros Hv Hsv Hday Hs Hnames. unfold getRosterByDay_shift.
  apply fold_result_ext. intros r shift Hr%elem_of_range.
  by apply getRosterByDay_shift_step.
Qed.

Lemma requirement_at_shape self day s r dayReq shiftReq :
  requirementMapping self !! day = Some dayReq → dayReq !! s = Some shiftReq →
  requirement_at self day s r = dict_get shiftReq r.
Proof.
  unfold requirement_at. intros H1 H2. rewrite H1. cbn [of_option mbind result_bind rbind].
  by rewrite H2.
Qed.

Lemma shift_step_Ok_or_KeyError self v day s r shift dayReq :
  (∀ r, r < numRoles self → is_Some (dict_find (rolesLookup self) r)) →
  requirementMapping self !! day = Some dayReq → s < length dayReq →
  r < numRoles self →
  shift_step v self day s r shift = Raise KeyError
  ∨ ∃ shift', shift_step v self day s r shift = Ok shift'.
Proof.
  intros Hroles Hday Hs Hr. unfold shift_step.
  destruct (staff v self day s r); [right; by eexists|].
  apply lookup_lt_is_Some in Hs as [shiftReq HshiftReq].
  rewrite (requirement_at_shape _ _ _ _ _ _ Hday HshiftReq). unfold dict_get.
  destruct (dict_find shiftReq r) as [q|]; [|by left].
  destruct (Hroles _ Hr) as [name ->]. right. by eexists.
Qed.

Lemma getRosterByDay_outcome self sv day dayReq :
  vars_ok self → solver self = Some sv → day < numDays self →
  (∀ n, n < numResources self → is_Some (dict_find (resourcesLookup self) n)) →
  (∀ r, r < numRoles self → is_Some (dict_find (rolesLookup self) r)) →
  requirementMapping self !! day = Some dayReq → numShifts self ≤ length dayReq →
  ((∀ s r shiftReq, s < numShifts self → r < numRoles self →
      dayReq !! s = Some shiftReq → staff (Value sv) self day s r ≠ [] →
      is_Some (dict_find shiftReq r)) →
   ∃ roster, getRosterByDay day self = Ok roster)
  ∧ (∀ s r shiftReq, s < numShifts self → r < numRoles self →
       dayReq !! s = Some shiftReq → staff (Value sv) self day s r ≠ [] →
       dict_find shiftReq r = None →
       getRosterByDay day self = Raise KeyError).
Proof.
  intros Hv Hsv Hday Hnames Hroles HdayReq Hlen.
  assert (∀ s cal, s ∈ range (numShifts self) →
            (shift ← getRosterByDay_shift self day s;
             if decide (1 ≤ length shift) then
               Ok (dict_set cal ("Shift " +:+ pretty s) (PyDict shift))
             else Ok cal) = Raise KeyError
            ∨ ∃ cal', (shift ← getRosterByDay_shift self day s;
                       if decide (1 ≤ length shift) then
                         Ok (dict_set cal ("Shift " +:+ pretty s) (PyDict shift))
                       else Ok cal) = Ok cal') as Hshifts.
  { intros s cal Hs%elem_of_range.
    rewrite (getRosterByDay_shift_fold self sv) by done.
    destruct (fold_result_Ok_or_Raise (shift_step (Value sv) self day s)
                (range (numRoles self)) [("Shift", PyInt (Z.of_nat s))] KeyError)
      as [->|[shift ->]].
    - intros r shift Hr%elem_of_range.
      apply (shift_step_Ok_or_KeyError _ _ _ _ _ _ dayReq); (done || lia).
    - by left.
    - right. cbn [mbind result_bind rbind]. case_decide; by eexists. }
  split.
  - intros Hcovered. unfold getRosterByDay. apply fold_result_total.
    intros s cal Hs%elem_of_range.
    rewrite (getRosterByDay_shift_fold self sv) by done.
    destruct (fold_result_total (shift_step (Value sv) self day s) (range (numRoles self))
                [("Shift", PyInt (Z.of_nat s))]) as [shift ->].
    + intros r shift Hr%elem_of_range. unfold shift_step.
      destruct (staff (Value sv) self day s r) as [|a ns] eqn:Hstaff; [by eexists|].
      destruct (lookup_lt_is_Some_2 dayReq s) as [shiftReq HshiftReq]; [lia|].
      rewrite (requirement_at_shape _ _ _ _ _ _ HdayReq HshiftReq). unfold dict_get.
      destruct (Hcovered s r shiftReq) as [q ->]; [done|done|done|by rewrite Hstaff|].
      destruct (Hroles _ Hr) as [name ->]. by eexists.
    + cbn [mbind result_bind rbind]. case_decide; by eexists.
  - intros s r shiftReq Hs Hr HshiftReq Hstaff Hmissing. unfold getRosterByDay.
    apply (fold_result_some_Raise _ _ _ _ s); [done|by apply elem_of_range|].
    intros cal. rewrite (getRosterByDay_shift_fold self sv) by done.
    rewrite (fold_result_some_Raise (shift_step (Value sv) self day s) _ _ KeyError r);
      [done| |by apply elem_of_range|].
    + intros r' shift Hr'%elem_of_range.
      apply (shift_step_Ok_or_KeyError _ _ _ _ _ _ dayReq); (done || lia).
    + intros shift. unfold shift_step.
      destruct (staff (Value sv) self day s r); [done|].
      rewrite (requirement_at_shape _ _ _ _ _ _ HdayReq HshiftReq). unfold dict_get.
      by rewrite Hmissing.
Qed.

Lemma fold_result_ind_elem {A S} (P : list A → S → Prop) (body : A → S → result S) l s0 s :
  P [] s0 →
  (∀ done x s s', x ∈ l → P done s → body x s = Ok s' → P (done ++ [x]) s') →
  fold_result l body s0 = Ok s → P l s.
Proof.
  intros H0 Hstep.
  assert (∀ pre s0, P pre s0 →
            (∀ done x s s', x ∈ l → P done s → body x s = Ok s' → P (done ++ [x]) s') →
            fold_result l body s0 = Ok s → P (pre ++ l) s) as Hgen.
  { clear. induction l as [|x l IH]; intros pre s0 H0 Hstep H; simpl in H.
    - injection H as <-. by rewrite app_nil_r.
    - apply bind_Ok in H as (s1 & H1 & H).
      rewrite (cons_middle x pre l), (assoc_L (++)).
      apply (IH _ s1); [|intros; eapply Hstep; [by right|done..]|done].
      apply (Hstep _ _ s0); [left|done|done]. }
  intros H. by apply (Hgen [] s0).
Qed.

Lemma shift_key_inj (s s' : nat) : "Shift " +:+ pretty s = "Shift " +:+ pretty s' → s = s'.
Proof. cbn [String.append]. intros [= H]. by apply (inj pretty). Qed.

Lemma day_key_not_shift (s : nat) : "Day" ≠ "Shift " +:+ pretty s.
Proof. cbn [String.append]. intros [=]. Qed.

(** The [shift] dictionary of one (day, shift): the shift number and one
    entry per staffed role. *)
Lemma getRosterByDay_shift_entries self sv day s shift :
  vars_ok self → solver self = Some sv →
  day < numDays self → s < numShifts self →
  (∀ n, n < numResources self → is_Some (dict_find (resourcesLookup self) n)) →
  (∀ r1 r2 role, r1 < numRoles self → r2 < numRoles self →
     dict_find (rolesLookup self) r1 = Some role →
     dict_find (rolesLookup self) r2 = Some role → r1 = r2) →
  (∀ r, r < numRoles self → dict_find (rolesLookup self) r ≠ Some "Shift") →
  getRosterByDay_shift self day s = Ok shift →
  dict_find shift "Shift" = Some (PyInt (Z.of_nat s))
  ∧ ∀ r role, r < numRoles self → dict_find (rolesLookup self) r = Some role →
      match staff (Value sv) self day s r with
      | [] => dict_find shift role = None
      | _ => ∃ q, requirement_at self day s r = Ok q
               ∧ dict_find shift role
                 = Some (PyDict (role_entry q (staff_names (Value sv) self day s r)))
      end.
Proof.
  intros Hv Hsv Hday Hs Hnames Hinj Hshift H.
  rewrite (getRosterByDay_shift_fold self sv) in H by done.
  pose (P := λ (done : list nat) (shift : dict string pyvalue),
    dict_find shift "Shift" = Some (PyInt (Z.of_nat s))
    ∧ (∀ k, k ∈ dict_keys shift →
         k = "Shift" ∨ ∃ r, r ∈ done ∧ r < numRoles self
                            ∧ dict_find (rolesLookup self) r = Some k)
    ∧ ∀ r role, r ∈ done → r < numRoles self →
        dict_find (rolesLookup self) r = Some role →
        match staff (Value sv) self day s r with
        | [] => dict_find shift role = None
        | _ => ∃ q, requirement_at self day s r = Ok q
                 ∧ dict_find shift role
                   = Some (PyDict (role_entry q (staff_names (Value sv) self day s r)))
        end).
  assert (P (range (numRoles self)) shift) as (HS & _ & Hentries).
  { revert H. apply fold_result_ind_elem.
    - split; [done|]. split.
      + intros k Hk. apply list_elem_of_singleton in Hk. by left.
      + by intros r role ?%elem_of_nil.
    - intros done x sh sh' Hx%elem_of_range (IS & IK & IE) Hstep.
      unfold shift_step in Hstep.
      destruct (staff (Value sv) self day s x) as [|a ns] eqn:Hstaff.
      + injection Hstep as <-. split; [done|]. split.
        * intros k Hk. destruct (IK k Hk) as [?|(r & Hr & ? & ?)]; [by left|right].
          exists r. split; [apply elem_of_app; by left|done].
        * intros r role [Hr|Hr%list_elem_of_singleton]%elem_of_app Hlt Hrole.
          { by apply IE. }
          subst r. rewrite Hstaff.
          destruct (dict_find sh role) as [e|] eqn:He; [exfalso|done].
          apply dict_find_Some_key in He.
          destruct (IK role He) as [->|(r' & Hr' & Hlt' & Hrole')].
          { by apply (Hshift x). }
          assert (r' = x) as -> by (by apply (Hinj r' x role)).
          specialize (IE x role Hr' Hlt Hrole). rewrite Hstaff in IE.
          apply dict_find_key in He as [? ?]. congruence.
      + apply bind_Ok in Hstep as (q & Hq & Hstep).
        apply bind_Ok in Hstep as (name & Hname%dict_get_Ok & [= <-]).
        split; [|split].
        * rewrite dict_find_set, decide_False; [done|].
          intros <-. by apply (Hshift x).
        * intros k [->|Hk]%dict_keys_set.
          { right. exists x. split; [apply elem_of_app; right; left|done]. }
          destruct (IK k Hk) as [?|(r & Hr & ? & ?)]; [by left|right].
          exists r. split; [apply elem_of_app; by left|done].
        * intros r role Hr Hlt Hrole. rewrite dict_find_set.
          destruct (decide (role = name)) as [->|Hne].
          { assert (r = x) as -> by (by apply (Hinj r x name)).
            rewrite Hstaff. by exists q. }
          apply elem_of_app in Hr as [Hr|Hr%list_elem_of_singleton].
          { by apply IE. }
          subst r. congruence. }
  split; [done|]. intros r role Hr Hrole. apply Hentries; [by apply elem_of_range|done..].
Qed.

Lemma getRosterByDay_entries self sv day roster :
  vars_ok self → solver self = Some sv → day < numDays self →
  (∀ n, n < numResources self → is_Some (dict_find (resourcesLookup self) n)) →
  (∀ r1 r2 role, r1 < numRoles self → r2 < numRoles self →
     dict_find (rolesLookup self) r1 = Some role →
     dict_find (rolesLookup self) r2 = Some role → r1 = r2) →
  (∀ r, r < numRoles self → dict_find (rolesLookup self) r ≠ Some "Shift") →
  getRosterByDay day self = Ok roster →
  dict_find roster "Day" = Some (PyInt (Z.of_nat day))
  ∧ ∀ s, s < numShifts self →
      ∃ shift,
        dict_find roster ("Shift " +:+ pretty s) = Some (PyDict shift)
        ∧ dict_find shift "Shift" = Some (PyInt (Z.of_nat s))
        ∧ ∀ r role, r < numRoles self → dict_find (rolesLookup self) r = Some role →
            match staff (Value sv) self day s r with
            | [] => dict_find shift role = None
            | _ => ∃ q, requirement_at self day s r = Ok q
                     ∧ dict_find shift role
                       = Some (PyDict (role_entry q (staff_names (Value sv) self day s r)))
            end.
Proof.
  intros Hv Hsv Hday Hnames Hinj Hshift H. unfold getRosterByDay in H.
  pose (P := λ (done : list nat) (cal : dict string pyvalue),
    dict_find cal "Day" = Some (PyInt (Z.of_nat day))
    ∧ ∀ s, s ∈ done →
        ∃ shift, getRosterByDay_shift self day s = Ok shift
                 ∧ dict_find cal ("Shift " +:+ pretty s) = Some (PyDict shift)).
  assert (P (range (numShifts self)) roster) as (HD & Hshifts).
  { revert H. apply fold_result_ind_elem.
    - split; [done|]. by intros s ?%elem_of_nil.
    - intros done x cal cal' Hx%elem_of_range (ID & IS) Hstep.
      apply bind_Ok in Hstep as (shift & Hsh & Hstep).
      destruct (getRosterByDay_shift_entries self sv day x shift) as [HS _]; try done.
      rewrite decide_True in Hstep by (destruct shift; [done|simpl; lia]).
      injection Hstep as <-. split.
      + rewrite dict_find_set, decide_False by apply day_key_not_shift. done.
      + intros s Hs. rewrite dict_find_set.
        destruct (decide ("Shift " +:+ pretty s = "Shift " +:+ pretty x)) as [He|Hne].
        * apply shift_key_inj in He as ->. by exists shift.
        * apply elem_of_app in Hs as [Hs|Hs%list_elem_of_singleton]; [by apply IS|].
          by subst s. }
  split; [done|]. intros s Hs.
  destruct (Hshifts s) as (shift & Hsh & Hfind); [by apply elem_of_range|].
  exists shift. split; [done|].
  by apply (getRosterByDay_shift_entries self sv day s shift).
Qed.

(** ** The rosters of all resources and of all days *)

Lemma range_snoc n : range (S n) = range n ++ [n].
Proof. unfold range. by rewrite seq_S. Qed.

Lemma Forall2_keys {A K V} (f : A → K) (R : A → K * V → Prop) (l : list A)
    (d : list (K * V)) :
  (∀ a entry, R a entry → entry.1 = f a) → Forall2 R l d → d.*1 = f <$> l.
Proof.
  intros HR. induction 1 as [|a entry l d Ha _ IH]; [done|].
  rewrite !fmap_cons, IH. f_equal. by apply HR.
Qed.

Lemma NoDup_not_in_take {A} (l : list A) k x :
  NoDup l → l !! k = Some x → x ∉ take k l.
Proof.
  intros Hnd Hk Hin. destruct (proj1 (list_elem_of_lookup _ _) Hin) as [i Hi].
  pose proof (lookup_lt_Some _ _ _ Hi) as Hlt. rewrite length_take in Hlt.
  rewrite lookup_take_lt in Hi by lia.
  assert (i = k) by (by apply (NoDup_lookup l i k x)). lia.
Qed.

Lemma getRosterAllResources_value self sv names :
  vars_ok self → solver self = Some sv →
  (∀ r, r < numRoles self → is_Some (dict_find (rolesLookup self) r)) →
  NoDup names → numResources self = length names →
  (∀ n name, names !! n = Some name →
     dict_find (resourcesLookup self) n = Some name
     ∧ dict_find (resourceIdLookup self) name = Some n) →
  ∃ calendar,
    getRosterAllResources self = Ok calendar
    ∧ Forall2 (λ name entry, ∃ roster, getRosterByResource name self = Ok roster
                                        ∧ entry = (name, PyDict roster))
        names calendar.
Proof.
  intros Hv Hsv Hroles Hnd HN Hreg. unfold getRosterAllResources. rewrite HN.
  assert (∀ k, k ≤ length names →
    ∃ calendar,
      fold_result (range k) (λ n calendar,
        key ← dict_get (resourcesLookup self) n;
        name ← dict_get (resourcesLookup self) n;
        roster ← getRosterByResource name self;
        Ok (dict_set calendar key (PyDict roster))) [] = Ok calendar
      ∧ Forall2 (λ name entry, ∃ roster, getRosterByResource name self = Ok roster
                                          ∧ entry = (name, PyDict roster))
          (take k names) calendar) as Hgen.
  { induction k as [|k IH]; intros Hk.
    - exists []. split; [done|]. rewrite take_0. constructor.
    - destruct IH as (cal & Hcal & HF); [lia|].
      destruct (lookup_lt_is_Some_2 names k) as [name Hname]; [lia|].
      destruct (Hreg _ _ Hname) as [Hn Hid].
      destruct (getRosterByResource_value self sv name k) as (roster & Hroster & _);
        [done|done|done|lia|done|].
      rewrite range_snoc, fold_result_app, Hcal. cbn [mbind result_bind rbind fold_result].
      unfold dict_get. rewrite Hn. cbn [of_option mbind result_bind rbind].
      rewrite Hroster. cbn [mbind result_bind rbind].
      eexists. split; [reflexivity|].
      rewrite dict_set_fresh.
      + rewrite (take_S_r _ _ _ Hname). apply Forall2_app; [done|].
        constructor; [|constructor]. by exists roster.
      + assert (dict_keys cal = id <$> take k names) as ->.
        { eapply Forall2_keys; [|exact HF]. by intros a e (? & _ & ->). }
        rewrite list_fmap_id. by apply NoDup_not_in_take. }
  destruct (Hgen (length names)) as (calendar & Hcal & HF); [done|].
  rewrite firstn_all in HF. by exists calendar.
Qed.

Lemma all_days_key_inj (d d' : nat) : "Day " +:+ pretty d = "Day " +:+ pretty d' → d = d'.
Proof. cbn [String.append]. intros [= H]. by apply (inj pretty). Qed.

Lemma getRosterAllDays_value self calendar :
  getRosterAllDays self = Ok calendar
  ↔ Forall2 (λ d entry, ∃ roster, getRosterByDay d self = Ok roster
                                   ∧ entry = ("Day " +:+ pretty d, PyDict roster))
      (range (numDays self)) calendar.
Proof.
  unfold getRosterAllDays.
  assert (∀ k calendar,
    fold_result (range k) (λ d Calendar,
      roster ← getRosterByDay d self;
      Ok (dict_set Calendar ("Day " +:+ pretty d) (PyDict roster))) [] = Ok calendar
    ↔ Forall2 (λ d entry, ∃ roster, getRosterByDay d self = Ok roster
                                     ∧ entry = ("Day " +:+ pretty d, PyDict roster))
        (range k) calendar) as Hgen; [|apply Hgen].
  clear calendar. induction k as [|k IH]; intros calendar.
  - simpl. split.
    + intros [= <-]. constructor.
    + intros H. by apply Forall2_nil_inv_l in H as ->.
  - assert (∀ cal, Forall2 (λ d entry, ∃ roster, getRosterByDay d self = Ok roster
                              ∧ entry = ("Day " +:+ pretty d, PyDict roster))
                     (range k) cal →
                   "Day " +:+ pretty k ∉ dict_keys cal) as Hfresh.
    { intros cal HF.
      assert (dict_keys cal = (λ d : nat, "Day " +:+ pretty d) <$> range k) as ->.
      { eapply Forall2_keys; [|exact HF]. by intros a e (? & _ & ->). }
      intros (d & Hd%all_days_key_inj & Hin%elem_of_range)%list_elem_of_fmap. lia. }
    rewrite range_snoc, fold_result_app. split.
    + intros H. apply bind_Ok in H as (cal & Hcal & H).
      cbn [fold_result] in H. apply bind_Ok in H as (cal' & H & [= <-]).
      apply bind_Ok in H as (roster & Hroster & [= <-]).
      apply IH in Hcal. rewrite dict_set_fresh by by apply Hfresh.
      apply Forall2_app; [done|]. constructor; [|constructor]. by exists roster.
    + intros H. apply Forall2_app_inv_l in H as (cal & last & Hcal & Hlast & ->).
      apply Forall2_cons_inv_l in Hlast as (entry & rest & (roster & Hroster & ->) & Hrest & ->).
      apply Forall2_nil_inv_l in Hrest as ->.
      pose proof (Hfresh _ Hcal) as Hk. apply IH in Hcal. rewrite Hcal.
      cbn [mbind result_bind rbind fold_result]. rewrite Hroster.
      cbn [mbind result_bind rbind]. by rewrite dict_set_fresh.
Qed.

(** ** Rosters of a solved session *)

Lemma HospitalSolver_solve_inv engine args self st ret :
  HospitalSolver_solve engine args self = Ok (st, ret) →
  ∃ built sv, HospitalSolver_build args self = Ok built ∧ st = set_solver sv built.
Proof.
  unfold HospitalSolver_solve, solve. intros H.
  apply bind_Ok in H as (built & Hbuilt & H).
  unfold _finalSolve in H. cbn [fst snd] in H. injection H as <- _.
  by eexists _, _.
Qed.

Lemma registry_lookup_resources arg reg n name :
  _createEmployeeRoleLookup_registry arg = Ok reg →
  first_seen (dict_keys arg) !! n = Some name →
  dict_find (reg_resourcesLookup reg) n = Some name
  ∧ dict_find (reg_resourceIdLookup reg) name = Some n.
Proof.
  intros Hreg Hn. destruct (registry_fields _ _ Hreg) as (_ & _ & -> & -> & _ & _).
  split; [by apply names_of_first_seen|by apply ids_of_first_seen].
Qed.

Lemma registry_roles_total arg reg r :
  _createEmployeeRoleLookup_registry arg = Ok reg →
  r < reg_numRoles reg → is_Some (dict_find (reg_rolesLookup reg) r).
Proof.
  intros Hreg Hr. destruct (registry_fields _ _ Hreg) as (_ & ER & _ & _ & -> & _).
  rewrite ER in Hr. apply lookup_lt_is_Some in Hr as [role Hrole].
  exists role. by apply names_of_first_seen.
Qed.

Lemma solved_session_rosters engine args self st ret :
  HospitalSolver_solve engine args self = Ok (st, ret) →
  ∃ calendar,
    getRosterAllResources st = Ok calendar
    ∧ Forall2 (λ name entry, ∃ roster, getRosterByResource name st = Ok roster
                                        ∧ entry = (name, PyDict roster))
        (first_seen (dict_keys (args0 args))) calendar.
Proof.
  intros (built & sv & Hbuilt & ->)%HospitalSolver_solve_inv.
  destruct (HospitalSolver_build_constructed _ _ _ Hbuilt) as [[] _ _ _ _].
  apply (getRosterAllResources_value _ sv).
  - exact c_vars0.
  - reflexivity.
  - intros r Hr. by apply (registry_roles_total _ _ _ c_registry0).
  - apply first_seen_NoDup.
  - destruct (registry_fields _ _ c_registry0) as (EN & _). exact EN.
  - intros n name Hn. by apply (registry_lookup_resources _ _ _ _ c_registry0).
Qed.

(** X13: After a [HospitalSolver.solve] that did not raise and whose engine
    answered [OPTIMAL] or [FEASIBLE] (the statuses that come with a
    valuation), [getRosterAllResources] succeeds, and its result lists, in
    input order and once per distinct resource key of the map, the resource's
    name with the roster [getRosterByResource] returns for it. *)
Theorem roster_all_resources_after_solve engine args self st ret sv :
  HospitalSolver_solve engine args self = Ok (st, ret) →
  solver st = Some sv →
  solve_status sv = OPTIMAL ∨ solve_status sv = FEASIBLE →
  ∃ calendar,
    getRosterAllResources st = Ok calendar
    ∧ Forall2 (λ name entry, ∃ roster, getRosterByResource name st = Ok roster
                                        ∧ entry = (name, PyDict roster))
        (first_seen (dict_keys (args0 args))) calendar.
Proof. intros H _ _. by apply (solved_session_rosters engine args self st ret). Qed.

Lemma roster_all_resources_after_solve_witness :
  ∃ calendar,
    getRosterAllResources demo_solved = Ok calendar
    ∧ Forall2 (λ name entry, ∃ roster, getRosterByResource name demo_solved = Ok roster
                                        ∧ entry = (name, PyDict roster))
        (first_seen (dict_keys (args0 demo_args))) calendar.
Proof.
  apply (roster_all_resources_after_solve demo_engine demo_args (HospitalSolver_init 4)
           demo_solved None demo_answer).
  - vm_compute. reflexivity.
  - reflexivity.
  - left. reflexivity.
Defined.

(** X14: [getRosterAllDays] succeeds exactly when [getRosterByDay] succeeds for
    every day of the session, and its result then lists the days in order,
    day [d] under the key ["Day d"] with the roster [getRosterByDay] returns. *)
Theorem roster_all_days_entries self calendar :
  getRosterAllDays self = Ok calendar
  ↔ Forall2 (λ d entry, ∃ roster, getRosterByDay d self = Ok roster
                                   ∧ entry = ("Day " +:+ pretty d, PyDict roster))
      (range (numDays self)) calendar.
Proof. apply getRosterAllDays_value. Qed.

(** X15: On a solved session whose requirement mapping covers the day,
    [getRosterByDay] succeeds when every staffed (shift, role) has a
    requirement entry, and raises [KeyError] as soon as the valuation staffs
    some (shift, role) for which the requirement mapping has no entry. *)
Theorem roster_by_day_outcome self sv day dayReq :
  vars_ok self → solver self = Some sv → day < numDays self →
  (∀ n, n < numResources self → is_Some (dict_find (resourcesLookup self) n)) →
  (∀ r, r < numRoles self → is_Some (dict_find (rolesLookup self) r)) →
  requirementMapping self !! day = Some dayReq → numShifts self ≤ length dayReq →
  ((∀ s r shiftReq, s < numShifts self → r < numRoles self →
      dayReq !! s = Some shiftReq → staff (Value sv) self day s r ≠ [] →
      is_Some (dict_find shiftReq r)) →
   ∃ roster, getRosterByDay day self = Ok roster)
  ∧ (∀ s r shiftReq, s < numShifts self → r < numRoles self →
       dayReq !! s = Some shiftReq → staff (Value sv) self day s r ≠ [] →
       dict_find shiftReq r = None →
       getRosterByDay day self = Raise KeyError).
Proof. apply getRosterByDay_outcome. Qed.

Lemma roster_by_day_outcome_witness :
  ((∀ s r shiftReq, s < numShifts demo_overstaffed → r < numRoles demo_overstaffed →
      [[]; []; []] !! s = Some shiftReq →
      staff (Value overstaffed_answer) demo_overstaffed 1 s r ≠ [] →
      is_Some (dict_find (shiftReq : dict nat Z) r)) →
   ∃ roster, getRosterByDay 1 demo_overstaffed = Ok roster)
  ∧ (∀ s r shiftReq, s < numShifts demo_overstaffed → r < numRoles demo_overstaffed →
       [[]; []; []] !! s = Some shiftReq →
       staff (Value overstaffed_answer) demo_overstaffed 1 s r ≠ [] →
       dict_find (shiftReq : dict nat Z) r = None →
       getRosterByDay 1 demo_overstaffed = Raise KeyError).
Proof.
  apply (roster_by_day_outcome demo_overstaffed overstaffed_answer 1 [[]; []; []]).
  - vm_compute. reflexivity.
  - reflexivity.
  - vm_compute. lia.
  - intros n Hn. vm_compute in Hn. destruct n as [|[|n]]; [by eexists|by eexists|lia].
  - intros r Hr. vm_compute in Hr. destruct r as [|[|r]]; [by eexists|by eexists|lia].
  - vm_compute. reflexivity.
  - vm_compute. lia.
Defined.

(** The model built for [demo_args] accepts [overstaffed_valuation], which
    staffs role R1 on day 1, shift 0, where no requirement is stated; the
    per-day roster of day 1 and [getRosterAllDays] then fail with a key
    error, while the per-resource rosters are produced. *)
Example roster_by_day_key_error :
  accepted overstaffed_valuation (model demo_built)
  ∧ HospitalSolver_solve (λ _ _ _, (OPTIMAL, overstaffed_valuation)) demo_args
      (HospitalSolver_init 4) = Ok (demo_overstaffed, None)
  ∧ getRosterByDay 1 demo_overstaffed = Raise KeyError
  ∧ getRosterAllDays demo_overstaffed = Raise KeyError
  ∧ getRosterByResource "A" demo_overstaffed
    = Ok [("Resource", PyStr "A");
          ("Day_1", PyDict [("Role", PyStr "R1"); ("Shift", PyInt 0)])].
Proof.
  split; [apply acceptedb_accepted; vm_compute; reflexivity|].
  repeat split; vm_compute; reflexivity.
Qed.

(** X16: On a solved session whose role names are distinct and none of which is
    ["Shift"], a successful [getRosterByDay] holds the day number under
    ["Day"] and, for EVERY shift of the session, under ["Shift s"], a
    dictionary with the shift number under ["Shift"] and, under the name of
    each role, the names of the resources the valuation puts on it (in index
    order) with its requirement as a 1-tuple; a role nobody works has no
    entry. *)
Theorem roster_by_day_entries self sv day roster :
  vars_ok self → solver self = Some sv → day < numDays self →
  (∀ n, n < numResources self → is_Some (dict_find (resourcesLookup self) n)) →
  (∀ r1 r2 role, r1 < numRoles self → r2 < numRoles self →
     dict_find (rolesLookup self) r1 = Some role →
     dict_find (rolesLookup self) r2 = Some role → r1 = r2) →
  (∀ r, r < numRoles self → dict_find (rolesLookup self) r ≠ Some "Shift") →
  getRosterByDay day self = Ok roster →
  dict_find roster "Day" = Some (PyInt (Z.of_nat day))
  ∧ ∀ s, s < numShifts self →
      ∃ shift,
        dict_find roster ("Shift " +:+ pretty s) = Some (PyDict shift)
        ∧ dict_find shift "Shift" = Some (PyInt (Z.of_nat s))
        ∧ ∀ r role, r < numRoles self → dict_find (rolesLookup self) r = Some role →
            match staff (Value sv) self day s r with
            | [] => dict_find shift role = None
            | _ => ∃ q, requirement_at self day s r = Ok q
                     ∧ dict_find shift role
                       = Some (PyDict (role_entry q (staff_names (Value sv) self day s r)))
            end.
Proof. apply getRosterByDay_entries. Qed.

Lemma roster_by_day_entries_witness :
  dict_find
    [("Day", PyInt 0);
     ("Shift 0",
      PyDict [("Shift", PyInt 0);
              ("R1", PyDict [("Resources", PyList [PyStr "B"]);
                             ("Requirement", PyTuple [PyInt 1])])]);
     ("Shift 1", PyDict [("Shift", PyInt 1)]);
     ("Shift 2", PyDict [("Shift", PyInt 2)])] "Day" = Some (PyInt (Z.of_nat 0))
  ∧ ∀ s, s < numShifts demo_solved →
      ∃ shift,
        dict_find
          [("Day", PyInt 0);
           ("Shift 0",
            PyDict [("Shift", PyInt 0);
                    ("R1", PyDict [("Resources", PyList [PyStr "B"]);
                                   ("Requirement", PyTuple [PyInt 1])])]);
           ("Shift 1", PyDict [("Shift", PyInt 1)]);
           ("Shift 2", PyDict [("Shift", PyInt 2)])] ("Shift " +:+ pretty s)
        = Some (PyDict shift)
        ∧ dict_find shift "Shift" = Some (PyInt (Z.of_nat s))
        ∧ ∀ r role, r < numRoles demo_solved →
            dict_find (rolesLookup demo_solved) r = Some role →
            match staff (Value demo_answer) demo_solved 0 s r with
            | [] => dict_find shift role = None
            | _ => ∃ q, requirement_at demo_solved 0 s r = Ok q
                     ∧ dict_find shift role
                       = Some (PyDict (role_entry q
                                 (staff_names (Value demo_answer) demo_solved 0 s r)))
            end.
Proof.
  apply (roster_by_day_entries demo_solved demo_answer 0).
  - vm_compute. reflexivity.
  - reflexivity.
  - vm_compute. lia.
  - intros n Hn. vm_compute in Hn. destruct n as [|[|n]]; [by eexists|by eexists|lia].
  - intros r1 r2 role H1 H2. vm_compute in H1, H2.
    destruct r1 as [|[|r1]]; [| |lia]; (destruct r2 as [|[|r2]]; [| |lia]);
      vm_compute; congruence.
  - intros r Hr. vm_compute in Hr.
    destruct r as [|[|r]]; [vm_compute; discriminate|vm_compute; discriminate|lia].
  - vm_compute. reflexivity.
Defined.

(** A role named ["Shift"] takes the place of the shift number: the entry of
    the staffed role overwrites it. *)
Example roster_by_day_role_named_Shift :
  (HospitalSolver_solve (λ _ _ _, (OPTIMAL, λ x, bool_decide (x = NewBoolVar 0 0 0 0)))
     shift_role_args (HospitalSolver_init 4)
   ≫= λ out, getRosterByDay 0 out.1)
  = Ok [("Day", PyInt 0);
        ("Shift 0",
         PyDict [("Shift", PyDict [("Resources", PyList [PyStr "A"]);
                                   ("Requirement", PyTuple [PyInt 1])])]);
        ("Shift 1", PyDict [("Shift", PyInt 1)]);
        ("Shift 2", PyDict [("Shift", PyInt 2)])].
Proof. vm_compute. reflexivity. Qed.

(** ** Reusing a session *)

Lemma Add_agree_env cs a b :
  env a = env b → model a = model b →
  env (Add cs a) = env (Add cs b) ∧ model (Add cs a) = model (Add cs b).
Proof. intros He Hm. split; [exact He|]. unfold Add. simpl. by rewrite Hm. Qed.

Lemma Add_agree cs a b :
  env_req a = env_req b → model a = model b →
  env_req (Add cs a) = env_req (Add cs b) ∧ model (Add cs a) = model (Add cs b).
Proof. intros He Hm. split; [exact He|]. unfold Add. simpl. by rewrite Hm. Qed.

Lemma base_steps_agree arg a b st :
  env a = env b → model a = model b →
  (self ← _removeExtraRoles a;
   self ← _createRequirementMapping arg self;
   self ← _setRequirementConstraint self;
   _maxOneShiftPerDay self) = Ok st →
  ∃ st', (self ← _removeExtraRoles b;
          self ← _createRequirementMapping arg self;
          self ← _setRequirementConstraint self;
          _maxOneShiftPerDay self) = Ok st'
         ∧ env_req st = env_req st' ∧ model st = model st'.
Proof.
  intros He Hm H.
  apply bind_Ok in H as (a2 & Ha2 & H). unfold _removeExtraRoles in Ha2 |- *.
  apply bind_Ok in Ha2 as (cs & Hcs & [= <-]).
  rewrite <- (_removeExtraRoles_adds_env a b He), Hcs. cbn [mbind result_bind rbind].
  destruct (Add_agree_env cs a b He Hm) as [He2 Hm2].
  set (a2 := Add cs a) in *. set (b2 := Add cs b) in *. clearbody a2 b2. clear Hcs He Hm.
  apply bind_Ok in H as (a3 & Ha3 & H). unfold _createRequirementMapping in Ha3 |- *.
  apply bind_Ok in Ha3 as (m & Hmap & [= <-]).
  rewrite <- (_createRequirementMapping_value_env arg a2 b2 He2), Hmap.
  cbn [mbind result_bind rbind].
  assert (env_req (set_requirementMapping m a2) = env_req (set_requirementMapping m b2)) as He3.
  { unfold env_req. f_equal. exact He2. }
  assert (model (set_requirementMapping m a2) = model (set_requirementMapping m b2)) as Hm3
    by exact Hm2.
  set (a3 := set_requirementMapping m a2) in *. set (b3 := set_requirementMapping m b2) in *.
  clearbody a3 b3. clear Hmap He2 Hm2.
  apply bind_Ok in H as (a4 & Ha4 & H). unfold _setRequirementConstraint in Ha4 |- *.
  apply bind_Ok in Ha4 as (cs4 & Hcs4 & [= <-]).
  rewrite <- (_setRequirementConstraint_adds_env a3 b3 He3), Hcs4.
  cbn [mbind result_bind rbind].
  destruct (Add_agree cs4 a3 b3 He3 Hm3) as [He4 Hm4].
  set (a4 := Add cs4 a3) in *. set (b4 := Add cs4 b3) in *. clearbody a4 b4.
  clear Hcs4 He3 Hm3.
  unfold _maxOneShiftPerDay in H |- *.
  apply bind_Ok in H as (cs5 & Hcs5 & [= <-]).
  rewrite <- (_maxOneShiftPerDay_adds_env a4 b4 (env_req_env _ _ He4)), Hcs5.
  cbn [mbind result_bind rbind]. eexists. split; [reflexivity|].
  by apply Add_agree.
Qed.

Lemma hospital_steps_agree args a b st :
  env_req a = env_req b → model a = model b →
  HospitalSolver_childConstraints args a = Ok st →
  ∃ st', HospitalSolver_childConstraints args b = Ok st'
         ∧ env_req st = env_req st' ∧ model st = model st'
         ∧ non_sequential_shifts_indices st = non_sequential_shifts_indices st'.
Proof.
  intros He Hm H. unfold HospitalSolver_childConstraints in H |- *.
  pose proof (env_req_env _ _ He) as Hee.
  apply bind_Ok in H as (a2 & Ha2 & H). unfold _dayAfterNight, _nextDayShift in Ha2 |- *.
  apply bind_Ok in Ha2 as (m & Hmat & Ha2).
  apply bind_Ok in Ha2 as (cs & Hcs & [= <-]).
  rewrite <- (_nextDayShift_matrix_env _ a b Hee), Hmat. cbn [mbind result_bind rbind].
  rewrite <- (_nextDayShift_adds_env (set_non_sequential m a) (set_non_sequential m b)),
    Hcs by done.
  cbn [mbind result_bind rbind].
  assert (env_req (Add cs (set_non_sequential m a)) = env_req (Add cs (set_non_sequential m b)))
    as He2 by exact He.
  assert (model (Add cs (set_non_sequential m a)) = model (Add cs (set_non_sequential m b)))
    as Hm2.
  { unfold Add. simpl. by rewrite Hm. }
  assert (non_sequential_shifts_indices (Add cs (set_non_sequential m a))
          = non_sequential_shifts_indices (Add cs (set_non_sequential m b))) as Hn2
    by reflexivity.
  set (a2 := Add cs (set_non_sequential m a)) in *.
  set (b2 := Add cs (set_non_sequential m b)) in *. clearbody a2 b2.
  clear Hcs Hmat He Hm Hee.
  pose proof (env_req_env _ _ He2) as Hee2.
  apply bind_Ok in H as (a3 & Ha3 & H). unfold _hardLeave in Ha3 |- *.
  apply bind_Ok in Ha3 as (cs3 & Hcs3 & [= <-]).
  rewrite <- (_hardLeave_adds_env _ a2 b2 Hee2), Hcs3. cbn [mbind result_bind rbind].
  destruct (Add_agree cs3 a2 b2 He2 Hm2) as [He3 Hm3].
  assert (non_sequential_shifts_indices (Add cs3 a2)
          = non_sequential_shifts_indices (Add cs3 b2)) as Hn3 by exact Hn2.
  set (a3 := Add cs3 a2) in *. set (b3 := Add cs3 b2) in *. clearbody a3 b3.
  clear Hcs3 He2 Hm2 Hee2 Hn2.
  pose proof (env_req_env _ _ He3) as Hee3.
  unfold _softLeave in H |- *.
  apply bind_Ok in H as (g & Hg & H). apply bind_Ok in H as (e & Hobj & [= <-]).
  rewrite <- (_softLeave_grid_env _ a3 b3 Hee3), Hg. cbn [mbind result_bind rbind].
  rewrite <- (_softLeave_objective_env g a3 b3 Hee3), Hobj. cbn [mbind result_bind rbind].
  eexists. split; [reflexivity|]. split; [exact He3|]. split; [|exact Hn3].
  unfold Minimize. simpl. by rewrite Hm3.
Qed.

Lemma hospital_build_agree args s s' st :
  HospitalSolver_build args s = Ok st →
  ∃ st', HospitalSolver_build args s' = Ok st'
         ∧ model st' = model st ∧ env_req st' = env_req st
         ∧ non_sequential_shifts_indices st' = non_sequential_shifts_indices st.
Proof.
  unfold HospitalSolver_build, build. intros H.
  destruct (args1 args !! 0) as [day0|] eqn:H0; [|done].
  cbn [of_option mbind result_bind rbind] in H |- *.
  apply bind_Ok in H as (s1 & H1 & H).
  unfold _createEmployeeRoleLookup in H1 |- *.
  apply bind_Ok in H1 as (reg & Hreg & [= <-]). rewrite Hreg.
  cbn [mbind result_bind rbind].
  set (a := _createVars (set_registry reg
              (set_shape (length (args1 args)) (length day0) (_createModel s)))) in *.
  set (b := _createVars (set_registry reg
              (set_shape (length (args1 args)) (length day0) (_createModel s')))).
  assert (env a = env b) as He by reflexivity.
  assert (model a = model b) as Hm by reflexivity.
  clearbody a b.
  destruct (_removeExtraRoles a) as [a2|] eqn:Ha2; [|done].
  cbn [mbind result_bind rbind] in H.
  destruct (_createRequirementMapping (args1 args) a2) as [a3|] eqn:Ha3; [|done].
  cbn [mbind result_bind rbind] in H.
  destruct (_setRequirementConstraint a3) as [a4|] eqn:Ha4; [|done].
  cbn [mbind result_bind rbind] in H.
  destruct (_maxOneShiftPerDay a4) as [a5|] eqn:Ha5; [|done].
  cbn [mbind result_bind rbind] in H.
  destruct (base_steps_agree (args1 args) a b a5 He Hm) as (b5 & Hb5 & He5 & Hm5).
  { rewrite Ha2. cbn [mbind result_bind rbind]. rewrite Ha3. cbn [mbind result_bind rbind].
    rewrite Ha4. cbn [mbind result_bind rbind]. exact Ha5. }
  destruct (_removeExtraRoles b) as [b2|]; [|done].
  cbn [mbind result_bind rbind] in Hb5 |- *.
  destruct (_createRequirementMapping (args1 args) b2) as [b3|]; [|done].
  cbn [mbind result_bind rbind] in Hb5 |- *.
  destruct (_setRequirementConstraint b3) as [b4|]; [|done].
  cbn [mbind result_bind rbind] in Hb5 |- *.
  rewrite Hb5. cbn [mbind result_bind rbind].
  destruct (hospital_steps_agree args a5 b5 st He5 Hm5 H) as (st' & Hst' & ? & ? & ?).
  exists st'. done.
Qed.

(** X17: What [HospitalSolver.solve] constructs does not depend on what the
    session held before the call: from any two sessions the construction
    succeeds or fails alike, and on success the models, shapes, registries,
    variables, requirement mappings and compatibility matrices are equal. *)
Theorem hospital_build_forgets_history args s s' st :
  HospitalSolver_build args s = Ok st →
  ∃ st', HospitalSolver_build args s' = Ok st'
         ∧ model st' = model st ∧ env_req st' = env_req st
         ∧ non_sequential_shifts_indices st' = non_sequential_shifts_indices st.
Proof. apply hospital_build_agree. Qed.

Lemma hospital_build_forgets_history_witness :
  ∃ st', HospitalSolver_build demo_args demo_overstaffed = Ok st'
         ∧ model st' = model demo_built ∧ env_req st' = env_req demo_built
         ∧ non_sequential_shifts_indices st' = non_sequential_shifts_indices demo_built.
Proof.
  apply (hospital_build_forgets_history demo_args (HospitalSolver_init 4) demo_overstaffed
           demo_built).
  vm_compute. reflexivity.
Defined.

(** Inputs on which the construction of [HospitalSolver] fails: a hard leave
    for a resource that is not in the map, a soft leave for a day outside the
    matrix, and a matrix with two shifts per day. *)
Example hospital_build_fails :
  HospitalSolver_build
    {| args0 := [("A", ["R1"])]; args1 := [[ []; []; [] ]];
       args2 := [("B", 0)]; args3 := [] |} (HospitalSolver_init 4) = Raise KeyError
  ∧ HospitalSolver_build
      {| args0 := [("A", ["R1"])]; args1 := [[ []; []; [] ]];
         args2 := []; args3 := [("A", 1, 1 # 2)] |} (HospitalSolver_init 4)
    = Raise IndexError
  ∧ HospitalSolver_build
      {| args0 := [("A", ["R1"])]; args1 := [[ []; [] ]];
         args2 := []; args3 := [] |} (HospitalSolver_init 4) = Raise IndexError.
Proof. repeat split; vm_compute; reflexivity. Qed.

(** ** Outcome of the transition encoder *)

Lemma _nextDayShift_matrix_from_fst (l l' : list (nat * nat)) (m0 : list (list Z)) :
  l'.*1 = l.*1 →
  fold_result l' (λ dependence m, matrix_set m dependence.1 dependence.1 1%Z) m0
  = fold_result l (λ dependence m, matrix_set m dependence.1 dependence.1 1%Z) m0.
Proof.
  revert l' m0. induction l as [|p l IH]; intros [|p' l'] m0 Hfst; try done.
  injection Hfst as Hp Hl. simpl. rewrite Hp.
  destruct (matrix_set m0 p.1 p.1 1); simpl; [by apply IH|done].
Qed.

Lemma matrix_set_Ok_or_IndexError m i j v :
  matrix_set m i j v = Raise IndexError ∨ ∃ m', matrix_set m i j v = Ok m'.
Proof.
  unfold matrix_set. destruct (m !! i) as [row|]; [|by left]. simpl.
  destruct (row !! j); [right; by eexists|by left].
Qed.

Lemma _nextDayShift_value arg self :
  vars_ok self →
  ((∀ p, p ∈ arg → p.1 < numShifts self) → ∃ self', _nextDayShift arg self = Ok self')
  ∧ ((∃ p, p ∈ arg ∧ numShifts self ≤ p.1) → _nextDayShift arg self = Raise IndexError)
  ∧ (∀ arg', arg'.*1 = arg.*1 → _nextDayShift arg' self = _nextDayShift arg self).
Proof.
  intros Hv. split; [|split].
  - intros Hlt. unfold _nextDayShift.
    destruct (_nextDayShift_matrix_total arg self Hlt) as [m Hm]. rewrite Hm.
    cbn [mbind result_bind rbind]. rewrite (_nextDayShift_adds_shape _ _ _ Hv Hm).
    by eexists.
  - intros (p & Hp & Hge). unfold _nextDayShift.
    destruct (_nextDayShift_matrix arg self) as [m|e] eqn:Hm.
    + apply _nextDayShift_matrix_cells in Hm as [Hlt _]. specialize (Hlt p Hp). lia.
    + unfold _nextDayShift_matrix in Hm.
      destruct (fold_result_Ok_or_Raise
                  (λ (dependence : nat * nat) m, matrix_set m dependence.1 dependence.1 1%Z)
                  arg (replicate (numShifts self) (replicate (numShifts self) 0%Z))
                  IndexError) as [Hr|[m Hr]].
      * intros q m' _. apply matrix_set_Ok_or_IndexError.
      * rewrite Hr in Hm. by injection Hm as <-.
      * rewrite Hr in Hm. done.
  - intros arg' Hfst. unfold _nextDayShift, _nextDayShift_matrix.
    by rewrite (_nextDayShift_matrix_from_fst arg arg').
Qed.

(** X18: [_nextDayShift] on a session with a well-formed variable grid: it
    succeeds when the first component of every declared pair is a shift of the
    session, raises [IndexError] when some first component is not, and never
    reads the second components: two declarations with the same first
    components give the same result. *)
Theorem nextDayShift_outcome arg self :
  vars_ok self →
  ((∀ p, p ∈ arg → p.1 < numShifts self) → ∃ self', _nextDayShift arg self = Ok self')
  ∧ ((∃ p, p ∈ arg ∧ numShifts self ≤ p.1) → _nextDayShift arg self = Raise IndexError)
  ∧ (∀ arg', arg'.*1 = arg.*1 → _nextDayShift arg' self = _nextDayShift arg self).
Proof. apply _nextDayShift_value. Qed.

Lemma nextDayShift_outcome_witness :
  ((∀ p, p ∈ [(2, 0)] → p.1 < numShifts two_day_session) →
     ∃ self', _nextDayShift [(2, 0)] two_day_session = Ok self')
  ∧ ((∃ p, p ∈ [(2, 0)] ∧ numShifts two_day_session ≤ p.1) →
       _nextDayShift [(2, 0)] two_day_session = Raise IndexError)
  ∧ (∀ arg', arg'.*1 = [(2, 0)].*1 →
       _nextDayShift arg' two_day_session = _nextDayShift [(2, 0)] two_day_session).
Proof.
  apply (nextDayShift_outcome [(2, 0)] two_day_session).
  vm_compute. reflexivity.
Defined.

(** A pair whose second component is no shift at all is accepted, and gives
    the same session as the pair (2, 0); a first component that is no shift is
    rejected. *)
Example nextDayShift_destination_unread :
  _nextDayShift [(2, 7)] two_day_session = Ok two_day_session_night
  ∧ _nextDayShift [(7, 0)] two_day_session = Raise IndexError.
Proof. split; vm_compute; reflexivity. Qed.
